(** * SecureDigitalWallet: QR verification matcher, QR payload parser and
      submission codec

    A shallow embedding of
    - [src/frontend/src/utils/qrParser.js]            ([parseQRData]),
    - [src/frontend/src/utils/submissionStore.js]     ([encryptSubmissionData],
      [decryptSubmissionData], [getSubmissions]),
    - [src/frontend/src/components/AdminDashboard.jsx] ([validateQRData],
      [handleQRScan] and the filter of the attribute-verification panel),
    together with the properties the specification states about them,
    and of the code around them: the document store in local-storage
    mode and the submission, setting and document functions of
    [firebaseService], the queue functions of [submissionStore.js], the
    QR generator, and the masking and field encryption of
    [src/frontend/src/utils/encryption.js].

    JavaScript values are a dynamically typed tree ([jsval]); a JavaScript
    object used as a record is a finite map from property names to values.
    Code that can throw lives in the [result] monad, and a [try]/[catch]
    is a [match] on it.  Everything the program calls but does not define
    (ECMAScript built-ins, the URL API, [atob], CryptoJS) is a field of the
    record [Platform]; general theorems quantify over every platform, and
    a small executable reference platform is used to run the code on
    concrete inputs. *)

From Stdlib Require Import ZArith NArith String Ascii List Bool Lia.
From stdpp Require Import base option list gmap strings pretty.
Import ListNotations.

Local Open Scope string_scope.
Local Open Scope Z_scope.

(** ** JavaScript values *)

Module JS.

(** Strings are byte strings: the UTF-8 encoding of the JavaScript string.
    Numbers are the integer-valued numbers (every number this program
    compares or converts is a timestamp in milliseconds, or is only tested
    for being zero). *)
#[warning="-register-all"]
Inductive jsval : Type :=
| JUndef
| JNull
| JBool (b : bool)
| JNum (n : Z)
| JStr (s : string)
| JArr (l : list jsval)
| JObj (m : gmap string jsval).

(** A thrown [Error] object: its constructor name and its [message]. *)
Record exn : Type := Exn { exn_name : string; exn_message : string }.

Inductive result (A : Type) : Type :=
| Ok (a : A)
| Throw (e : exn).

Arguments Ok {A} a.
Arguments Throw {A} e.

Definition bind {A B : Type} (r : result A) (k : A -> result B) : result B :=
  match r with
  | Ok a => k a
  | Throw e => Throw e
  end.

(** ToBoolean *)
Definition truthy (v : jsval) : bool :=
  match v with
  | JUndef | JNull => false
  | JBool b => b
  | JNum n => negb (n =? 0)
  | JStr s => negb (String.eqb s EmptyString)
  | JArr _ | JObj _ => true
  end.

Definition nullish (v : jsval) : bool :=
  match v with
  | JUndef | JNull => true
  | _ => false
  end.

(** [a === b].  Two objects (or arrays) are strictly equal only when they
    are the same reference; every comparison in this program is between a
    value read from the scanned payload and a value read from a stored
    submission, which come from different [JSON.parse] calls, so two
    objects are never the same reference. *)
Definition strict_eq (a b : jsval) : bool :=
  match a, b with
  | JUndef, JUndef => true
  | JNull, JNull => true
  | JBool x, JBool y => Bool.eqb x y
  | JNum x, JNum y => (x =? y)
  | JStr x, JStr y => String.eqb x y
  | _, _ => false
  end.

(** [a || b] and [a ?? b] on values *)
Definition js_or (a b : jsval) : jsval := if truthy a then a else b.
Definition js_coalesce (a b : jsval) : jsval := if nullish a then b else a.

(** [o.k] on an object literal or a parsed record: an absent property
    reads as [undefined]. *)
Definition prop (o : gmap string jsval) (k : string) : jsval :=
  default JUndef (o !! k).

Definition is_string (v : jsval) : bool :=
  match v with
  | JStr _ => true
  | _ => false
  end.

(** [haystack.includes(needle)] *)
Fixpoint str_prefix (p s : string) : bool :=
  match p, s with
  | EmptyString, _ => true
  | String a p', String b s' => Ascii.eqb a b && str_prefix p' s'
  | String _ _, EmptyString => false
  end.

Fixpoint str_includes (needle hay : string) : bool :=
  str_prefix needle hay ||
  match hay with
  | EmptyString => false
  | String _ hay' => str_includes needle hay'
  end.

(** [s.replace(/\+/g, '%20')] *)
Fixpoint replace_plus (s : string) : string :=
  match s with
  | EmptyString => EmptyString
  | String c s' =>
      if Ascii.eqb c "+"%char then String "%" (String "2" (String "0" (replace_plus s')))
      else String c (replace_plus s')
  end.

End JS.

Export JS.

Declare Scope js_scope.
Delimit Scope js_scope with js.
Notation "'let!' x ':=' c1 'in' c2" := (bind c1 (fun x => c2))
  (at level 10, x name, c1 at level 100, c2 at level 200) : js_scope.
Local Open Scope js_scope.

(** ** The platform

    What the program calls and does not define.  [WordArray] is CryptoJS's
    byte buffer, [Salt] the randomness [CryptoJS.AES.encrypt] draws. *)

Definition WordArray : Type := string.
Definition Salt : Type := string.

Record Platform : Type := {
  (** [JSON.parse(text)]; throws a [SyntaxError] *)
  JSON_parse : string -> result jsval;
  (** [JSON.stringify(value)]: a string, or [undefined] ([None]); it does
      not throw on a value of [jsval], which has no cycle *)
  JSON_stringify : jsval -> option string;
  (** [String(value)] for a value that is not a string *)
  js_String : jsval -> string;
  (** [s.toLowerCase()] and [s.trim()] *)
  String_toLowerCase : string -> string;
  String_trim : string -> string;
  (** [decodeURIComponent(s)]; throws a [URIError] *)
  decodeURIComponent : string -> result string;
  (** [Date.parse(s)]: a time value in milliseconds, or [NaN] ([None]) *)
  Date_parse : string -> option Z;
  (** the [TypeError] of reading property [m] of [undefined] or [null],
      or of calling method [m] on a value that has none *)
  engine_TypeError : jsval -> string -> exn;
  (** [new URL(s).searchParams], as its list of decoded name/value pairs;
      throws a [TypeError] when [s] is not a URL *)
  URL_searchParams : string -> result (list (string * string));
  (** [atob(s)]; throws an [InvalidCharacterError] *)
  atob : string -> result string;
  (** [CryptoJS.AES.encrypt(message, passphrase).toString()] *)
  AES_encrypt : option string -> string -> Salt -> result string;
  (** [CryptoJS.AES.decrypt(ciphertext, passphrase)] *)
  AES_decrypt : jsval -> string -> result WordArray;
  (** [wordArray.toString(CryptoJS.enc.Utf8)] *)
  enc_Utf8_stringify : WordArray -> result string
}.

(** ** Property access that can throw *)

Section Access.
Context (P : Platform).

(** [v.k] for a property name [k] that no built-in prototype defines (the
    only names this program reads from parsed data are such names):
    reading from [undefined] or [null] throws, a primitive or an array
    has no such property. *)
Definition member (v : jsval) (k : string) : result jsval :=
  match v with
  | JUndef | JNull => Throw (engine_TypeError P v k)
  | JObj m => Ok (prop m k)
  | _ => Ok JUndef
  end.

(** [v?.k]: never throws. *)
Definition opt_member (v : jsval) (k : string) : jsval :=
  match v with
  | JObj m => prop m k
  | _ => JUndef
  end.

(** [v.toLowerCase().trim()]: only a string has [toLowerCase]. *)
Definition lower_trim (v : jsval) : result jsval :=
  match v with
  | JStr s => Ok (JStr (String_trim P (String_toLowerCase P s)))
  | _ => Throw (engine_TypeError P v "toLowerCase")
  end.

(** [v?.toLowerCase().trim()] *)
Definition opt_lower_trim (v : jsval) : result jsval :=
  if nullish v then Ok JUndef else lower_trim v.

(** The string a built-in sees when handed [v] (ToString). *)
Definition to_str (v : jsval) : string :=
  match v with
  | JStr s => s
  | _ => js_String P v
  end.

End Access.

(** ** QRPayloadParser: [parseQRData] (qrParser.js) *)

Section QRParser.
Context (P : Platform).

(** [url.searchParams.get(name)]: the value of the first pair with that
    name, or [null]. *)
Fixpoint searchParams_get (params : list (string * string)) (name : string) : jsval :=
  match params with
  | [] => JNull
  | (k, v) :: rest => if String.eqb k name then JStr v else searchParams_get rest name
  end.

(** [input.replace(/\+/g, '%20')]: only a string has [replace]. *)
Definition replace_plus_of (input : jsval) : result string :=
  match input with
  | JStr s => Ok (replace_plus s)
  | _ => Throw (engine_TypeError P input "replace")
  end.

(** Lines 5-8: normalise a non-string input. *)
Definition normalizeInput (input : jsval) : jsval :=
  match input with
  | JStr _ => input
  | _ =>
      js_coalesce (js_coalesce (opt_member input "text") (opt_member input "data"))
                  (JStr (to_str P (js_coalesce input (JStr EmptyString))))
  end.

(** Lines 10-32, the URL strategy.  It either returns the parsed payload
    ([inl]) or hands the input to the later strategies ([inr]), replaced
    by the decoded parameter when that parameter was found, decoded, and
    was not JSON.  Every exception of the block is swallowed by the outer
    [catch], which leaves the input as it was. *)
Definition urlStrategy (input : jsval) : jsval + jsval :=
  match URL_searchParams P (to_str P input) with
  | Throw _ => inr input
  | Ok params =>
      let payload :=
        js_or (js_or (js_or (searchParams_get params "data")
                            (searchParams_get params "payload"))
                     (searchParams_get params "q"))
              (searchParams_get params "p") in
      if truthy payload then
        match (let! r := replace_plus_of payload in decodeURIComponent P r) with
        | Throw _ => inr input
        | Ok decoded =>
            match JSON_parse P decoded with
            | Ok v => inl v
            | Throw _ => inr (JStr decoded)
            end
        end
      else inr input
  end.

Definition parseFailure : exn := Exn "Error" "Unable to parse QR data as JSON".

Definition parseQRData (input0 : jsval) : result jsval :=
  let input := normalizeInput input0 in
  match urlStrategy input with
  | inl v => Ok v
  | inr input =>
      (* 1) plain JSON *)
      match JSON_parse P (to_str P input) with
      | Ok v => Ok v
      | Throw _ =>
          (* 2) URL-decoding then JSON *)
          match (let! r := replace_plus_of input in
                 let! decoded := decodeURIComponent P r in
                 JSON_parse P decoded) with
          | Ok v => Ok v
          | Throw _ =>
              (* 3) base64 then JSON *)
              match (let! text := atob P (to_str P input) in JSON_parse P text) with
              | Ok v => Ok v
              | Throw _ => Throw parseFailure
              end
          end
      end
  end.

End QRParser.

(** ** SubmissionCodec and the bulk read (submissionStore.js) *)

Section SubmissionStore.
Context (P : Platform).

Definition ENCRYPTION_KEY : string := "secure-digital-wallet-2024".

(** The codec parameterised by the passphrase; the program only ever uses
    [ENCRYPTION_KEY]. *)
Definition encryptWith (key : string) (salt : Salt) (data : jsval) : jsval :=
  let jsonString := JSON_stringify P data in
  match AES_encrypt P jsonString key salt with
  | Ok encrypted => JStr encrypted
  | Throw _ => JNull
  end.

Definition decryptWith (key : string) (encryptedData : jsval) : jsval :=
  match (let! decrypted := AES_decrypt P encryptedData key in
         let! jsonString := enc_Utf8_stringify P decrypted in
         JSON_parse P jsonString) with
  | Ok v => v
  | Throw _ => JNull
  end.

Definition encryptSubmissionData (salt : Salt) (data : jsval) : jsval :=
  encryptWith ENCRYPTION_KEY salt data.

Definition decryptSubmissionData (encryptedData : jsval) : jsval :=
  decryptWith ENCRYPTION_KEY encryptedData.

(** The own enumerable properties [{...v}] copies: those of an object,
    the indices of an array, the indices of a string (one per character;
    here one per byte), none for a number or a boolean. *)
Fixpoint index_props (i : nat) (l : list jsval) : gmap string jsval :=
  match l with
  | [] => ∅
  | x :: l' => <[pretty i := x]> (index_props (S i) l')
  end.

Fixpoint string_chars (s : string) : list jsval :=
  match s with
  | EmptyString => []
  | String c s' => JStr (String c EmptyString) :: string_chars s'
  end.

Definition spread_props (v : jsval) : gmap string jsval :=
  match v with
  | JObj m => m
  | JArr l => index_props 0 l
  | JStr s => index_props 0 (string_chars s)
  | _ => ∅
  end.

(** The object literal [{ id: submission.id, ...decryptedData,
    submittedAt: submission.submittedAt,
    status: submission.status || 'pending' }]: a later property overrides
    an earlier one of the same name. *)
Definition decorate (submission : gmap string jsval) (decryptedData : jsval)
  : gmap string jsval :=
  <["status" := js_or (prop submission "status") (JStr "pending")]>
    (<["submittedAt" := prop submission "submittedAt"]>
       (spread_props decryptedData ∪ {["id" := prop submission "id"]})).

(** The callback of [submissions.map]: [None] is the [null] that the
    following [filter] removes. *)
Definition decryptOne (submission : gmap string jsval) : option (gmap string jsval) :=
  if negb (truthy (prop submission "encryptedData")) then None
  else
    let decryptedData := decryptSubmissionData (prop submission "encryptedData") in
    if negb (truthy decryptedData) then None
    else Some (decorate submission decryptedData).

(** [getSubmissions], given the list [firebaseService.getAllSubmissions()]
    resolved to. *)
Definition getSubmissions (submissions : list (gmap string jsval))
  : list (gmap string jsval) :=
  omap decryptOne submissions.

End SubmissionStore.

(** ** VerificationMatcher: [validateQRData] and [handleQRScan]
       (AdminDashboard.jsx) *)

(** One entry of [attributeVerification]. *)
Record AttrDetail : Type := {
  verified : bool;
  scanned : jsval;
  stored : jsval;
  requested : jsval
}.

(** The [attributeVerification] property of a verdict: absent in the
    no-match and failure verdicts, [null] in the expired verdict, and the
    object literal of lines 236-267 (its entries in source order)
    otherwise. *)
Inductive AttrVerdict : Type :=
| AVUndefined
| AVNull
| AVEntries (entries : list (string * AttrDetail)).

(** The object [validateQRData] returns. *)
Record ValidationResult : Type := {
  isValid : bool;
  submission : option (gmap string jsval);
  scannedData : jsval;
  message : string;
  attributeVerification : AttrVerdict
}.

Definition msgExpired : string :=
  "QR code has expired. Please generate a new QR code for verification.".
Definition msgVerified : string :=
  "QR code data matches the submission records. User identity verified!".
Definition msgDiscrepancy : string :=
  "QR code found matching user but some data discrepancies detected.".
Definition msgNoMatch : string :=
  "No matching submission found for this QR code data.".
Definition msgInvalidFormat : string := "Invalid QR code format. ".

Section Matcher.
Context (P : Platform).

(** [Array.prototype.find] with a callback that can throw: the elements
    are visited in order and the first exception ends the search. *)
Fixpoint find_r {A : Type} (f : A -> result bool) (l : list A) : result (option A) :=
  match l with
  | [] => Ok None
  | x :: l' =>
      let! b := f x in
      if b then Ok (Some x) else find_r f l'
  end.

(** Lines 171-174 and 211-214: [a === b] or one of the three
    "no date" alternatives. *)
Definition dobCheck (eq_ab : bool) (storedDob scannedDob : jsval) : bool :=
  eq_ab
  || (strict_eq storedDob (JStr "N/A") && negb (truthy scannedDob))
  || (strict_eq storedDob (JStr "Not found") && negb (truthy scannedDob))
  || (negb (truthy scannedDob)
      && (strict_eq storedDob (JStr "N/A") || strict_eq storedDob (JStr "Not found"))).

(** Lines 170-187: the array [[nameMatch, dobMatch, aadhaarMatch,
    mobileMatch, usernameMatch]] of the [find] callback.  The left
    operand of [===] is evaluated before the right one. *)
Definition matchChecks (parsedData : jsval) (submission : gmap string jsval)
  : result (list bool) :=
  let! subName := lower_trim P (prop submission "name") in
  let! pName0 := member P parsedData "name" in
  let! pName := opt_lower_trim P pName0 in
  let nameMatch := strict_eq subName pName in
  let! pDob := member P parsedData "dob" in
  let dobMatch :=
    dobCheck (strict_eq (prop submission "dob") pDob) (prop submission "dob") pDob in
  let! pAadhaar := member P parsedData "aadhaar" in
  let aadhaarMatch := strict_eq (prop submission "aadhaar") pAadhaar in
  let! pMobile := member P parsedData "mobile" in
  let mobileMatch := strict_eq (prop submission "mobile") pMobile in
  let! pUsername := member P parsedData "username" in
  let usernameMatch := strict_eq (prop submission "username") pUsername in
  Ok [nameMatch; dobMatch; aadhaarMatch; mobileMatch; usernameMatch].

(** [checks.filter(Boolean).length] *)
Definition matchCount (checks : list bool) : nat :=
  length (List.filter (λ b : bool, b) checks).

(** Lines 168-190: the callback returns [matchCount >= 3]. *)
Definition matchPredicate (parsedData : jsval) (submission : gmap string jsval)
  : result bool :=
  let! checks := matchChecks parsedData submission in
  Ok (3 <=? matchCount checks)%nat.

Definition matchingSubmission (parsedData : jsval) (submissions : list (gmap string jsval))
  : result (option (gmap string jsval)) :=
  find_r (matchPredicate parsedData) submissions.

(** TimeClip: a time value beyond 8.64e15 ms is [NaN]. *)
Definition TimeClip (n : Z) : option Z :=
  if (Z.abs n <=? 8640000000000000) then Some n else None.

(** The time value of [new Date(v)]; [None] is [NaN] (an invalid date). *)
Definition Date_of (v : jsval) : option Z :=
  match v with
  | JUndef => None
  | JNull => Some 0
  | JBool b => Some (if b then 1 else 0)
  | JNum n => TimeClip n
  | JStr s => Date_parse P s
  | JArr _ | JObj _ => Date_parse P (js_String P v)
  end.

(** Lines 194-197.  [hoursDiff = (now - verifiedAt) / (1000 * 60 * 60)]
    and [isExpired = hoursDiff > 24]: the quotient exceeds 24 exactly when
    the difference in milliseconds exceeds [24 * 3600000]; every
    comparison with [NaN] is false. *)
Definition isExpired (now : Z) (verifiedAt : option Z) : bool :=
  match verifiedAt with
  | None => false
  | Some t => (24 * (1000 * 60 * 60) <? now - t)
  end.

(** [parsedData.verificationRequested?.attr || false] *)
Definition requestedFlag (parsedData : jsval) (attr : string) : result jsval :=
  let! vr := member P parsedData "verificationRequested" in
  Ok (js_or (opt_member vr attr) (JBool false)).

(** Lines 192-276: what follows the search. *)
Definition verdictFor (now : Z) (parsedData : jsval)
    (found : option (gmap string jsval)) : result ValidationResult :=
  match found with
  | Some matchingSubmission =>
      let! verifiedAtField := member P parsedData "verifiedAt" in
      let verifiedAt := Date_of verifiedAtField in
      if isExpired now verifiedAt then
        Ok {| isValid := false;
              submission := Some matchingSubmission;
              scannedData := parsedData;
              message := msgExpired;
              attributeVerification := AVNull |}
      else
        let! pName0 := member P parsedData "name" in
        let! pName := opt_lower_trim P pName0 in
        let! subName := lower_trim P (prop matchingSubmission "name") in
        let nameValid := strict_eq pName subName in
        let! pDob := member P parsedData "dob" in
        let dobValid :=
          dobCheck (strict_eq pDob (prop matchingSubmission "dob"))
                   (prop matchingSubmission "dob") pDob in
        let! pAadhaar := member P parsedData "aadhaar" in
        let aadhaarValid := strict_eq pAadhaar (prop matchingSubmission "aadhaar") in
        let! pMobile := member P parsedData "mobile" in
        let mobileValid := strict_eq pMobile (prop matchingSubmission "mobile") in
        let! pUsername := member P parsedData "username" in
        let usernameValid := strict_eq pUsername (prop matchingSubmission "username") in
        let isDataValid :=
          nameValid && dobValid && aadhaarValid && mobileValid && usernameValid in
        let! pNameRaw := member P parsedData "name" in
        let! reqName := requestedFlag parsedData "name" in
        let! reqAge := requestedFlag parsedData "age" in
        let! reqMobile := requestedFlag parsedData "mobile" in
        let! reqAadhaar := requestedFlag parsedData "aadhaar" in
        let! pAddress := member P parsedData "address" in
        let! reqAddress := requestedFlag parsedData "address" in
        Ok {| isValid := isDataValid;
              submission := Some matchingSubmission;
              scannedData := parsedData;
              message := if isDataValid then msgVerified else msgDiscrepancy;
              attributeVerification := AVEntries
                [ ("name", {| verified := nameValid; scanned := pNameRaw;
                              stored := prop matchingSubmission "name";
                              requested := reqName |});
                  ("age", {| verified := dobValid; scanned := pDob;
                             stored := prop matchingSubmission "dob";
                             requested := reqAge |});
                  ("mobile", {| verified := mobileValid; scanned := pMobile;
                                stored := prop matchingSubmission "mobile";
                                requested := reqMobile |});
                  ("aadhaar", {| verified := aadhaarValid; scanned := pAadhaar;
                                 stored := prop matchingSubmission "aadhaar";
                                 requested := reqAadhaar |});
                  ("address",
                   {| verified := strict_eq pAddress (prop matchingSubmission "address");
                      scanned := pAddress;
                      stored := prop matchingSubmission "address";
                      requested := reqAddress |}) ] |}
  | None =>
      Ok {| isValid := false;
            submission := None;
            scannedData := parsedData;
            message := msgNoMatch;
            attributeVerification := AVUndefined |}
  end.

(** The body of the [try] block once the payload is parsed. *)
Definition validateParsed (now : Z) (submissions : list (gmap string jsval))
    (parsedData : jsval) : result ValidationResult :=
  let! found := matchingSubmission parsedData submissions in
  verdictFor now parsedData found.

(** Lines 277-296: the [catch] block. *)
Definition failureVerdict (error : exn) : ValidationResult :=
  let errorMessage :=
    if str_includes "Unexpected token" (exn_message error) then
      msgInvalidFormat +:+ "The QR code does not contain valid JSON data."
    else if str_includes "No data parameter" (exn_message error) then
      msgInvalidFormat +:+ "The QR code URL does not contain a data parameter."
    else
      msgInvalidFormat +:+ "Parse error: " +:+ exn_message error in
  {| isValid := false;
     submission := None;
     scannedData := JNull;
     message := errorMessage;
     attributeVerification := AVUndefined |}.

(** [validateQRData(qrData)], with [submissions] the component state and
    [now] the clock [new Date()] reads. *)
Definition validateQRData (now : Z) (submissions : list (gmap string jsval))
    (qrData : jsval) : ValidationResult :=
  match (let! parsedData := parseQRData P qrData in
         validateParsed now submissions parsedData) with
  | Ok r => r
  | Throw error => failureVerdict error
  end.

(** A call the scan handler makes on the submission store. *)
Inductive StoreCall : Type :=
| updateSubmissionStatus (id : jsval) (status : string).

(** What a scan leaves behind: the state it sets ([None]: not set) and
    the calls it makes.  ([setScannedData] stores the [scannedData] of the
    verdict.) *)
Record ScanOutcome : Type := {
  qrValidationResult : option ValidationResult;
  cameraError : option string;
  rawQrData : option jsval;
  storeCalls : list StoreCall
}.

(** Lines 305-308: the scanner output normalised to its text. *)
Definition scanContent (data : jsval) : jsval :=
  match data with
  | JStr _ => data
  | _ => js_coalesce (js_coalesce (opt_member data "text") (opt_member data "data"))
                     (JStr EmptyString)
  end.

(** [handleQRScan(data)] *)
Definition handleQRScan (now : Z) (submissions : list (gmap string jsval))
    (data : jsval) : ScanOutcome :=
  if negb (truthy data) then
    {| qrValidationResult := None; cameraError := None; rawQrData := None;
       storeCalls := [] |}
  else
    let content := scanContent data in
    if negb (truthy content) then
      {| qrValidationResult := None;
         cameraError := Some "Invalid QR: unreadable content.";
         rawQrData := None;
         storeCalls := [] |}
    else
      let raw :=
        match data with
        | JStr _ => data
        | _ => from_option JStr JUndef (JSON_stringify P data)
        end in
      let validationResult := validateQRData now submissions content in
      {| qrValidationResult := Some validationResult;
         cameraError := None;
         rawQrData := Some raw;
         storeCalls :=
           if isValid validationResult then
             match submission validationResult with
             | Some s => [updateSubmissionStatus (prop s "id") "verified"]
             | None => []
             end
           else [] |}.

(** Lines 1018-1023: the entries the verification panel shows,
    [Object.entries(attributeVerification).filter(([, details]) =>
    details.requested)]; nothing is shown when the property is absent or
    [null]. *)
Definition displayedAttributes (r : ValidationResult) : list (string * AttrDetail) :=
  match attributeVerification r with
  | AVEntries entries => List.filter (λ e, truthy (requested (snd e))) entries
  | _ => []
  end.

End Matcher.

(** ** A reference platform

    An executable model of the built-ins, used to run the program on
    concrete inputs.  It covers ASCII case mapping and white space, JSON
    texts whose numbers are integer literals, URLs of the shape
    [scheme://host/path?query#fragment], the date format
    [Date.prototype.toISOString] produces, and, in place of CryptoJS's
    AES, a repeating-key XOR stream cipher written in hexadecimal. *)

Module Ref.

Definition code (c : ascii) : Z := Z.of_N (N_of_ascii c).
Definition chr (n : Z) : ascii := ascii_of_N (Z.to_N n).

Definition in_range (lo hi : Z) (c : ascii) : bool :=
  (lo <=? code c) && (code c <=? hi).

Definition is_digit (c : ascii) : bool := in_range 48 57 c.
Definition is_upper (c : ascii) : bool := in_range 65 90 c.
Definition is_lower (c : ascii) : bool := in_range 97 122 c.
Definition is_alpha (c : ascii) : bool := is_upper c || is_lower c.

Definition digit_val (c : ascii) : option Z :=
  if is_digit c then Some (code c - 48) else None.

Definition hex_val (c : ascii) : option Z :=
  if is_digit c then Some (code c - 48)
  else if in_range 65 70 c then Some (code c - 55)
  else if in_range 97 102 c then Some (code c - 87)
  else None.

Definition hex_byte (h l : ascii) : option Z :=
  match hex_val h, hex_val l with
  | Some a, Some b => Some (16 * a + b)
  | _, _ => None
  end.

Definition hex_digit (n : Z) : ascii :=
  if n <? 10 then chr (48 + n) else chr (87 + n).

Definition hex_of_byte (b : Z) : string :=
  String (hex_digit (b / 16)) (String (hex_digit (b mod 16)) EmptyString).

Fixpoint str_map (f : ascii -> ascii) (s : string) : string :=
  match s with
  | EmptyString => EmptyString
  | String c s' => String (f c) (str_map f s')
  end.

Fixpoint str_rev_onto (s acc : string) : string :=
  match s with
  | EmptyString => acc
  | String c s' => str_rev_onto s' (String c acc)
  end.

Definition str_rev (s : string) : string := str_rev_onto s EmptyString.

Fixpoint str_drop_while (f : ascii -> bool) (s : string) : string :=
  match s with
  | EmptyString => EmptyString
  | String c s' => if f c then str_drop_while f s' else s
  end.

Fixpoint str_drop (n : nat) (s : string) : string :=
  match n, s with
  | S n', String _ s' => str_drop n' s'
  | _, _ => s
  end.

(** The part of [s] before the first character satisfying [f], and the
    rest from that character on. *)
Fixpoint str_break (f : ascii -> bool) (s : string) : string * string :=
  match s with
  | EmptyString => (EmptyString, EmptyString)
  | String c s' =>
      if f c then (EmptyString, s)
      else let '(a, b) := str_break f s' in (String c a, b)
  end.

Fixpoint str_forall (f : ascii -> bool) (s : string) : bool :=
  match s with
  | EmptyString => true
  | String c s' => f c && str_forall f s'
  end.

Fixpoint str_join (sep : string) (l : list string) : string :=
  match l with
  | [] => EmptyString
  | [x] => x
  | x :: l' => x +:+ sep +:+ str_join sep l'
  end.

(** *** Strings *)

Definition toLowerCase (s : string) : string :=
  str_map (fun c => if is_upper c then chr (code c + 32) else c) s.

(** White space and line terminators, within ASCII. *)
Definition is_space (c : ascii) : bool := in_range 9 13 c || (code c =? 32).

Definition trim (s : string) : string :=
  str_rev (str_drop_while is_space (str_rev (str_drop_while is_space s))).

Definition typeError (v : jsval) (m : string) : exn :=
  match v with
  | JUndef =>
      Exn "TypeError" ("Cannot read properties of undefined (reading '" +:+ m +:+ "')")
  | JNull =>
      Exn "TypeError" ("Cannot read properties of null (reading '" +:+ m +:+ "')")
  | _ => Exn "TypeError" (m +:+ " is not a function")
  end.

(** *** UTF-8 *)

(** Whether a lead byte and its continuation bytes encode a scalar value
    in shortest form. *)
Definition utf8_seq_ok (lead : Z) (conts : list Z) : bool :=
  forallb (fun c => (128 <=? c) && (c <=? 191)) conts &&
  match conts with
  | [_] => (194 <=? lead) && (lead <=? 223)
  | [c1; _] =>
      ((lead =? 224) && (160 <=? c1))
      || ((225 <=? lead) && (lead <=? 236))
      || ((lead =? 237) && (c1 <=? 159))
      || ((238 <=? lead) && (lead <=? 239))
  | [c1; _; _] =>
      ((lead =? 240) && (144 <=? c1))
      || ((241 <=? lead) && (lead <=? 243))
      || ((lead =? 244) && (c1 <=? 143))
  | _ => false
  end.

(** The number of continuation bytes a lead byte announces. *)
Definition utf8_conts (lead : Z) : option nat :=
  if lead <? 128 then Some 0%nat
  else if (192 <=? lead) && (lead <? 224) then Some 1%nat
  else if (224 <=? lead) && (lead <? 240) then Some 2%nat
  else if (240 <=? lead) && (lead <? 248) then Some 3%nat
  else None.

Fixpoint utf8_valid_bytes (fuel : nat) (l : list Z) : bool :=
  match fuel with
  | O => false
  | S fuel' =>
      match l with
      | [] => true
      | b :: rest =>
          match utf8_conts b with
          | Some O => utf8_valid_bytes fuel' rest
          | Some n =>
              utf8_seq_ok b (take n rest) && utf8_valid_bytes fuel' (drop n rest)
          | None => false
          end
      end
  end.

Fixpoint bytes_of (s : string) : list Z :=
  match s with
  | EmptyString => []
  | String c s' => code c :: bytes_of s'
  end.

Fixpoint string_of_bytes (l : list Z) : string :=
  match l with
  | [] => EmptyString
  | b :: l' => String (chr b) (string_of_bytes l')
  end.

Definition utf8_valid (s : string) : bool :=
  utf8_valid_bytes (S (String.length s)) (bytes_of s).

(** The UTF-8 encoding of a code point of the Basic Multilingual Plane. *)
Definition utf8_encode (cp : Z) : string :=
  if cp <? 128 then string_of_bytes [cp]
  else if cp <? 2048 then string_of_bytes [192 + cp / 64; 128 + cp mod 64]
  else string_of_bytes [224 + cp / 4096; 128 + (cp / 64) mod 64; 128 + cp mod 64].

(** *** JSON *)

Definition is_json_ws (c : ascii) : bool :=
  (code c =? 32) || (code c =? 9) || (code c =? 10) || (code c =? 13).

Definition skip_ws (s : string) : string := str_drop_while is_json_ws s.

Fixpoint parse_digits (acc : Z) (s : string) : Z * string :=
  match s with
  | EmptyString => (acc, s)
  | String c s' =>
      match digit_val c with
      | Some d => parse_digits (10 * acc + d) s'
      | None => (acc, s)
      end
  end.

(** [int] of the JSON grammar: [0], or a non-zero digit followed by
    digits.  A fraction or an exponent is outside the model. *)
Definition parse_nat (s : string) : option (Z * string) :=
  match s with
  | EmptyString => None
  | String c s' =>
      match digit_val c with
      | None => None
      | Some d =>
          let '(n, rest) := if d =? 0 then (0, s') else parse_digits d s' in
          match rest with
          | String e _ =>
              if (code e =? 46) || (code e =? 101) || (code e =? 69) then None
              else Some (n, rest)
          | EmptyString => Some (n, rest)
          end
      end
  end.

Definition parse_number (s : string) : option (Z * string) :=
  match s with
  | String c s' =>
      if code c =? 45 then
        match parse_nat s' with
        | Some (n, rest) => Some (- n, rest)
        | None => None
        end
      else parse_nat s
  | EmptyString => None
  end.

Definition simple_escape (e : ascii) : option ascii :=
  let n := code e in
  if n =? 34 then Some (chr 34)          (* quote *)
  else if n =? 92 then Some (chr 92)     (* backslash *)
  else if n =? 47 then Some (chr 47)     (* slash *)
  else if n =? 98 then Some (chr 8)      (* b: backspace *)
  else if n =? 102 then Some (chr 12)    (* f: form feed *)
  else if n =? 110 then Some (chr 10)    (* n: line feed *)
  else if n =? 114 then Some (chr 13)    (* r: carriage return *)
  else if n =? 116 then Some (chr 9)     (* t: tab *)
  else None.

Definition hex4 (a b c d : ascii) : option Z :=
  match hex_byte a b, hex_byte c d with
  | Some h, Some l => Some (256 * h + l)
  | _, _ => None
  end.

(** The characters of a string literal after its opening quote, up to the
    closing quote.  A unicode escape of a surrogate is outside the model. *)
Fixpoint parse_string_body (s : string) : option (string * string) :=
  match s with
  | EmptyString => None
  | String c r =>
      if code c =? 34 then Some (EmptyString, r)
      else if code c =? 92 then
        match r with
        | EmptyString => None
        | String e r1 =>
            if code e =? 117 then
              match r1 with
              | String h1 (String h2 (String h3 (String h4 r2))) =>
                  match hex4 h1 h2 h3 h4 with
                  | Some cp =>
                      if (55296 <=? cp) && (cp <=? 57343) then None
                      else
                        match parse_string_body r2 with
                        | Some (str, rest) => Some (utf8_encode cp +:+ str, rest)
                        | None => None
                        end
                  | None => None
                  end
              | _ => None
              end
            else
              match simple_escape e with
              | Some x =>
                  match parse_string_body r1 with
                  | Some (str, rest) => Some (String x str, rest)
                  | None => None
                  end
              | None => None
              end
        end
      else if code c <? 32 then None
      else
        match parse_string_body r with
        | Some (str, rest) => Some (String c str, rest)
        | None => None
        end
  end.

Definition literal (lit : string) (v : jsval) (s : string) : option (jsval * string) :=
  if str_prefix lit s then Some (v, str_drop (String.length lit) s) else None.

Fixpoint parse_value (fuel : nat) (s : string) {struct fuel} : option (jsval * string) :=
  match fuel with
  | O => None
  | S fuel' =>
      match skip_ws s with
      | EmptyString => None
      | String c r =>
          if code c =? 123 then          (* opening brace *)
            match skip_ws r with
            | String c' r' =>
                if code c' =? 125 then Some (JObj ∅, r')
                else parse_members fuel' ∅ (String c' r')
            | EmptyString => None
            end
          else if code c =? 91 then      (* opening bracket *)
            match skip_ws r with
            | String c' r' =>
                if code c' =? 93 then Some (JArr [], r')
                else parse_elements fuel' [] (String c' r')
            | EmptyString => None
            end
          else if code c =? 34 then      (* string literal *)
            match parse_string_body r with
            | Some (str, rest) => Some (JStr str, rest)
            | None => None
            end
          else if code c =? 116 then literal "true" (JBool true) (String c r)
          else if code c =? 102 then literal "false" (JBool false) (String c r)
          else if code c =? 110 then literal "null" JNull (String c r)
          else
            match parse_number (String c r) with
            | Some (n, rest) => Some (JNum n, rest)
            | None => None
            end
      end
  end
with parse_members (fuel : nat) (acc : gmap string jsval) (s : string) {struct fuel}
  : option (jsval * string) :=
  match fuel with
  | O => None
  | S fuel' =>
      match skip_ws s with
      | String q r =>
          if code q =? 34 then
            match parse_string_body r with
            | Some (k, r1) =>
                match skip_ws r1 with
                | String colon r2 =>
                    if code colon =? 58 then
                      match parse_value fuel' r2 with
                      | Some (v, r3) =>
                          match skip_ws r3 with
                          | String d r4 =>
                              if code d =? 44 then parse_members fuel' (<[k := v]> acc) r4
                              else if code d =? 125 then Some (JObj (<[k := v]> acc), r4)
                              else None
                          | EmptyString => None
                          end
                      | None => None
                      end
                    else None
                | EmptyString => None
                end
            | None => None
            end
          else None
      | EmptyString => None
      end
  end
with parse_elements (fuel : nat) (acc : list jsval) (s : string) {struct fuel}
  : option (jsval * string) :=
  match fuel with
  | O => None
  | S fuel' =>
      match parse_value fuel' s with
      | Some (v, r1) =>
          match skip_ws r1 with
          | String d r2 =>
              if code d =? 44 then parse_elements fuel' (acc ++ [v])%list r2
              else if code d =? 93 then Some (JArr (acc ++ [v])%list, r2)
              else None
          | EmptyString => None
          end
      | None => None
      end
  end.

Definition syntaxError (s : string) : exn :=
  match skip_ws s with
  | EmptyString => Exn "SyntaxError" "Unexpected end of JSON input"
  | String c _ =>
      Exn "SyntaxError"
          ("Unexpected token '" +:+ String c EmptyString +:+ "', is not valid JSON")
  end.

Definition JSON_parse (s : string) : result jsval :=
  match parse_value (S (String.length s)) s with
  | Some (v, rest) =>
      match skip_ws rest with
      | EmptyString => Ok v
      | _ => Throw (syntaxError s)
      end
  | None => Throw (syntaxError s)
  end.

(** A string literal: the quote, the backslash and the control characters
    are escaped. *)
Fixpoint quote_body (s : string) : string :=
  match s with
  | EmptyString => EmptyString
  | String c s' =>
      let n := code c in
      let esc (e : Z) := String (chr 92) (String (chr e) (quote_body s')) in
      if n =? 34 then esc 34
      else if n =? 92 then esc 92
      else if n =? 8 then esc 98
      else if n =? 12 then esc 102
      else if n =? 10 then esc 110
      else if n =? 13 then esc 114
      else if n =? 9 then esc 116
      else if n <? 32 then
        String (chr 92) ("u00" +:+ hex_of_byte n +:+ quote_body s')
      else String c (quote_body s')
  end.

Definition quote (s : string) : string :=
  String (chr 34) (quote_body s +:+ String (chr 34) EmptyString).

(** [JSON.stringify] without indentation; [None] is [undefined].  An
    [undefined] array element is written [null], an [undefined] property
    is skipped.  The properties are written in the order of the map, not
    in insertion order. *)
Fixpoint stringify (v : jsval) : option string :=
  match v with
  | JUndef => None
  | JNull => Some "null"
  | JBool b => Some (if b then "true" else "false")
  | JNum n => Some (pretty n)
  | JStr s => Some (quote s)
  | JArr l =>
      Some ("[" +:+ str_join "," (map (fun x => default "null" (stringify x)) l) +:+ "]")
  | JObj m =>
      Some ("{" +:+
            str_join ","
              (map_fold (fun k x acc =>
                           match stringify x with
                           | Some t => (acc ++ [quote k +:+ ":" +:+ t])%list
                           | None => acc
                           end) [] m)
            +:+ "}")
  end.

(** [String(v)] *)
Fixpoint String_of (v : jsval) : string :=
  match v with
  | JUndef => "undefined"
  | JNull => "null"
  | JBool b => if b then "true" else "false"
  | JNum n => pretty n
  | JStr s => s
  | JArr l =>
      str_join "," (map (fun x => if nullish x then EmptyString else String_of x) l)
  | JObj _ => "[object Object]"
  end.

(** *** Percent-decoding *)

Definition read_pct (s : string) : option (Z * string) :=
  match s with
  | String p (String h (String l r)) =>
      if code p =? 37 then
        match hex_byte h l with
        | Some b => Some (b, r)
        | None => None
        end
      else None
  | _ => None
  end.

Fixpoint read_pcts (k : nat) (s : string) : option (list Z * string) :=
  match k with
  | O => Some ([], s)
  | S k' =>
      match read_pct s with
      | Some (b, r) =>
          match read_pcts k' r with
          | Some (bs, r') => Some (b :: bs, r')
          | None => None
          end
      | None => None
      end
  end.

(** [decodeURIComponent]: every [%] starts an escape, and the escaped
    bytes must form UTF-8; [None] is the [URIError]. *)
Fixpoint decode_strict (fuel : nat) (s : string) : option string :=
  match fuel with
  | O => None
  | S fuel' =>
      match s with
      | EmptyString => Some EmptyString
      | String c r =>
          if code c =? 37 then
            match read_pct s with
            | None => None
            | Some (b, r1) =>
                match utf8_conts b with
                | Some O =>
                    match decode_strict fuel' r1 with
                    | Some t => Some (String (chr b) t)
                    | None => None
                    end
                | Some n =>
                    match read_pcts n r1 with
                    | Some (bs, r2) =>
                        if utf8_seq_ok b bs then
                          match decode_strict fuel' r2 with
                          | Some t => Some (string_of_bytes (b :: bs) +:+ t)
                          | None => None
                          end
                        else None
                    | None => None
                    end
                | None => None
                end
            end
          else
            match decode_strict fuel' r with
            | Some t => Some (String c t)
            | None => None
            end
      end
  end.

Definition decodeURIComponent (s : string) : result string :=
  match decode_strict (S (String.length s)) s with
  | Some t => Ok t
  | None => Throw (Exn "URIError" "URI malformed")
  end.

(** The percent-decoding of the URL standard: a [%] that does not start
    an escape stands for itself. *)
Fixpoint decode_lenient (s : string) : string :=
  match s with
  | EmptyString => EmptyString
  | String c r =>
      if code c =? 37 then
        match r with
        | String h (String l r') =>
            match hex_byte h l with
            | Some b => String (chr b) (decode_lenient r')
            | None => String c (decode_lenient r)
            end
        | _ => String c (decode_lenient r)
        end
      else String c (decode_lenient r)
  end.

(** *** URL and URLSearchParams *)

Fixpoint split_on (fuel : nat) (sep : ascii) (s : string) : list string :=
  match fuel with
  | O => [s]
  | S fuel' =>
      let '(a, b) := str_break (Ascii.eqb sep) s in
      match b with
      | EmptyString => [a]
      | String _ b' => a :: split_on fuel' sep b'
      end
  end.

Definition plus_to_space (s : string) : string :=
  str_map (fun c => if code c =? 43 then chr 32 else c) s.

(** The [application/x-www-form-urlencoded] parser. *)
Definition form_pair (piece : string) : string * string :=
  let '(name, rest) := str_break (fun c => code c =? 61) piece in
  let value := match rest with String _ v => v | EmptyString => EmptyString end in
  (decode_lenient (plus_to_space name), decode_lenient (plus_to_space value)).

Definition form_parse (query : string) : list (string * string) :=
  map form_pair
      (filter (fun piece => piece ≠ EmptyString)
              (split_on (String.length query) (chr 38) query)).

Definition is_scheme_char (c : ascii) : bool :=
  is_alpha c || is_digit c || (code c =? 43) || (code c =? 45) || (code c =? 46).

Definition is_host_char (c : ascii) : bool :=
  is_alpha c || is_digit c || (code c =? 45) || (code c =? 46) || (code c =? 95).

Definition is_special (scheme : string) : bool :=
  existsb (String.eqb (toLowerCase scheme)) ["http"; "https"; "ws"; "wss"; "ftp"].

(** The query of a URL: what follows the first [?], the fragment removed. *)
Definition query_of (s : string) : string :=
  let '(before_fragment, _) := str_break (fun c => code c =? 35) s in
  let '(_, q) := str_break (fun c => code c =? 63) before_fragment in
  match q with
  | String _ q' => q'
  | EmptyString => EmptyString
  end.

Definition invalidURL : exn := Exn "TypeError" "Invalid URL".

(** [new URL(s).searchParams].  A URL starts with a scheme and a colon; a
    special scheme must be followed by a host name (letters, digits,
    [-], [.], [_]), optionally with a port. *)
Definition URL_searchParams (s0 : string) : result (list (string * string)) :=
  let s := str_rev (str_drop_while (fun c => code c <=? 32)
             (str_rev (str_drop_while (fun c => code c <=? 32) s0))) in
  let '(scheme, rest) := str_break (fun c => negb (is_scheme_char c)) s in
  match scheme, rest with
  | String c0 _, String colon rest' =>
      if is_alpha c0 && (code colon =? 58) then
        if is_special scheme then
          let after := str_drop_while (fun c => (code c =? 47) || (code c =? 92)) rest' in
          let '(authority, _) :=
            str_break (fun c => (code c =? 47) || (code c =? 92)
                                || (code c =? 63) || (code c =? 35)) after in
          let '(host, port) := str_break (fun c => code c =? 58) authority in
          if negb (String.eqb host EmptyString) && str_forall is_host_char host
             && str_forall is_digit (str_drop 1 port)
          then Ok (form_parse (query_of after))
          else Throw invalidURL
        else Ok (form_parse (query_of rest'))
      else Throw invalidURL
  | _, _ => Throw invalidURL
  end.

(** *** Base64 *)

Definition b64_val (c : ascii) : option Z :=
  if is_upper c then Some (code c - 65)
  else if is_lower c then Some (code c - 71)
  else if is_digit c then Some (code c + 4)
  else if code c =? 43 then Some 62
  else if code c =? 47 then Some 63
  else None.

Fixpoint b64_vals (s : string) : option (list Z) :=
  match s with
  | EmptyString => Some []
  | String c s' =>
      match b64_val c, b64_vals s' with
      | Some v, Some vs => Some (v :: vs)
      | _, _ => None
      end
  end.

Fixpoint b64_bytes (fuel : nat) (vs : list Z) : list Z :=
  match fuel with
  | O => []
  | S fuel' =>
      match vs with
      | a :: b :: c :: d :: rest =>
          (4 * a + b / 16) :: (16 * (b mod 16) + c / 4) :: (64 * (c mod 4) + d)
          :: b64_bytes fuel' rest
      | [a; b; c] => [4 * a + b / 16; 16 * (b mod 16) + c / 4]
      | [a; b] => [4 * a + b / 16]
      | _ => []
      end
  end.

(** A byte as the character of that code (Latin-1), in UTF-8. *)
Definition latin1_char (b : Z) : string :=
  if b <? 128 then string_of_bytes [b] else utf8_encode b.

Definition strip_padding (s : string) : string :=
  if (Z.of_nat (String.length s) mod 4 =? 0) then
    match str_rev s with
    | String a (String b r) =>
        if (code a =? 61) && (code b =? 61) then str_rev r
        else if code a =? 61 then str_rev (String b r)
        else s
    | _ => s
    end
  else s.

Definition invalidCharacter : exn :=
  Exn "InvalidCharacterError" "The string to be decoded is not correctly encoded.".

Definition atob (s0 : string) : result string :=
  let s1 := string_of_bytes
              (filter (fun b => negb ((b =? 9) || (b =? 10) || (b =? 12)
                                      || (b =? 13) || (b =? 32)))
                      (bytes_of s0)) in
  let s := strip_padding s1 in
  if Z.of_nat (String.length s) mod 4 =? 1 then Throw invalidCharacter
  else
    match b64_vals s with
    | Some vs =>
        Ok (fold_right (fun b acc => latin1_char b +:+ acc) EmptyString
                       (b64_bytes (S (length vs)) vs))
    | None => Throw invalidCharacter
    end.

(** *** Dates *)

Fixpoint read_digits (n : nat) (acc : Z) (s : string) : option (Z * string) :=
  match n with
  | O => Some (acc, s)
  | S n' =>
      match s with
      | String c s' =>
          match digit_val c with
          | Some d => read_digits n' (10 * acc + d) s'
          | None => None
          end
      | EmptyString => None
      end
  end.

Definition expect (c : Z) (s : string) : option string :=
  match s with
  | String x s' => if code x =? c then Some s' else None
  | EmptyString => None
  end.

Definition is_leap (y : Z) : bool :=
  ((y mod 4 =? 0) && negb (y mod 100 =? 0)) || (y mod 400 =? 0).

Definition days_in_month (y m : Z) : Z :=
  if m =? 2 then (if is_leap y then 29 else 28)
  else if (m =? 4) || (m =? 6) || (m =? 9) || (m =? 11) then 30
  else 31.

(** Days from 1970-01-01 to the given civil date. *)
Definition days_from_civil (y m d : Z) : Z :=
  let y' := if m <=? 2 then y - 1 else y in
  let era := y' / 400 in
  let yoe := y' - era * 400 in
  let doy := (153 * (if 2 <? m then m - 3 else m + 9) + 2) / 5 + d - 1 in
  let doe := yoe * 365 + yoe / 4 - yoe / 100 + doy in
  era * 146097 + doe - 719468.

(** [Date.parse] on [YYYY-MM-DDTHH:mm:ss.sssZ] (the milliseconds are
    optional); [None] for every other string. *)
Definition Date_parse (s : string) : option Z :=
  '(y, s) ← read_digits 4 0 s;
  s ← expect 45 s;
  '(mo, s) ← read_digits 2 0 s;
  s ← expect 45 s;
  '(d, s) ← read_digits 2 0 s;
  s ← expect 84 s;
  '(h, s) ← read_digits 2 0 s;
  s ← expect 58 s;
  '(mi, s) ← read_digits 2 0 s;
  s ← expect 58 s;
  '(sec, s) ← read_digits 2 0 s;
  '(ms, s) ← match expect 46 s with
              | Some s' => read_digits 3 0 s'
              | None => Some (0, s)
              end;
  s ← expect 90 s;
  if String.eqb s EmptyString
     && (1 <=? mo) && (mo <=? 12) && (1 <=? d) && (d <=? days_in_month y mo)
     && (h <=? 23) && (mi <=? 59) && (sec <=? 59)
  then Some ((((days_from_civil y mo d * 24 + h) * 60 + mi) * 60 + sec) * 1000 + ms)
  else None.

(** *** The cipher

    A repeating-key XOR stream: character [i] of the message is combined
    with character [i mod length key] of the passphrase and with the first
    character of the salt; the ciphertext is the salt character followed
    by the combined characters, in hexadecimal. *)

Definition xor_ascii (a b : ascii) : ascii :=
  let '(Ascii a0 a1 a2 a3 a4 a5 a6 a7) := a in
  let '(Ascii b0 b1 b2 b3 b4 b5 b6 b7) := b in
  Ascii (xorb a0 b0) (xorb a1 b1) (xorb a2 b2) (xorb a3 b3)
        (xorb a4 b4) (xorb a5 b5) (xorb a6 b6) (xorb a7 b7).

Definition key_at (key : string) (i : nat) : ascii :=
  nth (i mod String.length key) (list_ascii_of_string key) Ascii.zero.

Fixpoint xor_stream (key : string) (s0 : ascii) (i : nat) (msg : string) : string :=
  match msg with
  | EmptyString => EmptyString
  | String c rest =>
      String (xor_ascii (xor_ascii c (key_at key i)) s0) (xor_stream key s0 (S i) rest)
  end.

Definition salt_char (salt : Salt) : ascii :=
  match salt with
  | String c _ => c
  | EmptyString => Ascii.zero
  end.

Fixpoint hex_encode (s : string) : string :=
  match s with
  | EmptyString => EmptyString
  | String c rest => hex_of_byte (code c) +:+ hex_encode rest
  end.

Fixpoint hex_decode (s : string) : option string :=
  match s with
  | EmptyString => Some EmptyString
  | String h (String l s') =>
      match hex_byte h l, hex_decode s' with
      | Some b, Some rest => Some (String (chr b) rest)
      | _, _ => None
      end
  | String _ EmptyString => None
  end.

Definition AES_encrypt (message : option string) (key : string) (salt : Salt)
  : result string :=
  let s0 := salt_char salt in
  Ok (hex_encode (String s0 (xor_stream key s0 0 (default EmptyString message)))).

Definition malformedCiphertext : exn := Exn "Error" "Malformed ciphertext".

Definition AES_decrypt (ciphertext : jsval) (key : string) : result WordArray :=
  match ciphertext with
  | JStr c =>
      match hex_decode c with
      | Some (String s0 body) => Ok (xor_stream key s0 0 body)
      | _ => Throw malformedCiphertext
      end
  | _ => Throw malformedCiphertext
  end.

Definition enc_Utf8_stringify (w : WordArray) : result string :=
  if utf8_valid w then Ok w else Throw (Exn "Error" "Malformed UTF-8 data").

Definition platform : Platform :=
  Build_Platform JSON_parse stringify String_of toLowerCase trim
                 decodeURIComponent Date_parse typeError URL_searchParams atob
                 AES_encrypt AES_decrypt enc_Utf8_stringify.

End Ref.

Local Open Scope list_scope.

(** ** Vocabulary of the properties *)

Section Vocabulary.
Context (P : Platform).

(** The submission meets the 3-of-5 threshold for the payload: the five
    checks can be evaluated and at least three are true. *)
Definition meets (parsedData : jsval) (s : gmap string jsval) : Prop :=
  ∃ checks, matchChecks P parsedData s = Ok checks ∧ (3 ≤ matchCount checks)%nat.

(** The five checks can be evaluated and fewer than three are true. *)
Definition below (parsedData : jsval) (s : gmap string jsval) : Prop :=
  ∃ checks, matchChecks P parsedData s = Ok checks ∧ (matchCount checks < 3)%nat.



(** The four verdicts that are not built field by field. *)
Definition noMatchVerdict (parsedData : jsval) : ValidationResult :=
  {| isValid := false; submission := None; scannedData := parsedData;
     message := msgNoMatch; attributeVerification := AVUndefined |}.

Definition expiredVerdict (parsedData : jsval) (s : gmap string jsval) : ValidationResult :=
  {| isValid := false; submission := Some s; scannedData := parsedData;
     message := msgExpired; attributeVerification := AVNull |}.

(** The [dob] equality check an [age] entry reports. *)
Definition dobEquality (parsedData : jsval) (s : gmap string jsval) : bool :=
  dobCheck (strict_eq (opt_member parsedData "dob") (prop s "dob"))
           (prop s "dob") (opt_member parsedData "dob").

(** The five checks in closed form, for a payload that is not [null] or
    [undefined]. *)
Definition checksOf (p : jsval) (s : gmap string jsval) (subName pName : jsval) : list bool :=
  [ strict_eq subName pName;
    dobCheck (strict_eq (prop s "dob") (opt_member p "dob"))
             (prop s "dob") (opt_member p "dob");
    strict_eq (prop s "aadhaar") (opt_member p "aadhaar");
    strict_eq (prop s "mobile") (opt_member p "mobile");
    strict_eq (prop s "username") (opt_member p "username") ].

(** [parsedData.verificationRequested?.attr || false] in closed form. *)
Definition requestedOf (p : jsval) (attr : string) : jsval :=
  js_or (opt_member (opt_member p "verificationRequested") attr) (JBool false).

(** The entries of [attributeVerification] in closed form, given the
    outcome of the name comparison. *)
Definition entriesOf (p : jsval) (s : gmap string jsval) (nameValid : bool)
  : list (string * AttrDetail) :=
  [ ("name", {| verified := nameValid; scanned := opt_member p "name";
                stored := prop s "name"; requested := requestedOf p "name" |});
    ("age", {| verified := dobEquality p s; scanned := opt_member p "dob";
               stored := prop s "dob"; requested := requestedOf p "age" |});
    ("mobile", {| verified := strict_eq (opt_member p "mobile") (prop s "mobile");
                  scanned := opt_member p "mobile";
                  stored := prop s "mobile"; requested := requestedOf p "mobile" |});
    ("aadhaar", {| verified := strict_eq (opt_member p "aadhaar") (prop s "aadhaar");
                   scanned := opt_member p "aadhaar";
                   stored := prop s "aadhaar"; requested := requestedOf p "aadhaar" |});
    ("address", {| verified := strict_eq (opt_member p "address") (prop s "address");
                   scanned := opt_member p "address";
                   stored := prop s "address"; requested := requestedOf p "address" |}) ].

Definition all_true (checks : list bool) : bool := forallb (λ b, b) checks.

(** The verdict of a match that has not expired, given the five checks. *)
Definition dataVerdict (p : jsval) (s : gmap string jsval) (checks : list bool)
  : ValidationResult :=
  {| isValid := all_true checks;
     submission := Some s;
     scannedData := p;
     message := if all_true checks then msgVerified else msgDiscrepancy;
     attributeVerification := AVEntries (entriesOf p s (nth 0 checks false)) |}.

(** The time value of the payload's [verifiedAt]. *)
Definition verifiedAtOf (p : jsval) : option Z := Date_of P (opt_member p "verifiedAt").

(** The stored document can be read: it has ciphertext, and the
    ciphertext decrypts to a value that is not empty (truthy). *)
Definition readable (d : gmap string jsval) : bool :=
  truthy (prop d "encryptedData")
  && truthy (decryptSubmissionData P (prop d "encryptedData")).

(** What [getSubmissions] returns for a readable document. *)
Definition decorated (d : gmap string jsval) : gmap string jsval :=
  decorate d (decryptSubmissionData P (prop d "encryptedData")).

(** A string of the model is well formed when it is the UTF-8 encoding
    of a JavaScript string. *)
Definition wellformed (s : string) : bool := Ref.utf8_valid s.

(** The contract of the cipher: a message encrypted under a passphrase
    decrypts under that passphrase to the bytes of the message. *)
Definition cipher_inverts : Prop :=
  ∀ (msg key : string) (salt : Salt),
    wellformed msg = true →
    ∃ c w, AES_encrypt P (Some msg) key salt = Ok c ∧
           AES_decrypt P (JStr c) key = Ok w ∧
           enc_Utf8_stringify P w = Ok msg.

(** The record serializes to JSON: it has a JSON text, and that text
    denotes the record. *)
Definition serializes (R : jsval) : Prop :=
  ∃ json, JSON_stringify P R = Some json ∧ wellformed json = true ∧
          JSON_parse P json = Ok R.

(** The names of the entries of [attributeVerification], in source order. *)
Definition attributeNames : list string :=
  ["name"; "age"; "mobile"; "aadhaar"; "address"].

End Vocabulary.

(** ** Example data

    Stored submissions as [getSubmissions] returns them, and scanned
    texts of the shape the application puts in its QR codes (a
    verification URL carrying the URL-encoded JSON payload). *)

Module Examples.

Definition record (fields : list (string * jsval)) : gmap string jsval :=
  list_to_map fields.

Definition jane : gmap string jsval :=
  record [ ("id", JNum 1709200000000); ("name", JStr "Jane Doe"); ("dob", JStr "N/A");
           ("aadhaar", JStr "123"); ("mobile", JStr "555"); ("username", JStr "jane");
           ("submittedAt", JStr "2024-02-29T09:46:40.000Z"); ("status", JStr "pending") ].

Definition bob : gmap string jsval :=
  record [ ("id", JNum 1709100000000); ("name", JStr "Bob Roe"); ("dob", JStr "1980-05-05");
           ("aadhaar", JStr "999"); ("mobile", JStr "888"); ("username", JStr "bob");
           ("submittedAt", JStr "2024-02-28T06:00:00.000Z"); ("status", JStr "pending") ].

(** A submission whose decrypted record has no [name]. *)
Definition ghost : gmap string jsval :=
  record [ ("id", JNum 1709000000000); ("dob", JStr "1970-01-01");
           ("aadhaar", JStr "000"); ("mobile", JStr "111"); ("username", JStr "ghost");
           ("submittedAt", JStr "2024-02-27T02:13:20.000Z"); ("status", JStr "pending") ].

(** 2024-03-01T12:00:00.000Z, and one hour, in milliseconds. *)
Definition noon : Z := 1709294400000.
Definition hour : Z := 1000 * 60 * 60.

(** The payload that agrees with [jane] on all five fields. *)
Definition payloadFull : jsval :=
  JObj (record [ ("docType", JStr "Document Verification");
                 ("verifiedAt", JStr "2024-03-01T12:00:00.000Z");
                 ("username", JStr "jane"); ("name", JStr "Jane Doe"); ("dob", JStr "N/A");
                 ("mobile", JStr "555"); ("aadhaar", JStr "123") ]).

Definition scanFull : jsval :=
  JStr "https://wallet.example/qr-verification?data=%7B%22docType%22%3A%22Document%20Verification%22%2C%22verifiedAt%22%3A%222024-03-01T12%3A00%3A00.000Z%22%2C%22username%22%3A%22jane%22%2C%22name%22%3A%22Jane%20Doe%22%2C%22dob%22%3A%22N%2FA%22%2C%22mobile%22%3A%22555%22%2C%22aadhaar%22%3A%22123%22%7D".

(** Agrees with [jane] on name (up to case and trailing space), aadhaar
    and mobile; username and dob differ. *)
Definition payloadThree : jsval :=
  JObj (record [ ("docType", JStr "Document Verification");
                 ("verifiedAt", JStr "2024-03-01T12:00:00.000Z");
                 ("username", JStr "janet"); ("name", JStr "JANE DOE ");
                 ("dob", JStr "1990-01-01");
                 ("mobile", JStr "555"); ("aadhaar", JStr "123") ]).

Definition scanThree : jsval :=
  JStr "https://wallet.example/qr-verification?data=%7B%22docType%22%3A%22Document%20Verification%22%2C%22verifiedAt%22%3A%222024-03-01T12%3A00%3A00.000Z%22%2C%22username%22%3A%22janet%22%2C%22name%22%3A%22JANE%20DOE%20%22%2C%22dob%22%3A%221990-01-01%22%2C%22mobile%22%3A%22555%22%2C%22aadhaar%22%3A%22123%22%7D".

(** Agrees with [jane] on name and aadhaar only. *)
Definition payloadTwo : jsval :=
  JObj (record [ ("docType", JStr "Document Verification");
                 ("verifiedAt", JStr "2024-03-01T12:00:00.000Z");
                 ("username", JStr "janet"); ("name", JStr "Jane Doe");
                 ("dob", JStr "1990-01-01");
                 ("mobile", JStr "000"); ("aadhaar", JStr "123") ]).

Definition scanTwo : jsval :=
  JStr "https://wallet.example/qr-verification?data=%7B%22docType%22%3A%22Document%20Verification%22%2C%22verifiedAt%22%3A%222024-03-01T12%3A00%3A00.000Z%22%2C%22username%22%3A%22janet%22%2C%22name%22%3A%22Jane%20Doe%22%2C%22dob%22%3A%221990-01-01%22%2C%22mobile%22%3A%22000%22%2C%22aadhaar%22%3A%22123%22%7D".

(** [payloadFull] asking for the age attribute only. *)
Definition payloadAge : jsval :=
  JObj (record [ ("docType", JStr "Document Verification");
                 ("verifiedAt", JStr "2024-03-01T12:00:00.000Z");
                 ("username", JStr "jane"); ("name", JStr "Jane Doe"); ("dob", JStr "N/A");
                 ("mobile", JStr "555"); ("aadhaar", JStr "123"); ("age", JStr "N/A");
                 ("verificationRequested", JObj (record [("age", JBool true)])) ]).

Definition scanAge : jsval :=
  JStr "https://wallet.example/qr-verification?data=%7B%22docType%22%3A%22Document%20Verification%22%2C%22verifiedAt%22%3A%222024-03-01T12%3A00%3A00.000Z%22%2C%22username%22%3A%22jane%22%2C%22name%22%3A%22Jane%20Doe%22%2C%22dob%22%3A%22N%2FA%22%2C%22mobile%22%3A%22555%22%2C%22aadhaar%22%3A%22123%22%2C%22age%22%3A%22N%2FA%22%2C%22verificationRequested%22%3A%7B%22age%22%3Atrue%7D%7D".

(** [payloadFull] without a [verifiedAt] field. *)
Definition payloadNoTimestamp : jsval :=
  JObj (record [ ("docType", JStr "Document Verification");
                 ("username", JStr "jane"); ("name", JStr "Jane Doe"); ("dob", JStr "N/A");
                 ("mobile", JStr "555"); ("aadhaar", JStr "123") ]).

Definition scanNoTimestamp : jsval :=
  JStr "https://wallet.example/qr-verification?data=%7B%22docType%22%3A%22Document%20Verification%22%2C%22username%22%3A%22jane%22%2C%22name%22%3A%22Jane%20Doe%22%2C%22dob%22%3A%22N%2FA%22%2C%22mobile%22%3A%22555%22%2C%22aadhaar%22%3A%22123%22%7D".

(** [payloadFull] with a [verifiedAt] that is not a date. *)
Definition payloadBadTimestamp : jsval :=
  JObj (record [ ("docType", JStr "Document Verification");
                 ("verifiedAt", JStr "yesterday");
                 ("username", JStr "jane"); ("name", JStr "Jane Doe"); ("dob", JStr "N/A");
                 ("mobile", JStr "555"); ("aadhaar", JStr "123") ]).

Definition scanBadTimestamp : jsval :=
  JStr "https://wallet.example/qr-verification?data=%7B%22docType%22%3A%22Document%20Verification%22%2C%22verifiedAt%22%3A%22yesterday%22%2C%22username%22%3A%22jane%22%2C%22name%22%3A%22Jane%20Doe%22%2C%22dob%22%3A%22N%2FA%22%2C%22mobile%22%3A%22555%22%2C%22aadhaar%22%3A%22123%22%7D".






(** Stored documents: one holding [eve], one holding the number 0, one
    whose ciphertext is cut short, one without ciphertext. *)
Definition storedEve : gmap string jsval :=
  record [ ("id", JNum 1);
           ("encryptedData", JStr "6b632c667f746b64352049747a282b64756e253d37263b");
           ("submittedAt", JStr "2024-02-29T09:46:40.000Z"); ("status", JStr "pending") ].


Definition storedCut : gmap string jsval :=
  record [ ("id", JNum 3); ("encryptedData", JStr "6b632c667f746b64");
           ("submittedAt", JStr "2024-02-29T11:00:00.000Z"); ("status", JStr "verified") ].

Definition storedEmpty : gmap string jsval :=
  record [ ("id", JNum 4);
           ("submittedAt", JStr "2024-02-29T12:00:00.000Z"); ("status", JStr "pending") ].

(** Parser examples: the objects [{name: "A"}] and [{name: "A+B"}]. *)
Definition nameA : jsval := JObj (record [("name", JStr "A")]).
Definition nameAplusB : jsval := JObj (record [("name", JStr "A+B")]).
Definition nameAspaceB : jsval := JObj (record [("name", JStr "A B")]).

End Examples.

(** ** The document store in local-storage mode
       ([firebaseService], in [src/unnamed/part_000])

    [firebaseService] keeps its collections in Firestore or, when Firebase
    is not configured or cannot be reached, in [localStorage]
    ([useLocalStorage]).  This is the service in that second mode, where
    [_executeOperation] is [_executeLocalStorageOperation]: a collection
    is one [localStorage] entry holding the JSON text of an array.
    [localStorage] is modelled without a quota ([setItem] does not
    throw).  The clock readings and random identifiers a function draws
    are arguments of its model. *)

Module LocalStore.

(** [localStorage]: the texts stored, by key. *)
Abbreviation Storage := (gmap string string).

(** A query object, as the list of its own properties in the order of
    [Object.keys]. *)
Abbreviation Query := (list (string * jsval)).

Section LocalStore.
Context (P : Platform).

Definition dbName : string := "SecureDigitalWallet".

Definition storageKey (collectionName : string) : string :=
  "firebase_" +:+ dbName +:+ "_" +:+ collectionName.

(** Lines 578-586: the items of a stored text.  An empty text is falsy
    and is not parsed; a text that is not JSON leaves [items] empty. *)
Definition parseStored (stored : string) : jsval :=
  if String.eqb stored EmptyString then JArr []
  else match JSON_parse P stored with
       | Ok v => v
       | Throw _ => JArr []
       end.

Definition loadItems (ls : Storage) (key : string) : jsval :=
  match ls !! key with
  | Some stored => parseStored stored
  | None => JArr []
  end.

(** The text [localStorage.setItem(storageKey, JSON.stringify(items))]
    stores. *)
Definition storedText (items : list jsval) : string :=
  from_option id "undefined" (JSON_stringify P (JArr items)).

(** [Array.prototype.every], [filter] and [findIndex] with a callback
    that can throw ([None] is the index -1). *)
Fixpoint every_r {A : Type} (f : A -> result bool) (l : list A) : result bool :=
  match l with
  | [] => Ok true
  | x :: l' =>
      let! b := f x in
      if b then every_r f l' else Ok false
  end.

Fixpoint filter_r {A : Type} (f : A -> result bool) (l : list A) : result (list A) :=
  match l with
  | [] => Ok []
  | x :: l' =>
      let! b := f x in
      let! r := filter_r f l' in
      Ok (if b then x :: r else r)
  end.

Fixpoint findIndex_r {A : Type} (f : A -> result bool) (l : list A) : result (option nat) :=
  match l with
  | [] => Ok None
  | x :: l' =>
      let! b := f x in
      if b then Ok (Some 0%nat)
      else let! r := findIndex_r f l' in Ok (S <$> r)
  end.

(** [Object.keys(queryData).every(key => item[key] === queryData[key])] *)
Definition matchesQuery (queryData : Query) (item : jsval) : result bool :=
  every_r (λ kv, let! x := member P item kv.1 in Ok (strict_eq x kv.2)) queryData.

(** The callback of [find] and [findOne] (lines 592-595, 599-602). *)
Definition findCallback (queryData : Query) (item : jsval) : result bool :=
  match queryData with
  | [] => Ok true
  | _ => matchesQuery queryData item
  end.

(** [items.method(...)]: what was parsed need not be an array. *)
Definition itemsArray (items : jsval) (method : string) : result (list jsval) :=
  match items with
  | JArr l => Ok l
  | _ => Throw (engine_TypeError P items method)
  end.

(** The object [{...queryData}] of a query. *)
Definition queryObject (queryData : Query) : gmap string jsval :=
  list_to_map queryData.

Definition updateCounts (matched modified upserted : Z) : jsval :=
  JObj (list_to_map [ ("matchedCount", JNum matched); ("modifiedCount", JNum modified);
                      ("upsertedCount", JNum upserted) ]).

Definition deleteCount (n : Z) : jsval :=
  JObj (list_to_map [ ("deletedCount", JNum n) ]).

Definition unsupported (operation : string) : exn :=
  Exn "Error" ("Unsupported operation: " +:+ operation).

(** Lines 606-609: [{...data, _id: data._id || fresh}], where [fresh] is
    the identifier
    [`${Date.now()}_${Math.random().toString(36).substr(2, 9)}`]. *)
Definition newItem (fresh : string) (data : jsval) : gmap string jsval :=
  <["_id" := js_or (opt_member data "_id") (JStr fresh)]> (spread_props data).

(** Lines 620-623: [{...item, ...(data.$set || data)}]; a later property
    overrides an earlier one. *)
Definition updatedItem (item data : jsval) : gmap string jsval :=
  spread_props (js_or (opt_member data "$set") data) ∪ spread_props item.

(** Lines 628-632: [{...queryData, ...(data.$set || data), _id: fresh}] *)
Definition upsertedItem (fresh : string) (queryData : Query) (data : jsval)
  : gmap string jsval :=
  <["_id" := JStr fresh]>
    (spread_props (js_or (opt_member data "$set") data) ∪ queryObject queryData).

(** Lines 590-654, the [switch]: the result, and the items to store when
    the operation stores them.  Reading [data._id] or [data.$set] throws
    when [data] is [null]. *)
Definition operate (operation : string) (queryData : Query) (data : jsval)
    (fresh : string) (items : jsval) : result (jsval * option (list jsval)) :=
  if String.eqb operation "find" then
    let! l := itemsArray items "filter" in
    let! r := filter_r (findCallback queryData) l in
    Ok (JArr r, None)
  else if String.eqb operation "findOne" then
    let! l := itemsArray items "find" in
    let! r := find_r (findCallback queryData) l in
    Ok (default JUndef r, None)
  else if String.eqb operation "insertOne" then
    let! _ := member P data "_id" in
    let newItem := newItem fresh data in
    let! l := itemsArray items "push" in
    Ok (JObj (list_to_map [("insertedId", prop newItem "_id")]), Some (l ++ [JObj newItem]))
  else if String.eqb operation "updateOne" then
    let! l := itemsArray items "findIndex" in
    let! updateIndex := findIndex_r (matchesQuery queryData) l in
    match updateIndex with
    | Some i =>
        let! _ := member P data "$set" in
        let newItem := updatedItem (default JUndef (l !! i)) data in
        Ok (updateCounts 1 1 0, Some (<[i := JObj newItem]> l))
    | None =>
        let! _ := member P data "$set" in
        let newItem := upsertedItem fresh queryData data in
        Ok (updateCounts 0 0 1, Some (l ++ [JObj newItem]))
    end
  else if String.eqb operation "deleteOne" then
    let! l := itemsArray items "findIndex" in
    let! deleteIndex := findIndex_r (matchesQuery queryData) l in
    match deleteIndex with
    | Some i => Ok (deleteCount 1, Some (delete i l))
    | None => Ok (deleteCount 0, None)
    end
  else Throw (unsupported operation).

(** [_executeLocalStorageOperation(collectionName, operation, queryData,
    data)]: the result and the storage it leaves. *)
Definition _executeLocalStorageOperation (collectionName operation : string)
    (queryData : Query) (data : jsval) (fresh : string) (ls : Storage)
  : result (jsval * Storage) :=
  let storageKey := storageKey collectionName in
  let items := loadItems ls storageKey in
  let! r := operate operation queryData data fresh items in
  Ok (r.1, match r.2 with
           | Some l => <[storageKey := storedText l]> ls
           | None => ls
           end).

End LocalStore.
End LocalStore.

(** ** [firebaseService] in local-storage mode: submissions, settings and
       documents *)

Module FirebaseService.
Section FirebaseService.
Context (P : Platform).

Import LocalStore.

Definition _executeOperation := _executeLocalStorageOperation P.

(** [addSubmission(submissionData)], lines 784-826: the identifier it
    returns and the storage it leaves.  [now] is [Date.now()], [nowISO]
    is [new Date().toISOString()].  [submissionDocument] is the object
    literal of lines 789-794. *)
Definition submissionDocument (now : Z) (nowISO : string) (submissionData : jsval)
  : gmap string jsval :=
  let submissionId := js_or (opt_member submissionData "id") (JNum now) in
  <["submittedAt" := js_or (opt_member submissionData "submittedAt") (JStr nowISO)]>
    (<["_id" := JStr (to_str P submissionId)]>
       (<["id" := submissionId]> (spread_props submissionData))).

Definition addSubmission (now : Z) (nowISO fresh : string) (submissionData : jsval)
    (ls : Storage) : result (jsval * Storage) :=
  (* [submissionData.id] throws when [submissionData] is [null] *)
  let! _ := member P submissionData "id" in
  let submission := submissionDocument now nowISO submissionData in
  let! r := _executeOperation "submissions" "insertOne" [] (JObj submission) fresh ls in
  (* the read that verifies the insertion *)
  let! _ := _executeOperation "submissions" "find" [] JNull fresh r.2 in
  let! insertedId := member P r.1 "insertedId" in
  Ok (insertedId, r.2).

(** [updateSubmission(submissionId, submissionData)], lines 831-846. *)
Definition updateSubmission (fresh : string) (submissionId submissionData : jsval)
    (ls : Storage) : result (jsval * Storage) :=
  _executeOperation "submissions" "updateOne"
    [("_id", JStr (to_str P submissionId))]
    (JObj (list_to_map [("$set", submissionData)])) fresh ls.

(** [getAllSubmissions()], lines 851-887.  The structure of the first
    submission is logged inside the [try] block, so a first element that
    is [null] sends the function to its [catch], which returns an empty
    list. *)
Definition getAllSubmissions (ls : Storage) : list jsval :=
  match _executeOperation "submissions" "find" [] JNull EmptyString ls with
  | Ok (JArr (first :: rest), _) => if nullish first then [] else first :: rest
  | _ => []
  end.

(** [deleteSubmission(submissionId)], lines 892-903. *)
Definition deleteSubmission (submissionId : jsval) (ls : Storage) : result (bool * Storage) :=
  let! r := _executeOperation "submissions" "deleteOne"
              [("_id", JStr (to_str P submissionId))] JNull EmptyString ls in
  let! deletedCount := member P r.1 "deletedCount" in
  Ok (match deletedCount with
      | JNum n => (0 <? n)
      | _ => false
      end, r.2).

(** [clearAllSubmissions()], lines 908-926: the loop over the list read
    at the start. *)
Fixpoint deleteEach (submissions : list jsval) (ls : Storage) : result Storage :=
  match submissions with
  | [] => Ok ls
  | submission :: rest =>
      let! id := member P submission "id" in
      let! r := deleteSubmission id ls in
      deleteEach rest r.2
  end.

Definition clearAllSubmissions (ls : Storage) : result Storage :=
  deleteEach (getAllSubmissions ls) ls.

(** [getSetting(key)], lines 933-942. *)
Definition getSetting (key : jsval) (ls : Storage) : jsval :=
  match (let! r := _executeOperation "settings" "findOne" [("key", key)] JNull EmptyString ls in
         let setting := r.1 in
         if truthy setting then member P setting "value" else Ok JNull) with
  | Ok v => v
  | Throw _ => JNull
  end.

(** [setSetting(key, value)], lines 947-968. *)
Definition settingUpdate (nowISO : string) (key value : jsval) : jsval :=
  JObj (list_to_map
    [("$set", JObj (list_to_map [ ("key", key); ("value", value);
                                  ("updatedAt", JStr nowISO) ]))]).

Definition setSetting (nowISO fresh : string) (key value : jsval) (ls : Storage)
  : result (jsval * Storage) :=
  _executeOperation "settings" "updateOne" [("key", key)]
    (settingUpdate nowISO key value) fresh ls.

(** [storeDocument(username, documentData)], lines 672-712.
    [documentRecord] is the object literal of lines 676-681, in which a
    [username] of [documentData] overrides the argument; [nowISO1],
    [nowISO2] and [nowISO3] are the three readings of the clock. *)
Definition documentRecord (nowISO1 nowISO2 : string) (username documentData : jsval)
  : gmap string jsval :=
  <["updatedAt" := JStr nowISO2]>
    (<["uploadedAt" := JStr nowISO1]>
       (spread_props documentData ∪ {["username" := username]})).

Definition storeDocument (nowISO1 nowISO2 nowISO3 fresh : string)
    (username documentData : jsval) (ls : Storage) : result (jsval * Storage) :=
  let documentRecord := documentRecord nowISO1 nowISO2 username documentData in
  let! r := _executeOperation "documents" "findOne" [("username", username)] JNull fresh ls in
  let existing := r.1 in
  if truthy existing then
    let! createdAt := member P existing "createdAt" in
    let! uploadedAt := member P existing "uploadedAt" in
    let! u := _executeOperation "documents" "updateOne" [("username", username)]
                (JObj (list_to_map
                   [("$set", JObj (<["createdAt" := js_or createdAt uploadedAt]>
                                     documentRecord))]))
                fresh ls in
    let! id := member P existing "_id" in
    Ok (id, u.2)
  else
    let! i := _executeOperation "documents" "insertOne" []
                (JObj (<["createdAt" := JStr nowISO3]> documentRecord)) fresh ls in
    let! insertedId := member P i.1 "insertedId" in
    Ok (insertedId, i.2).

(** [getDocumentByUsername(username)], lines 717-726. *)
Definition getDocumentByUsername (username : jsval) (ls : Storage) : jsval :=
  match _executeOperation "documents" "findOne" [("username", username)] JNull
          EmptyString ls with
  | Ok r => r.1
  | Throw _ => JNull
  end.

End FirebaseService.
End FirebaseService.

(** ** The submission queue (submissionStore.js) over the local store *)

Module SubmissionQueue.
Section SubmissionQueue.
Context (P : Platform).

Import LocalStore.

Definition encryptionFailed : exn := Exn "Error" "Failed to encrypt submission data".

(** Lines 77-82: the stored form of a submission. *)
Definition storedSubmission (now : Z) (nowISO : string) (encryptedData : jsval)
  : gmap string jsval :=
  list_to_map [ ("id", JNum now); ("encryptedData", encryptedData);
                ("submittedAt", JStr nowISO); ("status", JStr "pending") ].

(** The stored documents as records, when every one is an object. *)
Definition records (l : list jsval) : option (list (gmap string jsval)) :=
  mapM (λ v, match v with JObj m => Some m | _ => None end) l.

(** Lines 121-130 log a preview of the first document,
    [submissions[0].encryptedData?.substring(0, 50)], which throws when
    the field is there and is not a string. *)
Definition previewable (first : gmap string jsval) : bool :=
  nullish (prop first "encryptedData") || is_string (prop first "encryptedData").

(** [getSubmissions()], lines 114-168, for a collection of objects
    ([None]: some stored element is not an object). *)
Definition readSubmissions (ls : Storage)
  : option (result (list (gmap string jsval))) :=
  match records (FirebaseService.getAllSubmissions P ls) with
  | None => None
  | Some submissions =>
      Some match submissions with
           | first :: _ =>
               if previewable first then Ok (getSubmissions P submissions)
               else Throw (engine_TypeError P (prop first "encryptedData") "substring")
           | [] => Ok []
           end
  end.

(** [addSubmission(submissionData)], lines 59-109: the storage the call
    leaves.  [now] and [nowISO] are the clock readings of lines 78 and
    80, [now'] and [nowISO'] those of [firebaseService.addSubmission].
    The call awaits [notifySubscribers()], which reads the queue with
    [getSubmissions] and hands the list to each subscriber; the
    subscribers' callbacks are not part of this program.  ([None]: some
    stored element is not an object.) *)
Definition addSubmission (salt : Salt) (now : Z) (nowISO : string)
    (now' : Z) (nowISO' fresh : string) (submissionData : jsval) (ls : Storage)
  : option (result Storage) :=
  let encryptedData := encryptSubmissionData P salt submissionData in
  if negb (truthy encryptedData) then Some (Throw encryptionFailed)
  else
    let submission := storedSubmission now nowISO encryptedData in
    match FirebaseService.addSubmission P now' nowISO' fresh (JObj submission) ls with
    | Throw e => Some (Throw e)
    | Ok r =>
        match readSubmissions r.2 with
        | Some (Ok _) => Some (Ok r.2)
        | Some (Throw e) => Some (Throw e)
        | None => None
        end
    end.

(** [updateSubmissionStatus(submissionId, status)], lines 173-187: the
    storage the call leaves.  [None]: the element found is a primitive or
    an array, and the assignment [submission.status = status] to such a
    value is outside this model. *)
Definition updateSubmissionStatus (fresh : string) (submissionId status : jsval)
    (ls : Storage) : option (result Storage) :=
  let submissions := FirebaseService.getAllSubmissions P ls in
  match find_r (λ s, let! id := member P s "id" in Ok (strict_eq id submissionId))
               submissions with
  | Throw e => Some (Throw e)
  | Ok None => Some (Ok ls)
  | Ok (Some submission) =>
      if truthy submission then
        match submission with
        | JObj m =>
            Some (let! r := FirebaseService.updateSubmission P fresh submissionId
                              (JObj (<["status" := status]> m)) ls in
                  Ok r.2)
        | _ => None
        end
      else Some (Ok ls)
  end.

(** [deleteSubmission(submissionId)] and [clearAllSubmissions()], lines
    192-211. *)
Definition deleteSubmission (submissionId : jsval) (ls : Storage) : result Storage :=
  let! r := FirebaseService.deleteSubmission P submissionId ls in Ok r.2.

Definition clearAllSubmissions (ls : Storage) : result Storage :=
  FirebaseService.clearAllSubmissions P ls.

End SubmissionQueue.

(** [subscribe(callback)] and the function it returns, lines 216-226.
    Callbacks are compared by reference; [Callback] is the type of these
    references. *)
Section Subscribers.
Context {Callback : Type} `{EqDecision Callback}.

Definition subscribe (callback : Callback) (subscribers : list Callback) : list Callback :=
  subscribers ++ [callback].

(** [subscribers.indexOf(callback)]; [None] is -1. *)
Fixpoint indexOf (callback : Callback) (subscribers : list Callback) : option nat :=
  match subscribers with
  | [] => None
  | c :: rest => if decide (c = callback) then Some 0%nat else S <$> indexOf callback rest
  end.

Definition unsubscribe (callback : Callback) (subscribers : list Callback) : list Callback :=
  match indexOf callback subscribers with
  | Some index => delete index subscribers
  | None => subscribers
  end.

End Subscribers.
End SubmissionQueue.

(** ** The administrator's password: [handleSubmit] (AdminLogin.jsx,
       lines 20-41) and [handleChangePassword] (AdminDashboard.jsx,
       lines 126-140)

    Both read and write the [settings] collection through
    [firebaseService], here in local-storage mode.  The user name and the
    passwords are the texts of the form fields. *)

Module Admin.
Section Admin.
Context (P : Platform).

Import LocalStore.






End Admin.
End Admin.

(** ** Masking for display: [maskSensitiveData] (encryption.js)

    The function is documented to take strings, and is modelled on
    strings.  [length], [slice], [substring], [split] and indexing count
    UTF-16 code units; here a string is the sequence of its code units,
    one character each, which is what the program's data (names, digits,
    addresses in ASCII) are. *)

Module Mask.

(** ['*'.repeat(n)] *)
Fixpoint stars (n : nat) : string :=
  match n with
  | O => EmptyString
  | S n' => String "*" (stars n')
  end.

(** [s.substring(0, n)] *)
Fixpoint substringTo (n : nat) (s : string) : string :=
  match n, s with
  | S n', String c s' => String c (substringTo n' s')
  | _, _ => EmptyString
  end.

Fixpoint dropChars (n : nat) (s : string) : string :=
  match n, s with
  | S n', String _ s' => dropChars n' s'
  | _, _ => s
  end.

(** [s.slice(-n)]: the last [n] characters, or all of [s] when it is
    shorter. *)
Definition sliceLast (n : nat) (s : string) : string :=
  dropChars (String.length s - n) s.

(** [s.split(' ')]: the pieces between the spaces, at least one. *)
Fixpoint split (s : string) : list string :=
  match s with
  | EmptyString => [EmptyString]
  | String c s' =>
      if Ascii.eqb c " "%char then EmptyString :: split s'
      else match split s' with
           | piece :: rest => String c piece :: rest
           | [] => [String c EmptyString]
           end
  end.

(** [s[0]] within a template literal: the first character, as a string. *)
Definition firstChar (s : string) : string :=
  match s with
  | String c _ => String c EmptyString
  | EmptyString => "undefined"
  end.

(** [maskSensitiveData(data, type)], lines 140-156. *)
Definition maskSensitiveData (data type : string) : string :=
  if String.eqb data EmptyString || String.eqb data "Not found" || String.eqb data "N/A"
  then data
  else if String.eqb type "mobile" then
    if (4 <=? String.length data)%nat then "****" +:+ sliceLast 4 data else "****"
  else if String.eqb type "aadhaar" then
    if (4 <=? String.length data)%nat then "****-****-" +:+ sliceLast 4 data
    else "****-****-****"
  else if String.eqb type "name" then
    let names := split data in
    if (1 <? length names)%nat
    then hd EmptyString names +:+ " " +:+ stars (String.length (List.last names EmptyString))
    else firstChar data +:+ stars (String.length data - 1)
  else if String.eqb type "address" then
    if (20 <? String.length data)%nat then substringTo 20 data +:+ "..." else data
  else
    if (4 <? String.length data)%nat
    then substringTo 2 data +:+ stars (String.length data - 4) +:+ sliceLast 2 data
    else "****".

(** [words.join(' ')], the inverse of [split]. *)
Fixpoint join (words : list string) : string :=
  match words with
  | [] => EmptyString
  | [w] => w
  | w :: rest => w +:+ " " +:+ join rest
  end.

(** The string has no space. *)
Fixpoint spaceless (s : string) : bool :=
  match s with
  | EmptyString => true
  | String c s' => negb (Ascii.eqb c " "%char) && spaceless s'
  end.

End Mask.

(** ** The QR code of a document: [generateCustomVerificationQR]
       ([src/unnamed/part_000], lines 6-54) *)

(** What the generator calls and does not define. *)
Record Browser : Type := {
  (** [window.location.origin] *)
  location_origin : string;
  (** [encodeURIComponent(s)]; throws a [URIError] *)
  encodeURIComponent : string -> result string;
  (** [QRCode.toDataURL(text)], awaited; a rejection is an exception *)
  QRCode_toDataURL : string -> result string
}.

Module QRGenerator.
Section QRGenerator.
Context (P : Platform) (B : Browser).

(** Lines 9-39: [filteredQrData].  [nowISO] is
    [new Date().toISOString()].  Reading a field of [documentData] or of
    [selectedAttributes] throws when that value is [null] or
    [undefined]. *)
Definition filteredQrData (nowISO : string) (documentData selectedAttributes : jsval)
  : result (gmap string jsval) :=
  let! username := member P documentData "username" in
  let! name := member P documentData "name" in
  let! dob := member P documentData "dob" in
  let! mobile := member P documentData "mobile" in
  let! aadhaar := member P documentData "aadhaar" in
  let! address := member P documentData "address" in
  let filteredQrData : gmap string jsval :=
    list_to_map [ ("docType", JStr "Document Verification"); ("verifiedAt", JStr nowISO);
                  ("username", username); ("name", name); ("dob", dob);
                  ("mobile", mobile); ("aadhaar", aadhaar) ] in
  let! age := member P selectedAttributes "age" in
  let filteredQrData :=
    if truthy age then <["age" := dob]> filteredQrData else filteredQrData in
  let! withAddress := member P selectedAttributes "address" in
  let filteredQrData :=
    if truthy withAddress then <["address" := address]> filteredQrData
    else filteredQrData in
  Ok filteredQrData.

(** Line 46: the text the QR code carries. *)
Definition verificationUrl (nowISO : string) (documentData selectedAttributes : jsval)
  : result string :=
  let! filteredQrData := filteredQrData nowISO documentData selectedAttributes in
  let json := from_option id "undefined" (JSON_stringify P (JObj filteredQrData)) in
  let! encoded := encodeURIComponent B json in
  Ok (location_origin B +:+ "/qr-verification?data=" +:+ encoded).

Definition generationFailed : exn := Exn "Error" "Failed to generate QR code".

Definition generateCustomVerificationQR (nowISO : string)
    (documentData selectedAttributes : jsval) : result string :=
  match (let! verificationUrl := verificationUrl nowISO documentData selectedAttributes in
         QRCode_toDataURL B verificationUrl) with
  | Ok qrCodeDataURL => Ok qrCodeDataURL
  | Throw _ => Throw generationFailed
  end.

End QRGenerator.
End QRGenerator.

(** A reference [encodeURIComponent] on UTF-8 bytes: every byte other
    than an ASCII letter, a digit or one of [- _ . ! ~ * ' ( )] becomes
    [%XX]. *)
Module RefBrowser.

Definition hexUpper (n : N) : ascii :=
  if (n <? 10)%N then ascii_of_N (48 + n) else ascii_of_N (55 + n).

Definition unreserved (c : ascii) : bool :=
  let n := N_of_ascii c in
  ((48 <=? n) && (n <=? 57))%N || ((65 <=? n) && (n <=? 90))%N
  || ((97 <=? n) && (n <=? 122))%N
  || existsb (N.eqb n) [45; 95; 46; 33; 126; 42; 39; 40; 41]%N.

Fixpoint encode (s : string) : string :=
  match s with
  | EmptyString => EmptyString
  | String c s' =>
      if unreserved c then String c (encode s')
      else
        let n := N_of_ascii c in
        String "%" (String (hexUpper (n / 16)) (String (hexUpper (n mod 16)) (encode s')))
  end.

Definition browser : Browser :=
  {| location_origin := "https://wallet.example";
     encodeURIComponent := λ s, Ok (encode s);
     (* the image itself is not modelled: the data URL stands for its text *)
     QRCode_toDataURL := λ text, Ok ("data:image/png;base64," +:+ text) |}.

End RefBrowser.

(** ** Field encryption: [encryptData], [decryptData],
       [encryptSubmissionData] and [decryptSubmissionData] of
       encryption.js

    These encrypt the sensitive fields of a record one by one, under a
    key of their own.  Each call of [CryptoJS.AES.encrypt] draws its own
    salt: [salt field] is the one drawn for the field of that name. *)

Module FieldCodec.
Section FieldCodec.
Context (P : Platform).

Definition ENCRYPTION_KEY : string := "SecureDigitalWallet2024!@#$%^&*()_+".

Definition encryptFailed : exn := Exn "Error" "Failed to encrypt data".
Definition decryptFailed : exn := Exn "Error" "Failed to decrypt data".

(** Lines 11-19. *)
Definition encryptData (salt : Salt) (data : jsval) : result string :=
  match AES_encrypt P (JSON_stringify P data) ENCRYPTION_KEY salt with
  | Ok encrypted => Ok encrypted
  | Throw _ => Throw encryptFailed
  end.

(** Lines 26-35. *)
Definition decryptData (encryptedData : jsval) : result jsval :=
  match (let! bytes := AES_decrypt P encryptedData ENCRYPTION_KEY in
         let! decrypted := enc_Utf8_stringify P bytes in
         JSON_parse P decrypted) with
  | Ok v => Ok v
  | Throw _ => Throw decryptFailed
  end.

Definition sensitiveFields : list string :=
  ["name"; "dob"; "address"; "mobile"; "aadhaar"].

(** [{ encrypted: true, data: ... }] *)
Definition wrapped (data : string) : jsval :=
  JObj (list_to_map [("encrypted", JBool true); ("data", JStr data)]).

(** Line 51: the value is there and is not a placeholder. *)
Definition toEncrypt (v : jsval) : bool :=
  truthy v && negb (strict_eq v (JStr "Not found")) && negb (strict_eq v (JStr "N/A")).

(** [list.forEach] with a callback that updates a state and can throw. *)
Fixpoint forEach_r {A S : Type} (f : S -> A -> result S) (l : list A) (s : S) : result S :=
  match l with
  | [] => Ok s
  | x :: l' => let! s' := f s x in forEach_r f l' s'
  end.

(** Lines 50-57, the callback of [sensitiveFields.forEach]. *)
Definition encryptField (salt : string -> Salt) (submissionData : jsval)
    (encryptedSubmission : gmap string jsval) (field : string)
  : result (gmap string jsval) :=
  let! v := member P submissionData field in
  if toEncrypt v then
    let! data := encryptData (salt field) v in
    Ok (<[field := wrapped data]> encryptedSubmission)
  else Ok encryptedSubmission.

(** [encryptSubmissionData(submissionData)], lines 42-73: any exception
    ends in the [catch] block, which returns the argument. *)
Definition encryptSubmissionData (salt : string -> Salt) (submissionData : jsval) : jsval :=
  match (let! encryptedSubmission :=
           forEach_r (encryptField salt submissionData) sensitiveFields
                     (spread_props submissionData) in
         let! originalData := member P submissionData "originalData" in
         if truthy originalData then
           let! data := encryptData (salt "originalData") originalData in
           Ok (<["originalData" := wrapped data]> encryptedSubmission)
         else Ok encryptedSubmission) with
  | Ok encryptedSubmission => JObj encryptedSubmission
  | Throw _ => submissionData
  end.

(** [typeof v === 'object'] *)
Definition typeof_object (v : jsval) : bool :=
  match v with
  | JNull | JArr _ | JObj _ => true
  | _ => false
  end.

(** Lines 89-91: [v && typeof v === 'object' && v.encrypted] *)
Definition isEncrypted (v : jsval) : bool :=
  truthy v && typeof_object v && truthy (opt_member v "encrypted").

(** Lines 88-99, the callback of [sensitiveFields.forEach]: a field that
    does not decrypt is replaced by a marker. *)
Definition decryptField (encryptedSubmission : jsval)
    (decryptedSubmission : gmap string jsval) (field : string)
  : result (gmap string jsval) :=
  let! v := member P encryptedSubmission field in
  if isEncrypted v then
    match decryptData (opt_member v "data") with
    | Ok data => Ok (<[field := data]> decryptedSubmission)
    | Throw _ => Ok (<[field := JStr "Decryption Error"]> decryptedSubmission)
    end
  else Ok decryptedSubmission.

(** [decryptSubmissionData(encryptedSubmission)], lines 80-118. *)
Definition decryptSubmissionData (encryptedSubmission : jsval) : jsval :=
  match (let! decryptedSubmission :=
           forEach_r (decryptField encryptedSubmission) sensitiveFields
                     (spread_props encryptedSubmission) in
         let! originalData := member P encryptedSubmission "originalData" in
         if isEncrypted originalData then
           match decryptData (opt_member originalData "data") with
           | Ok data => Ok (<["originalData" := data]> decryptedSubmission)
           | Throw _ => Ok (<["originalData" := JNull]> decryptedSubmission)
           end
         else Ok decryptedSubmission) with
  | Ok decryptedSubmission => JObj decryptedSubmission
  | Throw _ => encryptedSubmission
  end.

End FieldCodec.
End FieldCodec.

(** ** Vocabulary of the field-encryption properties *)

(** The field of the record is one [encryptSubmissionData] encrypts: one
    of the five sensitive fields with a value that is not a placeholder,
    or a truthy [originalData]. *)
Definition encryptedField (S : gmap string jsval) (k : string) : bool :=
  (bool_decide (k ∈ FieldCodec.sensitiveFields) && FieldCodec.toEncrypt (prop S k))
  || (String.eqb k "originalData" && truthy (prop S k)).

(** The field of the record is marked as encrypted. *)
Definition markedField (E : gmap string jsval) (k : string) : bool :=
  (bool_decide (k ∈ FieldCodec.sensitiveFields) || String.eqb k "originalData")
  && FieldCodec.isEncrypted (prop E k).

(** What a marked field decrypts to: the decrypted value, or the marker
    of a failure ([null] for [originalData]). *)
Definition decryptedValue (P : Platform) (E : gmap string jsval) (k : string) : jsval :=
  match FieldCodec.decryptData P (opt_member (prop E k) "data") with
  | Ok data => data
  | Throw _ => if String.eqb k "originalData" then JNull else JStr "Decryption Error"
  end.

(** One step of a loop that sets fields: [f] is set to [v] when
    [g f = Some v]. *)
Definition setField (g : string → option jsval) (acc : gmap string jsval) (f : string)
  : gmap string jsval :=
  match g f with
  | Some v => <[f := v]> acc
  | None => acc
  end.

(** A record with an encrypted mobile number and a placeholder for the
    date of birth. *)
Module FieldExamples.

Definition jane : gmap string jsval :=
  Examples.record [ ("username", JStr "jane"); ("name", JStr "Jane Doe");
                    ("dob", JStr "N/A"); ("mobile", JStr "555") ].

(** [jane] with a [name] marked as encrypted whose data is not a
    ciphertext. *)
Definition damaged : gmap string jsval :=
  Examples.record [ ("username", JStr "jane");
                    ("name", FieldCodec.wrapped "zz"); ("dob", JStr "N/A") ].

(** A platform on which CryptoJS finds no secure random number
    generator: every encryption throws. *)
Definition noRandom : Platform :=
  Build_Platform Ref.JSON_parse Ref.stringify Ref.String_of Ref.toLowerCase Ref.trim
    Ref.decodeURIComponent Ref.Date_parse Ref.typeError Ref.URL_searchParams Ref.atob
    (λ _ _ _, Throw (Exn "Error"
       "Native crypto module could not be used to get secure random number."))
    Ref.AES_decrypt Ref.enc_Utf8_stringify.

End FieldExamples.

(** ** The age of a date of birth: [calculateAge]
       ([src/unnamed/part_000], lines 57-106)

    A date is known here by its local year, month (0 to 11) and day of
    the month, the three numbers the function reads from it.  The [Date]
    constructor is external; an invalid date is [None]. *)

Record LocalDate : Type := { fullYear : Z; month : Z; date : Z }.

Record Calendar : Type := {
  (** [new Date()] *)
  Date_now : LocalDate;
  (** [new Date(year, month - 1, day)] for the pieces of a split text
      ([undefined] for a missing piece) *)
  Date_of_pieces : jsval -> jsval -> jsval -> option LocalDate;
  (** [new Date(text)] *)
  Date_of_text : string -> option LocalDate;
  (** [new Date(text, 0, 1)] *)
  Date_of_year : string -> option LocalDate
}.

Module Age.
Section Age.
Context (C : Calendar).

(** [s.split(sep)] for a separator of one character. *)
Fixpoint split (sep : ascii) (s : string) : list string :=
  match s with
  | EmptyString => [EmptyString]
  | String c s' =>
      if Ascii.eqb c sep then EmptyString :: split sep s'
      else match split sep s' with
           | piece :: rest => String c piece :: rest
           | [] => [String c EmptyString]
           end
  end.

(** [pieces[i]] *)
Definition piece (pieces : list string) (i : nat) : jsval :=
  from_option JStr JUndef (pieces !! i).

(** Lines 61-86: the date of birth a text stands for. *)
Definition birthDate (dob : string) : option LocalDate :=
  if str_includes "/" dob then
    let pieces := split "/" dob in
    Date_of_pieces C (piece pieces 2) (piece pieces 1) (piece pieces 0)
  else if str_includes "-" dob then
    let parts := split "-" dob in
    if (String.length (hd EmptyString parts) =? 4)%nat then Date_of_text C dob
    else Date_of_pieces C (piece parts 2) (piece parts 1) (piece parts 0)
  else if (String.length dob =? 4)%nat then Date_of_year C dob
  else Date_of_text C dob.

(** Lines 94-103: the years between two dates, one less when the
    birthday of the year is still to come, and never less than 0. *)
Definition yearsBetween (birth today : LocalDate) : Z :=
  let age := fullYear today - fullYear birth in
  let monthDiff := month today - month birth in
  let age :=
    if (monthDiff <? 0) || ((monthDiff =? 0) && (date today <? date birth))
    then age - 1 else age in
  Z.max 0 age.

(** [calculateAge(dob)] for a text. *)
Definition calculateAge (dob : string) : Z :=
  if String.eqb dob EmptyString || String.eqb dob "Not found" then 0
  else
    match birthDate dob with
    | None => 0
    | Some birth => yearsBetween birth (Date_now C)
    end.

End Age.
End Age.

(** The day [(y, m, d)] is not after the day [(y', m', d')]. *)
Definition notAfter (a b : LocalDate) : Prop :=
  fullYear a < fullYear b
  ∨ (fullYear a = fullYear b
     ∧ (month a < month b ∨ (month a = month b ∧ date a ≤ date b))).

(** The [n]-th anniversary of a date. *)
Definition anniversary (n : Z) (d : LocalDate) : LocalDate :=
  {| fullYear := fullYear d + n; month := month d; date := date d |}.

(** A calendar for the examples: today is 1 March 2024, and a text
    [DD/MM/YYYY] of digits is read as that day. *)
Module AgeExamples.

Definition number (v : jsval) : Z :=
  match v with
  | JStr s => fst (Ref.parse_digits 0 s)
  | _ => 0
  end.

Definition calendar : Calendar :=
  {| Date_now := {| fullYear := 2024; month := 2; date := 1 |};
     Date_of_pieces := λ year month day,
       Some {| fullYear := number year; month := number month - 1; date := number day |};
     Date_of_text := λ _, None;
     Date_of_year := λ year, Some {| fullYear := number (JStr year); month := 0; date := 1 |} |}.

End AgeExamples.

(** ** Vocabulary of the store properties *)

Section StoreVocabulary.
Context (P : Platform).

Import LocalStore.

(** The collection reads as [items]. *)
Definition holds (ls : Storage) (collectionName : string) (items : list jsval) : Prop :=
  loadItems P ls (storageKey collectionName) = JArr items.

(** The JSON text written for [items] reads back as [items]. *)
Definition persists (items : list jsval) : Prop :=
  parseStored P (storedText P items) = JArr items.

(** The platform's JSON reads back whatever the operation writes on
    [items]. *)
Definition readsBack (operation : string) (queryData : Query) (data : jsval)
    (fresh : string) (items : list jsval) : Prop :=
  ∀ r l, operate P operation queryData data fresh (JArr items) = Ok (r, Some l) →
         persists l.

(** The [_id] that [insertOne] gives the document. *)
Definition insertedId (fresh : string) (data : jsval) : jsval :=
  js_or (opt_member data "_id") (JStr fresh).

(** The patch of an update: [data.$set || data]. *)
Definition patchOf (data : jsval) : gmap string jsval :=
  spread_props (js_or (opt_member data "$set") data).

(** A value that [===] compares by content. *)
Definition primitive (v : jsval) : bool :=
  match v with
  | JArr _ | JObj _ => false
  | _ => true
  end.

(** No element of the list satisfies the query. *)
Definition unmatched (queryData : Query) (l : list jsval) : Prop :=
  Forall (λ x, matchesQuery P queryData x = Ok false) l.

(** The preview [getSubmissions] logs of the first document can be
    taken. *)
Definition previewed (docs : list (gmap string jsval)) : Prop :=
  match docs with
  | first :: _ => SubmissionQueue.previewable first = true
  | [] => True
  end.

(** Every document is stored under the text of its [id]. *)
Definition keyed (docs : list (gmap string jsval)) : Prop :=
  Forall (λ d, prop d "_id" = JStr (to_str P (prop d "id"))) docs.

(** The document [submissionStore.addSubmission] stores for a record. *)
Definition queuedDocument (salt : Salt) (now : Z) (nowISO : string) (now' : Z)
    (nowISO' fresh : string) (submissionData : jsval) : gmap string jsval :=
  newItem fresh
    (JObj (FirebaseService.submissionDocument P now' nowISO'
       (JObj (SubmissionQueue.storedSubmission now nowISO
                (encryptSubmissionData P salt submissionData))))).

(** The entry [getSubmissions] returns for a record queued at [now]. *)
Definition queuedEntry (now : Z) (nowISO : string) (submissionData : jsval)
  : gmap string jsval :=
  <["status" := JStr "pending"]>
    (<["submittedAt" := JStr nowISO]>
       (spread_props submissionData ∪ {["id" := JNum now]})).

(** The document [storeDocument] inserts for a user without one, and the
    document it leaves when the user has the document [old]. *)
Definition firstStored (nowISO1 nowISO2 nowISO3 fresh : string)
    (username documentData : jsval) : gmap string jsval :=
  newItem fresh
    (JObj (<["createdAt" := JStr nowISO3]>
             (FirebaseService.documentRecord nowISO1 nowISO2 username documentData))).

Definition storedAgain (nowISO1 nowISO2 : string) (username documentData : jsval)
    (old : gmap string jsval) : gmap string jsval :=
  <["createdAt" := js_or (prop old "createdAt") (prop old "uploadedAt")]>
    (FirebaseService.documentRecord nowISO1 nowISO2 username documentData)
  ∪ old.

End StoreVocabulary.

(** Example collections, on the reference platform. *)
Module StoreExamples.

Import LocalStore.

Definition bobDocument : jsval :=
  JObj (Examples.record [ ("_id", JStr "1709100000000_k3x9q2a7b"); ("username", JStr "bob");
                          ("name", JStr "Bob Roe"); ("uploadedAt", JStr "2024-02-28T06:00:00.000Z") ]).

Definition janeData : jsval :=
  JObj (Examples.record [ ("username", JStr "jane"); ("name", JStr "Jane Doe") ]).

Definition janeFresh : string := "1709294400000_p0o9i8u7y".

Definition janeDocument : jsval :=
  JObj (Examples.record [ ("_id", JStr "1709294400000_p0o9i8u7y"); ("username", JStr "jane");
                          ("name", JStr "Jane Doe") ]).

(** A storage whose [documents] collection holds [bobDocument]. *)
Definition oneDocument : Storage :=
  {[ storageKey "documents" := storedText Ref.platform [bobDocument] ]}.

(** A storage whose [documents] collection holds both documents. *)
Definition twoDocuments : Storage :=
  {[ storageKey "documents" := storedText Ref.platform [bobDocument; janeDocument] ]}.

(** An update that sets the mobile number and replaces the name. *)
Definition nameUpdate : jsval :=
  JObj (Examples.record
    [("$set", JObj (Examples.record [("name", JStr "Robert Roe"); ("mobile", JStr "888")]))]).

(** A storage whose [documents] entry was cut short. *)
Definition cutStorage : Storage :=
  {[ storageKey "documents" := "[{" ]}.

(** A record to queue, and the clock reading and salt of the call. *)
Definition janeRecord : jsval :=
  JObj (Examples.record [ ("username", JStr "jane"); ("name", JStr "Jane Doe");
                          ("dob", JStr "N/A"); ("aadhaar", JStr "123");
                          ("mobile", JStr "555") ]).

Definition queuedAt : Z := 1709200000000.
Definition queuedAtISO : string := "2024-02-29T09:46:40.000Z".

(** Two stored submissions, keyed by their identifiers; the ciphertexts
    are those of [janeRecord] and of a record of Bob Roe. *)
Definition storedJane : gmap string jsval :=
  Examples.record [ ("id", JNum 1709200000000); ("_id", JStr "1709200000000");
                    ("encryptedData",
                     JStr "6b632c6c717b2c7c2d4c23433d2625287d676225343d0c38353c7f5c616d3c352c276e6664637e78257c3e3b35342c33642c283c2d766f657b3b3464656362673d26252b73686e6b6b3d7c7b6e6c6a3a73");
                    ("submittedAt", JStr "2024-02-29T09:46:40.000Z");
                    ("status", JStr "pending") ].

Definition storedBob : gmap string jsval :=
  Examples.record [ ("id", JNum 1709100000000); ("_id", JStr "1709100000000");
                    ("encryptedData",
                     JStr "6b632c667f746b6435204e6d7d2a552979282b257b6c232b3538327d2c323c7b61242d7f");
                    ("submittedAt", JStr "2024-02-28T06:00:00.000Z");
                    ("status", JStr "pending") ].

Definition twoSubmissions : Storage :=
  {[ storageKey "submissions"
     := storedText Ref.platform [JObj storedBob; JObj storedJane] ]}.

(** The data of a document, and a later version of it. *)
Definition scanned : jsval :=
  JObj (Examples.record [ ("name", JStr "Jane Doe"); ("dob", JStr "N/A") ]).

Definition scannedAgain : jsval :=
  JObj (Examples.record [ ("name", JStr "Jane Roe"); ("mobile", JStr "555") ]).

(** A document created by an upsert: its [_id] is a fresh identifier. *)
Definition upsertedDocument : gmap string jsval :=
  Examples.record [ ("_id", JStr "1709294400000_p0o9i8u7y"); ("id", JNum 1709200000000);
                    ("status", JStr "verified") ].

Definition upsertedOnly : Storage :=
  {[ storageKey "submissions" := storedText Ref.platform [JObj upsertedDocument] ]}.

(** A [submissions] entry whose first element is [null]. *)
Definition nullHead : Storage :=
  {[ storageKey "submissions" := "[null,5]" ]}.

End StoreExamples.

(** ** Vocabulary of the generator properties *)

(** The five fields the matcher compares. *)
Definition identityFields : list string :=
  ["name"; "dob"; "aadhaar"; "mobile"; "username"].

(** The stored submission carries the document's five fields. *)
Definition sameIdentity (D s : gmap string jsval) : Prop :=
  Forall (λ k, prop s k = prop D k) identityFields.

(** The document's name is a string and its other four fields are
    values that [===] compares by content. *)
Definition comparableIdentity (D : gmap string jsval) : Prop :=
  is_string (prop D "name") = true
  ∧ Forall (λ k, primitive (prop D k) = true) ["dob"; "aadhaar"; "mobile"; "username"].

(** The verdict of a scan whose five checks are true. *)
Definition verifiedVerdict (p : jsval) (s : gmap string jsval) : ValidationResult :=
  dataVerdict p s [true; true; true; true; true].

Module QRExamples.

(** The document of Jane Doe, the selection of the age attribute, and
    the time the code is generated. *)
Definition janeFields : gmap string jsval :=
  Examples.record [ ("username", JStr "jane"); ("name", JStr "Jane Doe");
                    ("dob", JStr "N/A"); ("aadhaar", JStr "123");
                    ("mobile", JStr "555"); ("address", JStr "1 Main St") ].

Definition selectAge : jsval := JObj (Examples.record [("age", JBool true)]).

Definition generatedAt : string := "2024-03-01T12:00:00.000Z".

(** The payload generated for [janeFields]. *)
Definition janePayload : gmap string jsval :=
  Examples.record [ ("docType", JStr "Document Verification");
                    ("verifiedAt", JStr "2024-03-01T12:00:00.000Z");
                    ("username", JStr "jane"); ("name", JStr "Jane Doe");
                    ("dob", JStr "N/A"); ("mobile", JStr "555");
                    ("aadhaar", JStr "123"); ("age", JStr "N/A") ].

End QRExamples.

(** ** Basic facts *)

Section Facts.
Context (P : Platform).

Lemma strict_eq_sym (a b : jsval) : strict_eq a b = strict_eq b a.
Proof.
  destruct a, b; simpl; try reflexivity.
  - destruct b, b0; reflexivity.
  - apply Z.eqb_sym.
  - apply String.eqb_sym.
Qed.

Lemma member_non_nullish (v : jsval) (k : string) :
  nullish v = false → member P v k = Ok (opt_member v k).
Proof. destruct v; simpl; intros H; try discriminate; reflexivity. Qed.

Lemma member_ok_inv (v : jsval) (k : string) (x : jsval) :
  member P v k = Ok x → nullish v = false ∧ x = opt_member v k.
Proof.
  destruct v; simpl; intros H; try discriminate; inversion H; auto.
Qed.

Lemma lower_trim_ok_inv (v x : jsval) :
  lower_trim P v = Ok x →
  ∃ s, v = JStr s ∧ x = JStr (String_trim P (String_toLowerCase P s)).
Proof.
  destruct v; simpl; intros H; try discriminate.
  inversion H; eauto.
Qed.

Lemma lower_trim_not_string (v : jsval) :
  is_string v = false → lower_trim P v = Throw (engine_TypeError P v "toLowerCase").
Proof. destruct v; simpl; intros H; try discriminate; reflexivity. Qed.

(** *** [find] *)

Lemma find_r_found {A : Type} (f : A → result bool) (l1 l2 : list A) (x : A) :
  Forall (λ y, f y = Ok false) l1 → f x = Ok true →
  find_r f (l1 ++ x :: l2) = Ok (Some x).
Proof.
  intros Hl Hx. induction Hl as [|y l1 Hy _ IH]; simpl.
  - rewrite Hx. reflexivity.
  - rewrite Hy. simpl. exact IH.
Qed.

Lemma find_r_none {A : Type} (f : A → result bool) (l : list A) :
  Forall (λ y, f y = Ok false) l → find_r f l = Ok None.
Proof.
  intros Hl. induction Hl as [|y l Hy _ IH]; simpl; [reflexivity|].
  rewrite Hy. simpl. exact IH.
Qed.

Lemma find_r_some_inv {A : Type} (f : A → result bool) (l : list A) (x : A) :
  find_r f l = Ok (Some x) →
  ∃ l1 l2, l = l1 ++ x :: l2 ∧ Forall (λ y, f y = Ok false) l1 ∧ f x = Ok true.
Proof.
  induction l as [|y l IH]; simpl; [discriminate|].
  destruct (f y) as [[|]|e] eqn:Hy; simpl; intros H.
  - inversion H; subst. exists [], l. auto.
  - destruct (IH H) as (l1 & l2 & -> & Hl1 & Hx).
    exists (y :: l1), l2. auto.
  - discriminate.
Qed.

Lemma find_r_none_inv {A : Type} (f : A → result bool) (l : list A) :
  find_r f l = Ok None → Forall (λ y, f y = Ok false) l.
Proof.
  induction l as [|y l IH]; simpl; [constructor|].
  destruct (f y) as [[|]|e] eqn:Hy; simpl; intros H; try discriminate.
  constructor; auto.
Qed.

(** The search stops with the exception of the first element on which
    the callback throws, when no earlier element satisfies it. *)
Lemma find_r_throws {A : Type} (f : A → result bool) (l1 l2 : list A) (x : A) (e : exn) :
  Forall (λ y, f y ≠ Ok true) l1 → f x = Throw e →
  ∃ e', find_r f (l1 ++ x :: l2) = Throw e'.
Proof.
  intros Hl Hx. induction Hl as [|y l1 Hy _ IH]; simpl.
  - rewrite Hx. eauto.
  - destruct (f y) as [[|]|e0]; simpl; eauto. congruence.
Qed.

(** *** The match predicate *)

Lemma matchPredicate_true (p : jsval) (s : gmap string jsval) :
  matchPredicate P p s = Ok true ↔ meets P p s.
Proof.
  unfold matchPredicate, meets. destruct (matchChecks P p s) as [cs|e]; cbn [bind].
  - split.
    + intros H. inversion H as [H1]. exists cs. split; [reflexivity|].
      apply Nat.leb_le. exact H1.
    + intros (cs' & Hcs & Hn). inversion Hcs; subst.
      f_equal. apply Nat.leb_le. exact Hn.
  - split; [discriminate|]. intros (cs' & Hcs & _). discriminate.
Qed.

Lemma matchPredicate_false (p : jsval) (s : gmap string jsval) :
  matchPredicate P p s = Ok false ↔ below P p s.
Proof.
  unfold matchPredicate, below. destruct (matchChecks P p s) as [cs|e]; cbn [bind].
  - split.
    + intros H. inversion H as [H1]. exists cs. split; [reflexivity|].
      apply Nat.leb_gt. exact H1.
    + intros (cs' & Hcs & Hn). inversion Hcs; subst.
      f_equal. apply Nat.leb_gt. exact Hn.
  - split; [discriminate|]. intros (cs' & Hcs & _). discriminate.
Qed.


Lemma matchChecks_ok_inv (p : jsval) (s : gmap string jsval) (cs : list bool) :
  matchChecks P p s = Ok cs →
  ∃ subName pName,
    lower_trim P (prop s "name") = Ok subName ∧
    nullish p = false ∧
    opt_lower_trim P (opt_member p "name") = Ok pName ∧
    cs = checksOf p s subName pName.
Proof.
  unfold matchChecks. intros H.
  destruct (lower_trim P (prop s "name")) as [subName|] eqn:H1; simpl in H; [|discriminate].
  destruct (member P p "name") as [pn|] eqn:H2; simpl in H; [|discriminate].
  apply member_ok_inv in H2 as [Hp ->].
  destruct (opt_lower_trim P (opt_member p "name")) as [pName|] eqn:H3;
    simpl in H; [|discriminate].
  rewrite !(member_non_nullish _ _ Hp) in H. simpl in H.
  inversion H. exists subName, pName. auto.
Qed.


Lemma matchChecks_throws (p : jsval) (s : gmap string jsval) :
  is_string (prop s "name") = false →
  matchChecks P p s = Throw (engine_TypeError P (prop s "name") "toLowerCase").
Proof.
  intros H. unfold matchChecks. rewrite (lower_trim_not_string _ H). reflexivity.
Qed.


End Facts.

(** ** The verdicts of [validateQRData] *)

Section Verdicts.
Context (P : Platform).

(** Once the checks of a submission can be evaluated, nothing after the
    search throws, and the verdict is the expired one or the field by
    field one. *)
Lemma verdictFor_found (now : Z) (p : jsval) (s : gmap string jsval) (cs : list bool) :
  matchChecks P p s = Ok cs →
  verdictFor P now p (Some s) =
    Ok (if isExpired now (verifiedAtOf P p) then expiredVerdict p s
        else dataVerdict p s cs).
Proof.
  intros H. apply matchChecks_ok_inv in H as (subName & pName & H1 & Hp & H2 & ->).
  unfold verdictFor, requestedFlag, verifiedAtOf.
  rewrite !(member_non_nullish P _ _ Hp). cbn [bind].
  destruct (isExpired now (Date_of P (opt_member p "verifiedAt"))); [reflexivity|].
  rewrite H1, H2. cbn [bind].
  unfold dataVerdict, entriesOf, dobEquality, requestedOf, checksOf, all_true.
  cbn [nth forallb].
  rewrite (strict_eq_sym pName subName).
  rewrite (strict_eq_sym (opt_member p "dob") (prop s "dob")).
  rewrite (strict_eq_sym (opt_member p "aadhaar") (prop s "aadhaar")).
  rewrite (strict_eq_sym (opt_member p "mobile") (prop s "mobile")).
  rewrite (strict_eq_sym (opt_member p "username") (prop s "username")).
  rewrite !andb_true_r, !andb_assoc. reflexivity.
Qed.

Lemma validateQRData_parsed (now : Z) (subs : list (gmap string jsval)) (qr p : jsval) :
  parseQRData P qr = Ok p →
  validateQRData P now subs qr =
    match validateParsed P now subs p with
    | Ok r => r
    | Throw e => failureVerdict e
    end.
Proof. intros H. unfold validateQRData. rewrite H. reflexivity. Qed.

Lemma validateQRData_parse_failure (now : Z) (subs : list (gmap string jsval))
    (qr : jsval) (e : exn) :
  parseQRData P qr = Throw e → validateQRData P now subs qr = failureVerdict e.
Proof. intros H. unfold validateQRData. rewrite H. reflexivity. Qed.

Lemma validateParsed_found (now : Z) (subs : list (gmap string jsval)) (p : jsval)
    (s : gmap string jsval) :
  matchingSubmission P p subs = Ok (Some s) →
  ∃ cs, matchChecks P p s = Ok cs ∧ (3 ≤ matchCount cs)%nat ∧
        validateParsed P now subs p =
          Ok (if isExpired now (verifiedAtOf P p) then expiredVerdict p s
              else dataVerdict p s cs).
Proof.
  intros H. unfold validateParsed. rewrite H. cbn [bind].
  apply find_r_some_inv in H as (l1 & l2 & _ & _ & Hs).
  apply matchPredicate_true in Hs as (cs & Hcs & Hn).
  exists cs. split; [exact Hcs|]. split; [exact Hn|].
  apply verdictFor_found. exact Hcs.
Qed.

Lemma validateParsed_none (now : Z) (subs : list (gmap string jsval)) (p : jsval) :
  matchingSubmission P p subs = Ok None →
  validateParsed P now subs p = Ok (noMatchVerdict p).
Proof. intros H. unfold validateParsed. rewrite H. reflexivity. Qed.

Lemma validateParsed_throw (now : Z) (subs : list (gmap string jsval)) (p : jsval)
    (e : exn) :
  matchingSubmission P p subs = Throw e →
  validateParsed P now subs p = Throw e.
Proof. intros H. unfold validateParsed. rewrite H. reflexivity. Qed.

Lemma failureVerdict_fields (e : exn) :
  isValid (failureVerdict e) = false ∧ submission (failureVerdict e) = None ∧
  scannedData (failureVerdict e) = JNull ∧
  attributeVerification (failureVerdict e) = AVUndefined ∧
  ∃ detail, message (failureVerdict e) = msgInvalidFormat +:+ detail.
Proof.
  unfold failureVerdict. repeat split.
  destruct (str_includes "Unexpected token" (exn_message e));
    [|destruct (str_includes "No data parameter" (exn_message e))];
    eexists; reflexivity.
Qed.

End Verdicts.

(** ** The example scans parse to the example payloads *)

Section ExampleScans.
Import Examples.

Lemma parse_scanFull : parseQRData Ref.platform scanFull = Ok payloadFull.
Proof. vm_compute. reflexivity. Qed.

Lemma parse_scanThree : parseQRData Ref.platform scanThree = Ok payloadThree.
Proof. vm_compute. reflexivity. Qed.

Lemma parse_scanTwo : parseQRData Ref.platform scanTwo = Ok payloadTwo.
Proof. vm_compute. reflexivity. Qed.

Lemma parse_scanAge : parseQRData Ref.platform scanAge = Ok payloadAge.
Proof. vm_compute. reflexivity. Qed.

Lemma parse_scanNoTimestamp :
  parseQRData Ref.platform scanNoTimestamp = Ok payloadNoTimestamp.
Proof. vm_compute. reflexivity. Qed.

Lemma parse_scanBadTimestamp :
  parseQRData Ref.platform scanBadTimestamp = Ok payloadBadTimestamp.
Proof. vm_compute. reflexivity. Qed.

End ExampleScans.

(** ** The matching threshold (C1) *)

Section Threshold.
Context (P : Platform).


Lemma matchPredicate_not_true (p : jsval) (s : gmap string jsval) :
  ¬ meets P p s → matchPredicate P p s ≠ Ok true.
Proof. intros Hn H. apply Hn. apply matchPredicate_true. exact H. Qed.

Lemma selected_of_split (p : jsval) (l1 l2 : list (gmap string jsval))
    (s : gmap string jsval) :
  Forall (below P p) l1 → meets P p s →
  matchingSubmission P p (l1 ++ s :: l2) = Ok (Some s).
Proof.
  intros Hl Hs. unfold matchingSubmission. apply find_r_found.
  - eapply Forall_impl; [exact Hl|]. intros x Hx. apply matchPredicate_false. exact Hx.
  - apply matchPredicate_true. exact Hs.
Qed.




End Threshold.



(** The examples of the specification, run: three agreeing fields select
    the submission (the verdict reports the discrepancies), two agreeing
    fields select nothing. *)
Lemma threshold_examples :
  matchChecks Ref.platform Examples.payloadThree Examples.jane
    = Ok [true; false; true; true; false] ∧
  submission (validateQRData Ref.platform (Examples.noon + Examples.hour)
                [Examples.bob; Examples.jane] Examples.scanThree) = Some Examples.jane ∧
  matchChecks Ref.platform Examples.payloadTwo Examples.jane
    = Ok [true; false; true; false; false] ∧
  validateQRData Ref.platform (Examples.noon + Examples.hour)
    [Examples.bob; Examples.jane] Examples.scanTwo = noMatchVerdict Examples.payloadTwo.
Proof. repeat split; vm_compute; reflexivity. Qed.


(** ** Failure, expiry and the status update (C10, C3, C4) *)

Section Scan.
Context (P : Platform).

(** The store calls of a scan that reached the validation. *)
Lemma handleQRScan_validated (now : Z) (subs : list (gmap string jsval)) (data : jsval) :
  truthy data = true → truthy (scanContent data) = true →
  handleQRScan P now subs data =
    let r := validateQRData P now subs (scanContent data) in
    {| qrValidationResult := Some r;
       cameraError := None;
       rawQrData := Some match data with
                         | JStr _ => data
                         | _ => from_option JStr JUndef (JSON_stringify P data)
                         end;
       storeCalls :=
         if isValid r then
           match submission r with
           | Some s => [updateSubmissionStatus (prop s "id") "verified"]
           | None => []
           end
         else [] |}.
Proof. intros H1 H2. unfold handleQRScan. rewrite H1, H2. reflexivity. Qed.

(** A scan that did not reach the validation leaves no verdict and makes
    no call. *)
Lemma handleQRScan_not_validated (now : Z) (subs : list (gmap string jsval)) (data : jsval) :
  truthy data = false ∨ truthy (scanContent data) = false →
  qrValidationResult (handleQRScan P now subs data) = None ∧
  storeCalls (handleQRScan P now subs data) = [].
Proof.
  intros H. unfold handleQRScan.
  destruct (truthy data); simpl; [|auto].
  destruct H as [H|H]; [discriminate|]. rewrite H. simpl. auto.
Qed.

(** Every verdict of [validateQRData] is one of the five. *)
Lemma validateQRData_cases (now : Z) (subs : list (gmap string jsval)) (qr : jsval) :
  let r := validateQRData P now subs qr in
  (∃ e, r = failureVerdict e ∧
        (parseQRData P qr = Throw e ∨
         ∃ p, parseQRData P qr = Ok p ∧ matchingSubmission P p subs = Throw e))
  ∨ (∃ p, parseQRData P qr = Ok p ∧ matchingSubmission P p subs = Ok None ∧
          r = noMatchVerdict p)
  ∨ (∃ p s cs, parseQRData P qr = Ok p ∧ matchingSubmission P p subs = Ok (Some s) ∧
               matchChecks P p s = Ok cs ∧ (3 ≤ matchCount cs)%nat ∧
               ((isExpired now (verifiedAtOf P p) = true ∧ r = expiredVerdict p s)
                ∨ (isExpired now (verifiedAtOf P p) = false ∧ r = dataVerdict p s cs))).
Proof.
  intros r. subst r.
  destruct (parseQRData P qr) as [p|e] eqn:Hparse.
  - rewrite (validateQRData_parsed P now subs qr p Hparse).
    destruct (matchingSubmission P p subs) as [[s|]|e] eqn:Hm.
    + right. right.
      destruct (validateParsed_found P now subs p s Hm) as (cs & Hcs & Hn & ->).
      exists p, s, cs. repeat (split; [first [reflexivity|assumption]|]).
      destruct (isExpired now (verifiedAtOf P p)); [left|right]; auto.
    + right. left. exists p. rewrite (validateParsed_none P now subs p Hm). auto.
    + left. exists e. rewrite (validateParsed_throw P now subs p e Hm).
      split; [reflexivity|]. right. exists p. auto.
  - left. exists e. rewrite (validateQRData_parse_failure P now subs qr e Hparse). auto.
Qed.



End Scan.

(** C10.  When, before the first submission meeting the threshold, the
    list holds a submission whose [name] is missing or not a string, the
    match predicate throws on it, the exception is caught by
    [validateQRData], and the scan returns the "Invalid QR code format"
    failure verdict with no submission selected, and the scan makes no
    store call, whatever follows in the list. *)
Theorem C10_nameless_submission_fails_the_scan
    (P : Platform) (now : Z) (l1 l2 : list (gmap string jsval))
    (bad : gmap string jsval) (qr p : jsval) :
  parseQRData P qr = Ok p →
  Forall (λ s, ¬ meets P p s) l1 →
  is_string (prop bad "name") = false →
  (∃ e, matchPredicate P p bad = Throw e) ∧
  ∃ e, validateParsed P now (l1 ++ bad :: l2) p = Throw e ∧
       validateQRData P now (l1 ++ bad :: l2) qr = failureVerdict e ∧
       isValid (failureVerdict e) = false ∧
       submission (failureVerdict e) = None ∧
       (∃ detail, message (failureVerdict e) = msgInvalidFormat +:+ detail) ∧
       (∀ data, scanContent data = qr →
                storeCalls (handleQRScan P now (l1 ++ bad :: l2) data) = []).
Proof.
  intros Hparse Hl Hbad.
  assert (Hthrow : matchPredicate P p bad
                   = Throw (engine_TypeError P (prop bad "name") "toLowerCase")).
  { unfold matchPredicate. rewrite (matchChecks_throws P p bad Hbad). reflexivity. }
  split; [eauto|].
  destruct (find_r_throws (matchPredicate P p) l1 l2 bad
              (engine_TypeError P (prop bad "name") "toLowerCase")) as [e He];
    [|exact Hthrow|].
  { eapply Forall_impl; [exact Hl|]. intros x Hx. apply matchPredicate_not_true. exact Hx. }
  assert (Hv : validateQRData P now (l1 ++ bad :: l2) qr = failureVerdict e).
  { rewrite (validateQRData_parsed P now _ qr p Hparse).
    rewrite (validateParsed_throw P now _ p e He). reflexivity. }
  exists e. split; [apply validateParsed_throw; exact He|].
  split; [exact Hv|].
  destruct (failureVerdict_fields e) as (H1 & H2 & _ & _ & H3).
  repeat (split; [assumption|]).
  intros data Hdata.
  destruct (truthy data) eqn:Hd; [destruct (truthy (scanContent data)) eqn:Hc|].
  - rewrite (handleQRScan_validated P now _ data Hd Hc). cbn zeta.
    cbn [storeCalls]. rewrite Hdata, Hv. reflexivity.
  - apply (handleQRScan_not_validated P now _ data). auto.
  - apply (handleQRScan_not_validated P now _ data). auto.
Qed.

Lemma C10_witness :
  parseQRData Ref.platform Examples.scanFull = Ok Examples.payloadFull ∧
  Forall (λ s, ¬ meets Ref.platform Examples.payloadFull s) [Examples.bob] ∧
  is_string (prop Examples.ghost "name") = false ∧
  ((∃ e, matchPredicate Ref.platform Examples.payloadFull Examples.ghost = Throw e) ∧
   ∃ e, validateParsed Ref.platform (Examples.noon + Examples.hour)
          ([Examples.bob] ++ Examples.ghost :: [Examples.jane]) Examples.payloadFull
        = Throw e ∧
        validateQRData Ref.platform (Examples.noon + Examples.hour)
          ([Examples.bob] ++ Examples.ghost :: [Examples.jane]) Examples.scanFull
        = failureVerdict e ∧
        isValid (failureVerdict e) = false ∧
        submission (failureVerdict e) = None ∧
        (∃ detail, message (failureVerdict e) = msgInvalidFormat +:+ detail) ∧
        (∀ data, scanContent data = Examples.scanFull →
                 storeCalls (handleQRScan Ref.platform (Examples.noon + Examples.hour)
                               ([Examples.bob] ++ Examples.ghost :: [Examples.jane]) data)
                 = [])).
Proof.
  assert (Hbob : Forall (λ s, ¬ meets Ref.platform Examples.payloadFull s) [Examples.bob]).
  { constructor; [|constructor]. intros (cs & Hcs & Hn).
    vm_compute in Hcs. inversion Hcs; subst cs. vm_compute in Hn. lia. }
  split; [vm_compute; reflexivity|].
  split; [exact Hbob|].
  split; [vm_compute; reflexivity|].
  apply (C10_nameless_submission_fails_the_scan Ref.platform
           (Examples.noon + Examples.hour) [Examples.bob] [Examples.jane]
           Examples.ghost Examples.scanFull Examples.payloadFull).
  - vm_compute. reflexivity.
  - exact Hbob.
  - vm_compute. reflexivity.
Defined.

(** C3.  For every payload that matches a submission and whose
    [verifiedAt] lies more than 24 hours before the current time, the scan
    produces the "expired" verdict and makes no call on the submission
    store, however many of the five fields agree. *)
Theorem C3_expired_match_changes_nothing
    (P : Platform) (now : Z) (subs : list (gmap string jsval)) (data p : jsval)
    (s : gmap string jsval) (t : Z) :
  truthy data = true → truthy (scanContent data) = true →
  parseQRData P (scanContent data) = Ok p →
  matchingSubmission P p subs = Ok (Some s) →
  verifiedAtOf P p = Some t →
  24 * (1000 * 60 * 60) < now - t →
  qrValidationResult (handleQRScan P now subs data) = Some (expiredVerdict p s) ∧
  message (expiredVerdict p s) = msgExpired ∧
  storeCalls (handleQRScan P now subs data) = [].
Proof.
  intros Hd Hc Hparse Hm Ht Hold.
  rewrite (handleQRScan_validated P now subs data Hd Hc). cbn zeta.
  rewrite (validateQRData_parsed P now subs _ p Hparse).
  destruct (validateParsed_found P now subs p s Hm) as (cs & _ & _ & ->).
  assert (Hexp : isExpired now (verifiedAtOf P p) = true).
  { rewrite Ht. unfold isExpired. apply Z.ltb_lt. exact Hold. }
  rewrite Hexp. simpl. auto.
Qed.

(** A payload agreeing with the stored submission on all five fields,
    scanned 25 hours after its [verifiedAt]. *)
Lemma C3_witness :
  truthy Examples.scanFull = true ∧
  truthy (scanContent Examples.scanFull) = true ∧
  parseQRData Ref.platform (scanContent Examples.scanFull) = Ok Examples.payloadFull ∧
  matchingSubmission Ref.platform Examples.payloadFull [Examples.bob; Examples.jane]
    = Ok (Some Examples.jane) ∧
  verifiedAtOf Ref.platform Examples.payloadFull = Some Examples.noon ∧
  24 * (1000 * 60 * 60) < (Examples.noon + 25 * Examples.hour) - Examples.noon ∧
  (qrValidationResult (handleQRScan Ref.platform (Examples.noon + 25 * Examples.hour)
                         [Examples.bob; Examples.jane] Examples.scanFull)
     = Some (expiredVerdict Examples.payloadFull Examples.jane) ∧
   message (expiredVerdict Examples.payloadFull Examples.jane) = msgExpired ∧
   storeCalls (handleQRScan Ref.platform (Examples.noon + 25 * Examples.hour)
                 [Examples.bob; Examples.jane] Examples.scanFull) = []).
Proof.
  split; [reflexivity|].
  split; [reflexivity|].
  split; [vm_compute; reflexivity|].
  split; [vm_compute; reflexivity|].
  split; [vm_compute; reflexivity|].
  split; [vm_compute; reflexivity|].
  apply (C3_expired_match_changes_nothing Ref.platform
           (Examples.noon + 25 * Examples.hour) [Examples.bob; Examples.jane]
           Examples.scanFull Examples.payloadFull Examples.jane Examples.noon).
  - reflexivity.
  - reflexivity.
  - vm_compute. reflexivity.
  - vm_compute. reflexivity.
  - vm_compute. reflexivity.
  - vm_compute. reflexivity.
Defined.


(** ** The attribute verdict (C2) *)

Section Attributes.
Context (P : Platform).

Lemma requested_truthy (p : jsval) (vr : gmap string jsval) (a : string) :
  opt_member p "verificationRequested" = JObj vr →
  truthy (requestedOf p a) = truthy (prop vr a).
Proof.
  intros H. unfold requestedOf. rewrite H. cbn [opt_member]. unfold js_or.
  destruct (truthy (prop vr a)) eqn:E; [exact E|reflexivity].
Qed.

Lemma displayed_of_dataVerdict (p : jsval) (s : gmap string jsval) (cs : list bool) :
  displayedAttributes (dataVerdict p s cs) =
    List.filter (λ e, truthy (requested (snd e))) (entriesOf p s (nth 0 cs false)).
Proof. reflexivity. Qed.

End Attributes.

(** C2 (as amended).  For every matched, non-expired payload carrying a
    [verificationRequested] map, the attribute verdict [validateQRData]
    returns always has the five entries name, age, mobile, aadhaar and
    address, each with its [requested] flag; the verdict displayed (the
    entries whose flag is truthy) has an entry exactly for those of the
    five attributes whose requested flag is truthy.  For
    [verificationRequested = {age: true}] the displayed verdict is the
    single entry [age], and an [age] entry reports the dob equality
    check. *)
Theorem C2_displayed_attributes_are_the_requested_ones
    (P : Platform) (now : Z) (subs : list (gmap string jsval)) (qr p : jsval)
    (s vr : gmap string jsval) :
  parseQRData P qr = Ok p →
  matchingSubmission P p subs = Ok (Some s) →
  isExpired now (verifiedAtOf P p) = false →
  opt_member p "verificationRequested" = JObj vr →
  (∃ entries, attributeVerification (validateQRData P now subs qr) = AVEntries entries ∧
              map fst entries = attributeNames)
  ∧ map fst (displayedAttributes (validateQRData P now subs qr))
    = List.filter (λ a, truthy (prop vr a)) attributeNames
  ∧ (∀ d, In ("age", d) (displayedAttributes (validateQRData P now subs qr)) →
          verified d = dobEquality p s ∧ scanned d = opt_member p "dob" ∧
          stored d = prop s "dob")
  ∧ (vr = {["age" := JBool true]} →
     displayedAttributes (validateQRData P now subs qr)
     = [("age", {| verified := dobEquality p s; scanned := opt_member p "dob";
                   stored := prop s "dob"; requested := JBool true |})]).
Proof.
  intros Hparse Hm Hexp Hvr.
  rewrite (validateQRData_parsed P now subs qr p Hparse).
  destruct (validateParsed_found P now subs p s Hm) as (cs & _ & _ & ->).
  rewrite Hexp.
  assert (Hreq : ∀ a, truthy (requestedOf p a) = truthy (prop vr a))
    by (intros a; apply requested_truthy; exact Hvr).
  split; [|split; [|split]].
  - eexists. split; reflexivity.
  - rewrite displayed_of_dataVerdict. unfold entriesOf, attributeNames.
    cbn [List.filter snd requested]. rewrite !Hreq.
    destruct (truthy (prop vr "name")), (truthy (prop vr "age")),
      (truthy (prop vr "mobile")), (truthy (prop vr "aadhaar")),
      (truthy (prop vr "address")); reflexivity.
  - intros d Hin. rewrite displayed_of_dataVerdict in Hin.
    apply filter_In in Hin as [Hin _]. unfold entriesOf in Hin.
    cbn [In] in Hin.
    destruct Hin as [H|[H|[H|[H|[H|[]]]]]]; inversion H; subst d; auto.
  - intros ->. rewrite displayed_of_dataVerdict. unfold entriesOf.
    cbn [List.filter snd requested]. rewrite !Hreq.
    assert (Hage : requestedOf p "age" = JBool true)
      by (unfold requestedOf; rewrite Hvr; reflexivity).
    rewrite Hage. reflexivity.
Qed.

Lemma C2_witness :
  parseQRData Ref.platform Examples.scanAge = Ok Examples.payloadAge ∧
  matchingSubmission Ref.platform Examples.payloadAge [Examples.bob; Examples.jane]
    = Ok (Some Examples.jane) ∧
  isExpired (Examples.noon + Examples.hour)
            (verifiedAtOf Ref.platform Examples.payloadAge) = false ∧
  opt_member Examples.payloadAge "verificationRequested"
    = JObj (Examples.record [("age", JBool true)]) ∧
  ((∃ entries,
      attributeVerification
        (validateQRData Ref.platform (Examples.noon + Examples.hour)
           [Examples.bob; Examples.jane] Examples.scanAge) = AVEntries entries ∧
      map fst entries = attributeNames)
   ∧ map fst (displayedAttributes
                (validateQRData Ref.platform (Examples.noon + Examples.hour)
                   [Examples.bob; Examples.jane] Examples.scanAge))
     = List.filter (λ a, truthy (prop (Examples.record [("age", JBool true)]) a))
                   attributeNames
   ∧ (∀ d, In ("age", d)
             (displayedAttributes
                (validateQRData Ref.platform (Examples.noon + Examples.hour)
                   [Examples.bob; Examples.jane] Examples.scanAge)) →
           verified d = dobEquality Examples.payloadAge Examples.jane ∧
           scanned d = opt_member Examples.payloadAge "dob" ∧
           stored d = prop Examples.jane "dob")
   ∧ (Examples.record [("age", JBool true)] = {["age" := JBool true]} →
      displayedAttributes
        (validateQRData Ref.platform (Examples.noon + Examples.hour)
           [Examples.bob; Examples.jane] Examples.scanAge)
      = [("age", {| verified := dobEquality Examples.payloadAge Examples.jane;
                    scanned := opt_member Examples.payloadAge "dob";
                    stored := prop Examples.jane "dob";
                    requested := JBool true |})])).
Proof.
  split; [vm_compute; reflexivity|].
  split; [vm_compute; reflexivity|].
  split; [vm_compute; reflexivity|].
  split; [vm_compute; reflexivity|].
  apply (C2_displayed_attributes_are_the_requested_ones Ref.platform
           (Examples.noon + Examples.hour) [Examples.bob; Examples.jane]
           Examples.scanAge Examples.payloadAge Examples.jane
           (Examples.record [("age", JBool true)])).
  - vm_compute. reflexivity.
  - vm_compute. reflexivity.
  - vm_compute. reflexivity.
  - vm_compute. reflexivity.
Defined.

(** The claim as stated fails: with [verificationRequested = {age: true}]
    the attribute verdict [validateQRData] returns has five entries, the
    four that were not requested among them. *)
Lemma C2_counterexample :
  parseQRData Ref.platform Examples.scanAge = Ok Examples.payloadAge ∧
  opt_member Examples.payloadAge "verificationRequested"
    = JObj {["age" := JBool true]} ∧
  ∃ entries,
    attributeVerification
      (validateQRData Ref.platform (Examples.noon + Examples.hour)
         [Examples.bob; Examples.jane] Examples.scanAge) = AVEntries entries ∧
    map (λ e, (fst e, requested (snd e))) entries
    = [("name", JBool false); ("age", JBool true); ("mobile", JBool false);
       ("aadhaar", JBool false); ("address", JBool false)] ∧
    length entries ≠ 1%nat.
Proof.
  split; [vm_compute; reflexivity|].
  split; [vm_compute; reflexivity|].
  eexists. split; [vm_compute; reflexivity|].
  split; [reflexivity|]. simpl. lia.
Qed.

(** ** A payload without a readable timestamp (C9) *)

Lemma absent_timestamp_unreadable (P : Platform) (p : jsval) :
  opt_member p "verifiedAt" = JUndef → verifiedAtOf P p = None.
Proof. intros H. unfold verifiedAtOf. rewrite H. reflexivity. Qed.

(** C9 (what the code does where the claim fails).  For every matched
    payload whose [verifiedAt] is absent or does not parse as a date, the
    24-hour comparison is silently false at every time of scanning: the
    verdict is the field by field one, never "expired", and when all five
    fields agree the scan marks the submission verified. *)
Theorem C9_unreadable_timestamp_never_expires
    (P : Platform) (now : Z) (subs : list (gmap string jsval)) (data p : jsval)
    (s : gmap string jsval) :
  truthy data = true → truthy (scanContent data) = true →
  parseQRData P (scanContent data) = Ok p →
  matchingSubmission P p subs = Ok (Some s) →
  opt_member p "verifiedAt" = JUndef ∨ verifiedAtOf P p = None →
  isExpired now (verifiedAtOf P p) = false ∧
  ∃ cs, matchChecks P p s = Ok cs ∧
        qrValidationResult (handleQRScan P now subs data) = Some (dataVerdict p s cs) ∧
        message (dataVerdict p s cs) ≠ msgExpired ∧
        (all_true cs = true →
         message (dataVerdict p s cs) = msgVerified ∧
         storeCalls (handleQRScan P now subs data)
         = [updateSubmissionStatus (prop s "id") "verified"]).
Proof.
  intros Hd Hc Hparse Hm Hts.
  assert (Hnone : verifiedAtOf P p = None).
  { destruct Hts as [H|H]; [apply absent_timestamp_unreadable; exact H|exact H]. }
  assert (Hexp : isExpired now (verifiedAtOf P p) = false) by (rewrite Hnone; reflexivity).
  split; [exact Hexp|].
  destruct (validateParsed_found P now subs p s Hm) as (cs & Hcs & _ & Hv).
  rewrite Hexp in Hv. exists cs. split; [exact Hcs|].
  rewrite (handleQRScan_validated P now subs data Hd Hc). cbn zeta.
  rewrite (validateQRData_parsed P now subs _ p Hparse), Hv.
  split; [reflexivity|]. split.
  - unfold dataVerdict. cbn [message]. destruct (all_true cs); discriminate.
  - intros Hall. unfold dataVerdict. cbn. rewrite Hall. auto.
Qed.

(** A QR code without [verifiedAt], and one whose [verifiedAt] is
    "yesterday", scanned a thousand days after the example date. *)
Lemma C9_witness :
  (truthy Examples.scanNoTimestamp = true ∧
   truthy (scanContent Examples.scanNoTimestamp) = true ∧
   parseQRData Ref.platform (scanContent Examples.scanNoTimestamp)
     = Ok Examples.payloadNoTimestamp ∧
   matchingSubmission Ref.platform Examples.payloadNoTimestamp
     [Examples.bob; Examples.jane] = Ok (Some Examples.jane) ∧
   (opt_member Examples.payloadNoTimestamp "verifiedAt" = JUndef
    ∨ verifiedAtOf Ref.platform Examples.payloadNoTimestamp = None)) ∧
  (isExpired (Examples.noon + 24000 * Examples.hour)
             (verifiedAtOf Ref.platform Examples.payloadNoTimestamp) = false ∧
   ∃ cs, matchChecks Ref.platform Examples.payloadNoTimestamp Examples.jane = Ok cs ∧
         qrValidationResult
           (handleQRScan Ref.platform (Examples.noon + 24000 * Examples.hour)
              [Examples.bob; Examples.jane] Examples.scanNoTimestamp)
         = Some (dataVerdict Examples.payloadNoTimestamp Examples.jane cs) ∧
         message (dataVerdict Examples.payloadNoTimestamp Examples.jane cs) ≠ msgExpired ∧
         (all_true cs = true →
          message (dataVerdict Examples.payloadNoTimestamp Examples.jane cs) = msgVerified ∧
          storeCalls
            (handleQRScan Ref.platform (Examples.noon + 24000 * Examples.hour)
               [Examples.bob; Examples.jane] Examples.scanNoTimestamp)
          = [updateSubmissionStatus (prop Examples.jane "id") "verified"])).
Proof.
  split.
  - split; [reflexivity|].
    split; [reflexivity|].
    split; [vm_compute; reflexivity|].
    split; [vm_compute; reflexivity|].
    left. vm_compute. reflexivity.
  - apply (C9_unreadable_timestamp_never_expires Ref.platform
             (Examples.noon + 24000 * Examples.hour) [Examples.bob; Examples.jane]
             Examples.scanNoTimestamp Examples.payloadNoTimestamp Examples.jane).
    + reflexivity.
    + reflexivity.
    + vm_compute. reflexivity.
    + vm_compute. reflexivity.
    + left. vm_compute. reflexivity.
Defined.

(** The two failing scans, run: whatever the time of scanning, the verdict
    is "verified" and the stored submission is marked verified. *)
Lemma unreadable_timestamp_examples (now : Z) :
  verifiedAtOf Ref.platform Examples.payloadNoTimestamp = None ∧
  verifiedAtOf Ref.platform Examples.payloadBadTimestamp = None ∧
  message (validateQRData Ref.platform now [Examples.bob; Examples.jane]
             Examples.scanNoTimestamp) = msgVerified ∧
  storeCalls (handleQRScan Ref.platform now [Examples.bob; Examples.jane]
                Examples.scanNoTimestamp)
    = [updateSubmissionStatus (JNum 1709200000000) "verified"] ∧
  message (validateQRData Ref.platform now [Examples.bob; Examples.jane]
             Examples.scanBadTimestamp) = msgVerified ∧
  storeCalls (handleQRScan Ref.platform now [Examples.bob; Examples.jane]
                Examples.scanBadTimestamp)
    = [updateSubmissionStatus (JNum 1709200000000) "verified"].
Proof. repeat split; vm_compute; reflexivity. Qed.

(** ** SubmissionCodec (C5, C6) *)

Section Codec.
Context (P : Platform).

Lemma decryptWith_ok (key : string) (blob : jsval) (w : WordArray) (json : string)
    (v : jsval) :
  AES_decrypt P blob key = Ok w → enc_Utf8_stringify P w = Ok json →
  JSON_parse P json = Ok v → decryptWith P key blob = v.
Proof. intros H1 H2 H3. unfold decryptWith. rewrite H1. cbn. rewrite H2. cbn. rewrite H3. reflexivity. Qed.

Lemma encryptWith_ok (key : string) (salt : Salt) (data : jsval) (json : option string)
    (c : string) :
  JSON_stringify P data = json → AES_encrypt P json key salt = Ok c →
  encryptWith P key salt data = JStr c.
Proof. intros H1 H2. unfold encryptWith. rewrite H1. cbn. rewrite H2. reflexivity. Qed.

End Codec.

(** The reference cipher honours the contract. *)

Lemma xorb_cancel (c k s : bool) : xorb (xorb (xorb (xorb c k) s) k) s = c.
Proof. destruct c, k, s; reflexivity. Qed.

Lemma xor_ascii_cancel (c k s : ascii) :
  Ref.xor_ascii (Ref.xor_ascii (Ref.xor_ascii (Ref.xor_ascii c k) s) k) s = c.
Proof.
  destruct c, k, s. unfold Ref.xor_ascii. rewrite !xorb_cancel. reflexivity.
Qed.

Lemma xor_stream_involutive (key : string) (s0 : ascii) (msg : string) (i : nat) :
  Ref.xor_stream key s0 i (Ref.xor_stream key s0 i msg) = msg.
Proof.
  revert i. induction msg as [|c msg IH]; intros i; [reflexivity|].
  cbn [Ref.xor_stream]. rewrite xor_ascii_cancel, IH. reflexivity.
Qed.

Lemma hex_of_byte_spec (c : ascii) :
  ∃ h l, Ref.hex_of_byte (Ref.code c) = String h (String l EmptyString) ∧
         Ref.hex_byte h l = Some (Ref.code c) ∧ Ref.chr (Ref.code c) = c.
Proof.
  destruct c as [[] [] [] [] [] [] [] []];
    do 2 eexists; (split; [vm_compute; reflexivity|]); split; vm_compute; reflexivity.
Qed.

Lemma hex_of_byte_decodes (c : ascii) (rest : string) :
  Ref.hex_decode (Ref.hex_of_byte (Ref.code c) +:+ rest)
  = match Ref.hex_decode rest with
    | Some r => Some (String c r)
    | None => None
    end.
Proof.
  destruct (hex_of_byte_spec c) as (h & l & -> & Hb & Hc).
  change (String h (String l EmptyString) +:+ rest) with (String h (String l rest)).
  change (Ref.hex_decode (String h (String l rest)))
    with (match Ref.hex_byte h l, Ref.hex_decode rest with
          | Some b, Some r => Some (String (Ref.chr b) r)
          | _, _ => None
          end).
  rewrite Hb, Hc. destruct (Ref.hex_decode rest); reflexivity.
Qed.

Lemma hex_decode_encode (s : string) : Ref.hex_decode (Ref.hex_encode s) = Some s.
Proof.
  induction s as [|c s IH]; [reflexivity|].
  cbn [Ref.hex_encode]. rewrite hex_of_byte_decodes, IH. reflexivity.
Qed.

Lemma Ref_cipher_inverts : cipher_inverts Ref.platform.
Proof.
  intros msg key salt Hwf.
  exists (Ref.hex_encode
            (String (Ref.salt_char salt)
                    (Ref.xor_stream key (Ref.salt_char salt) 0 msg))), msg.
  split; [reflexivity|].
  split.
  - change (AES_decrypt Ref.platform) with Ref.AES_decrypt. unfold Ref.AES_decrypt.
    rewrite hex_decode_encode. rewrite xor_stream_involutive. reflexivity.
  - change (enc_Utf8_stringify Ref.platform) with Ref.enc_Utf8_stringify.
    unfold Ref.enc_Utf8_stringify. unfold wellformed in Hwf. rewrite Hwf. reflexivity.
Qed.

(** C5.  For every record [R] that serializes to JSON, decrypting what
    encrypting [R] produced yields [R] again: [decrypt(encrypt(R)) == R],
    on every platform whose cipher honours its contract. *)
Theorem C5_decrypt_encrypt_round_trip (P : Platform) (salt : Salt) (R : jsval) :
  cipher_inverts P →
  serializes P R →
  (∃ encrypted, encryptSubmissionData P salt R = JStr encrypted) ∧
  decryptSubmissionData P (encryptSubmissionData P salt R) = R.
Proof.
  intros Hcipher (json & Hstr & Hwf & Hparse).
  destruct (Hcipher json ENCRYPTION_KEY salt Hwf) as (c & w & Henc & Hdec & Hutf).
  assert (He : encryptSubmissionData P salt R = JStr c)
    by (apply (encryptWith_ok P _ _ _ (Some json)); assumption).
  split; [eauto|]. rewrite He.
  apply (decryptWith_ok P _ _ w json); assumption.
Qed.

Lemma C5_witness :
  cipher_inverts Ref.platform ∧
  serializes Ref.platform (JObj Examples.jane) ∧
  (∃ encrypted,
     encryptSubmissionData Ref.platform "k" (JObj Examples.jane) = JStr encrypted) ∧
  decryptSubmissionData Ref.platform
    (encryptSubmissionData Ref.platform "k" (JObj Examples.jane)) = JObj Examples.jane.
Proof.
  assert (Hs : serializes Ref.platform (JObj Examples.jane)).
  { exists (default EmptyString (Ref.stringify (JObj Examples.jane))).
    repeat split; vm_compute; reflexivity. }
  split; [exact Ref_cipher_inverts|].
  split; [exact Hs|].
  apply (C5_decrypt_encrypt_round_trip Ref.platform "k" (JObj Examples.jane)).
  - exact Ref_cipher_inverts.
  - exact Hs.
Defined.



(** ** The bulk read (C8) *)

Section BulkRead.
Context (P : Platform).

Lemma decryptOne_readable (d : gmap string jsval) :
  decryptOne P d = if readable P d then Some (decorated P d) else None.
Proof.
  unfold decryptOne, readable, decorated.
  destruct (truthy (prop d "encryptedData")); cbn; [|reflexivity].
  destruct (truthy (decryptSubmissionData P (prop d "encryptedData"))); reflexivity.
Qed.




End BulkRead.



(** A read over a list holding an unreadable ciphertext and a document
    without ciphertext returns the readable one. *)
Lemma bulk_read_example :
  map (λ r, (prop r "name", prop r "status"))
      (getSubmissions Ref.platform
         [Examples.storedEmpty; Examples.storedCut; Examples.storedEve])
  = [(JStr "Eve", JStr "pending")].
Proof. vm_compute. reflexivity. Qed.

(** ** QRPayloadParser (C7) *)

Section ParserFacts.
Context (P : Platform).

(** The only exception [parseQRData] lets out is its own parse failure. *)
Lemma parseQRData_throws_only_parseFailure (input : jsval) (e : exn) :
  parseQRData P input = Throw e → e = parseFailure.
Proof.
  unfold parseQRData. cbn zeta.
  destruct (urlStrategy P (normalizeInput P input)) as [v|input']; [discriminate|].
  destruct (JSON_parse P (to_str P input')); [discriminate|].
  destruct (bind (replace_plus_of P input') _); [discriminate|].
  destruct (bind (atob P (to_str P input')) _); [discriminate|].
  intros H. inversion H. reflexivity.
Qed.

(** Shape 1: a string that is not a URL and is JSON. *)
Lemma parse_raw_json (s : string) (e : exn) (v : jsval) :
  URL_searchParams P s = Throw e → JSON_parse P s = Ok v →
  parseQRData P (JStr s) = Ok v.
Proof.
  intros Hurl Hjson. unfold parseQRData, urlStrategy. cbn.
  rewrite Hurl. cbn. rewrite Hjson. reflexivity.
Qed.

(** Shape 2: a string that is neither a URL nor JSON, and URL-decodes to
    JSON. *)
Lemma parse_urlencoded_json (s decoded : string) (e1 e2 : exn) (v : jsval) :
  URL_searchParams P s = Throw e1 → JSON_parse P s = Throw e2 →
  decodeURIComponent P (replace_plus s) = Ok decoded → JSON_parse P decoded = Ok v →
  parseQRData P (JStr s) = Ok v.
Proof.
  intros Hurl Hjson Hdec Hjson'. unfold parseQRData, urlStrategy. cbn.
  rewrite Hurl. cbn. rewrite Hjson. cbn. rewrite Hdec. cbn. rewrite Hjson'. reflexivity.
Qed.

(** Shape 3: a string that is neither a URL nor JSON, does not URL-decode
    to JSON, and base64-decodes to JSON. *)
Lemma parse_base64_json (s text : string) (e1 e2 e3 : exn) (v : jsval) :
  URL_searchParams P s = Throw e1 → JSON_parse P s = Throw e2 →
  (let! decoded := decodeURIComponent P (replace_plus s) in JSON_parse P decoded)
    = Throw e3 →
  atob P s = Ok text → JSON_parse P text = Ok v →
  parseQRData P (JStr s) = Ok v.
Proof.
  intros Hurl Hjson Hdec Hatob Hjson'. unfold parseQRData, urlStrategy. cbn.
  rewrite Hurl. cbn. rewrite Hjson. cbn. cbn in Hdec. rewrite Hdec.
  rewrite Hatob. cbn. rewrite Hjson'. reflexivity.
Qed.

(** Shape 4: what the parser does with the [data] parameter of a URL is
    to decode it a second time. *)
Lemma parse_url_data_param (s value decoded : string)
    (params : list (string * string)) (v : jsval) :
  URL_searchParams P s = Ok params →
  searchParams_get params "data" = JStr value → value ≠ EmptyString →
  decodeURIComponent P (replace_plus value) = Ok decoded →
  JSON_parse P decoded = Ok v →
  parseQRData P (JStr s) = Ok v.
Proof.
  intros Hurl Hget Hne Hdec Hjson. unfold parseQRData, urlStrategy.
  cbn [normalizeInput to_str]. rewrite Hurl, Hget.
  assert (Ht : truthy (JStr value) = true).
  { cbn. destruct (String.eqb_spec value EmptyString) as [->|_]; [contradiction|reflexivity]. }
  unfold js_or. repeat rewrite Ht.
  cbn [replace_plus_of bind]. rewrite Hdec. cbn [bind]. rewrite Hjson. reflexivity.
Qed.

(** A text without [+] is left alone by the replacement, and the
    reference [decodeURIComponent] leaves alone a text without [%]: a
    [data] parameter with neither character survives the second
    decoding. *)
Lemma replace_plus_plain (s : string) :
  Ref.str_forall (λ c, negb (Ascii.eqb c "+"%char)) s = true → replace_plus s = s.
Proof.
  induction s as [|c s IH]; [reflexivity|]. cbn [Ref.str_forall replace_plus].
  intros H. apply andb_true_iff in H as [Hc Hs].
  destruct (Ascii.eqb c "+"%char); [discriminate|]. rewrite (IH Hs). reflexivity.
Qed.

Lemma decode_strict_plain (s : string) (fuel : nat) :
  (String.length s < fuel)%nat →
  Ref.str_forall (λ c, negb (Ref.code c =? 37)) s = true →
  Ref.decode_strict fuel s = Some s.
Proof.
  revert fuel. induction s as [|c s IH]; intros fuel Hfuel H.
  - destruct fuel; [cbn in Hfuel; lia|reflexivity].
  - destruct fuel as [|fuel]; [cbn in Hfuel; lia|].
    cbn [Ref.str_forall] in H. apply andb_true_iff in H as [Hc Hs].
    cbn [Ref.decode_strict]. destruct (Ref.code c =? 37); [discriminate|].
    rewrite IH; [reflexivity| cbn in Hfuel; lia | exact Hs].
Qed.

Lemma parse_url_plain_payload (s json : string) (params : list (string * string))
    (v : jsval) :
  URL_searchParams P s = Ok params →
  searchParams_get params "data" = JStr json → json ≠ EmptyString →
  Ref.str_forall (λ c, negb (Ascii.eqb c "+"%char)) json = true →
  decodeURIComponent P json = Ok json →
  JSON_parse P json = Ok v →
  parseQRData P (JStr s) = Ok v.
Proof.
  intros Hurl Hget Hne Hplus Hdec Hjson.
  apply (parse_url_data_param s json json params v); try assumption.
  rewrite (replace_plus_plain json Hplus). exact Hdec.
Qed.

End ParserFacts.

(** C7 (the code at the failing inputs).  The parser recovers
    [{name: "A"}] from the URL of the specification's example, and
    [{name: "A+B"}] from its raw JSON, URL-encoded and base64 forms.  From
    the URL carrying the URL-encoded JSON of [{name: "A+B"}], whose
    [data] parameter the URL API already hands over decoded, it returns
    [{name: "A B"}]; from the URL carrying [{name: "100%"}] it raises the
    parse failure.  On every platform, the only exception the parser
    raises is that parse failure. *)
Theorem C7_url_parameter_is_decoded_twice :
  parseQRData Ref.platform (JStr "https://x/qr?data=%7B%22name%22%3A%22A%22%7D")
    = Ok Examples.nameA
  ∧ (∀ json, Ref.stringify Examples.nameAplusB = Some json →
             parseQRData Ref.platform (JStr json) = Ok Examples.nameAplusB)
  ∧ parseQRData Ref.platform (JStr "%7B%22name%22%3A%22A%2BB%22%7D")
    = Ok Examples.nameAplusB
  ∧ parseQRData Ref.platform (JStr "eyJuYW1lIjoiQStCIn0=") = Ok Examples.nameAplusB
  ∧ (∃ json, URL_searchParams Ref.platform "https://x/qr?data=%7B%22name%22%3A%22A%2BB%22%7D"
             = Ok [("data", json)] ∧
             JSON_parse Ref.platform json = Ok Examples.nameAplusB)
  ∧ parseQRData Ref.platform (JStr "https://x/qr?data=%7B%22name%22%3A%22A%2BB%22%7D")
    = Ok Examples.nameAspaceB
  ∧ Examples.nameAspaceB ≠ Examples.nameAplusB
  ∧ parseQRData Ref.platform (JStr "https://x/qr?data=%7B%22name%22%3A%22100%25%22%7D")
    = Throw parseFailure
  ∧ (∀ (P : Platform) (input : jsval) (e : exn),
       parseQRData P input = Throw e → e = parseFailure).
Proof.
  split; [vm_compute; reflexivity|].
  split; [intros json H; vm_compute in H; inversion H; subst json; vm_compute; reflexivity|].
  split; [vm_compute; reflexivity|].
  split; [vm_compute; reflexivity|].
  split; [eexists; split; vm_compute; reflexivity|].
  split; [vm_compute; reflexivity|].
  split; [vm_compute; discriminate|].
  split; [vm_compute; reflexivity|].
  exact parseQRData_throws_only_parseFailure.
Qed.

(** ** The local store *)

Section StoreFacts.
Context (P : Platform).

Import LocalStore.

Lemma storageKey_inj (c c' : string) : storageKey c = storageKey c' → c = c'.
Proof. unfold storageKey, dbName. cbn. intros H. by simplify_eq. Qed.

Lemma holds_saved (ls : Storage) (c : string) (items : list jsval) :
  persists P items → holds P (<[storageKey c := storedText P items]> ls) c items.
Proof. intros H. unfold holds, loadItems. rewrite lookup_insert_eq. exact H. Qed.

Lemma loadItems_frame (ls : Storage) (c c' text : string) :
  c ≠ c' →
  loadItems P (<[storageKey c := text]> ls) (storageKey c') = loadItems P ls (storageKey c').
Proof.
  intros H. unfold loadItems. rewrite lookup_insert_ne; [reflexivity|].
  intros E. apply H, storageKey_inj, E.
Qed.

Lemma operate_find (q : Query) (data : jsval) (fresh : string) (items : jsval) :
  operate P "find" q data fresh items
  = let! l := itemsArray P items "filter" in
    let! r := filter_r (findCallback P q) l in
    Ok (JArr r, None).
Proof. reflexivity. Qed.

Lemma operate_findOne (q : Query) (data : jsval) (fresh : string) (items : jsval) :
  operate P "findOne" q data fresh items
  = let! l := itemsArray P items "find" in
    let! r := find_r (findCallback P q) l in
    Ok (default JUndef r, None).
Proof. reflexivity. Qed.

Lemma operate_insertOne (q : Query) (data : jsval) (fresh : string) (l : list jsval) :
  nullish data = false →
  operate P "insertOne" q data fresh (JArr l)
  = Ok (JObj (list_to_map [("insertedId", prop (newItem fresh data) "_id")]),
        Some (l ++ [JObj (newItem fresh data)])).
Proof.
  intros H. unfold operate. cbn [String.eqb Ascii.eqb Bool.eqb].
  rewrite (member_non_nullish P _ _ H). reflexivity.
Qed.

Lemma operate_updateOne (q : Query) (data : jsval) (fresh : string) (l : list jsval) :
  nullish data = false →
  operate P "updateOne" q data fresh (JArr l)
  = let! updateIndex := findIndex_r (matchesQuery P q) l in
    match updateIndex with
    | Some i => Ok (updateCounts 1 1 0,
                    Some (<[i := JObj (updatedItem (default JUndef (l !! i)) data)]> l))
    | None => Ok (updateCounts 0 0 1, Some (l ++ [JObj (upsertedItem fresh q data)]))
    end.
Proof.
  intros H. unfold operate. cbn [String.eqb Ascii.eqb Bool.eqb itemsArray bind].
  destruct (findIndex_r (matchesQuery P q) l) as [[i|]|e]; cbn [bind];
    rewrite ?(member_non_nullish P _ _ H); reflexivity.
Qed.

Lemma operate_deleteOne (q : Query) (data : jsval) (fresh : string) (l : list jsval) :
  operate P "deleteOne" q data fresh (JArr l)
  = let! deleteIndex := findIndex_r (matchesQuery P q) l in
    match deleteIndex with
    | Some i => Ok (deleteCount 1, Some (delete i l))
    | None => Ok (deleteCount 0, None)
    end.
Proof. reflexivity. Qed.

Lemma execute_holds (ls : Storage) (c op : string) (q : Query) (data : jsval)
    (fresh : string) (items : list jsval) :
  holds P ls c items →
  _executeLocalStorageOperation P c op q data fresh ls
  = let! r := operate P op q data fresh (JArr items) in
    Ok (r.1, match r.2 with
             | Some l => <[storageKey c := storedText P l]> ls
             | None => ls
             end).
Proof. intros H. unfold _executeLocalStorageOperation. rewrite H. reflexivity. Qed.

Lemma findIndex_r_found {A : Type} (f : A → result bool) (l1 l2 : list A) (x : A) :
  Forall (λ y, f y = Ok false) l1 → f x = Ok true →
  findIndex_r f (l1 ++ x :: l2) = Ok (Some (length l1)).
Proof.
  intros Hl Hx. induction Hl as [|y l1 Hy _ IH]; simpl.
  - rewrite Hx. reflexivity.
  - rewrite Hy. simpl. rewrite IH. reflexivity.
Qed.

Lemma findIndex_r_none {A : Type} (f : A → result bool) (l : list A) :
  Forall (λ y, f y = Ok false) l → findIndex_r f l = Ok None.
Proof.
  intros Hl. induction Hl as [|y l Hy _ IH]; simpl; [reflexivity|].
  rewrite Hy. simpl. rewrite IH. reflexivity.
Qed.

Lemma filter_r_all {A : Type} (f : A → result bool) (l : list A) :
  (∀ x, f x = Ok true) → filter_r f l = Ok l.
Proof.
  intros H. induction l as [|x l IH]; simpl; [reflexivity|].
  rewrite H, IH. reflexivity.
Qed.

Lemma strict_eq_refl (v : jsval) : primitive v = true → strict_eq v v = true.
Proof.
  destruct v; simpl; intros H; try discriminate; try reflexivity.
  - destruct b; reflexivity.
  - apply Z.eqb_refl.
  - apply String.eqb_refl.
Qed.

Lemma strict_eq_true (a b : jsval) : strict_eq a b = true → a = b ∧ primitive a = true.
Proof.
  destruct a, b; simpl; intros H; try discriminate; split; try reflexivity.
  - f_equal. destruct b, b0; simpl in H; congruence.
  - f_equal. apply Z.eqb_eq, H.
  - f_equal. apply String.eqb_eq, H.
Qed.

Lemma matchesQuery_single (k : string) (v item : jsval) :
  nullish item = false →
  matchesQuery P [(k, v)] item = Ok (strict_eq (opt_member item k) v).
Proof.
  intros H. unfold matchesQuery. cbn. rewrite (member_non_nullish P _ _ H). cbn.
  destruct (strict_eq (opt_member item k) v); reflexivity.
Qed.

Lemma strict_eq_ne (a b : jsval) : a ≠ b → strict_eq a b = false.
Proof.
  intros H. destruct (strict_eq a b) eqn:E; [|reflexivity].
  apply strict_eq_true in E as [E _]. contradiction.
Qed.

(** [updateOne] when the first match is [x]. *)
Lemma execute_updateOne_found (ls : Storage) (c : string) (q : Query)
    (l1 l2 : list jsval) (x data : jsval) (fresh : string) :
  holds P ls c (l1 ++ x :: l2) →
  unmatched P q l1 →
  matchesQuery P q x = Ok true →
  nullish data = false →
  _executeLocalStorageOperation P c "updateOne" q data fresh ls
  = Ok (updateCounts 1 1 0,
        <[storageKey c := storedText P (l1 ++ JObj (updatedItem x data) :: l2)]> ls).
Proof.
  intros Hh Hu Hx Hd.
  rewrite (execute_holds _ _ _ _ _ _ _ Hh), (operate_updateOne _ _ _ _ Hd).
  rewrite (findIndex_r_found _ l1 l2 x Hu Hx). cbn [bind fst snd].
  rewrite list_lookup_middle by reflexivity. cbn [default from_option id].
  replace (length l1) with (length l1 + 0)%nat by lia.
  rewrite insert_app_r. reflexivity.
Qed.

(** [deleteOne] when the first match is [x]. *)
Lemma execute_deleteOne_found (ls : Storage) (c : string) (q : Query)
    (l1 l2 : list jsval) (x data : jsval) (fresh : string) :
  holds P ls c (l1 ++ x :: l2) →
  unmatched P q l1 →
  matchesQuery P q x = Ok true →
  _executeLocalStorageOperation P c "deleteOne" q data fresh ls
  = Ok (deleteCount 1, <[storageKey c := storedText P (l1 ++ l2)]> ls).
Proof.
  intros Hh Hu Hx.
  rewrite (execute_holds _ _ _ _ _ _ _ Hh), operate_deleteOne.
  rewrite (findIndex_r_found _ l1 l2 x Hu Hx). cbn [bind fst snd].
  rewrite delete_middle. reflexivity.
Qed.

End StoreFacts.

(** X1.  Insert, then look up.  On a collection that reads as [items],
    [insertOne] answers with the identifier of the new document (the
    [_id] of the data if it has a truthy one, a fresh identifier
    otherwise); when that identifier is a primitive that no stored
    document carries and the JSON written reads back, a following
    [findOne] by this [_id] returns the document inserted, and [find]
    with the empty query returns the earlier items followed by it. *)
Theorem X1_insert_then_find (P : Platform) (ls : LocalStore.Storage) (c : string)
    (items : list jsval) (data : jsval) (fresh fresh' : string) :
  holds P ls c items →
  nullish data = false →
  primitive (insertedId fresh data) = true →
  unmatched P [("_id", insertedId fresh data)] items →
  persists P (items ++ [JObj (LocalStore.newItem fresh data)]) →
  ∃ ls',
    LocalStore._executeLocalStorageOperation P c "insertOne" [] data fresh ls
      = Ok (JObj (list_to_map [("insertedId", insertedId fresh data)]), ls')
    ∧ LocalStore._executeLocalStorageOperation P c "findOne"
        [("_id", insertedId fresh data)] JNull fresh' ls'
      = Ok (JObj (LocalStore.newItem fresh data), ls')
    ∧ LocalStore._executeLocalStorageOperation P c "find" [] JNull fresh' ls'
      = Ok (JArr (items ++ [JObj (LocalStore.newItem fresh data)]), ls').
Proof.
  intros Hh Hd Hp Hu Hs.
  set (doc := JObj (LocalStore.newItem fresh data)) in *.
  assert (Hid : prop (LocalStore.newItem fresh data) "_id" = insertedId fresh data).
  { unfold LocalStore.newItem, prop. rewrite lookup_insert_eq. reflexivity. }
  exists (<[LocalStore.storageKey c := LocalStore.storedText P (items ++ [doc])]> ls).
  pose proof (holds_saved P ls c _ Hs) as Hh'.
  split; [|split].
  - rewrite (execute_holds P _ _ _ _ _ _ _ Hh), (operate_insertOne P _ _ _ _ Hd).
    cbn [bind fst snd]. rewrite Hid. reflexivity.
  - rewrite (execute_holds P _ _ _ _ _ _ _ Hh'), operate_findOne.
    cbn [LocalStore.itemsArray bind].
    rewrite (find_r_found _ items [] doc).
    + reflexivity.
    + exact Hu.
    + change (LocalStore.matchesQuery P [("_id", insertedId fresh data)] doc = Ok true).
      rewrite matchesQuery_single by reflexivity.
      change (opt_member doc "_id") with (prop (LocalStore.newItem fresh data) "_id").
      rewrite Hid, (strict_eq_refl _ Hp). reflexivity.
  - rewrite (execute_holds P _ _ _ _ _ _ _ Hh'), operate_find.
    cbn [LocalStore.itemsArray bind].
    rewrite filter_r_all by reflexivity. reflexivity.
Qed.

Lemma X1_witness :
  ∃ ls',
    LocalStore._executeLocalStorageOperation Ref.platform "documents" "insertOne" []
      StoreExamples.janeData StoreExamples.janeFresh StoreExamples.oneDocument
      = Ok (JObj (list_to_map [("insertedId", JStr StoreExamples.janeFresh)]), ls')
    ∧ LocalStore._executeLocalStorageOperation Ref.platform "documents" "findOne"
        [("_id", JStr StoreExamples.janeFresh)] JNull EmptyString ls'
      = Ok (StoreExamples.janeDocument, ls').
Proof.
  destruct (X1_insert_then_find Ref.platform StoreExamples.oneDocument "documents"
              [StoreExamples.bobDocument] StoreExamples.janeData
              StoreExamples.janeFresh EmptyString)
    as (ls' & H1 & H2 & _).
  - vm_compute. reflexivity.
  - reflexivity.
  - reflexivity.
  - repeat constructor.
  - vm_compute. reflexivity.
  - exists ls'. split; [exact H1|]. exact H2.
Defined.

(** X2.  [updateOne] changes the first document that satisfies the query
    and nothing else: the document becomes the old one overridden by the
    patch ([data.$set], or [data] itself when it has no [$set]), so a
    field the patch does not name keeps its value; the documents before
    and after it, and every other collection, read as before. *)
Theorem X2_update_merges_into_first_match (P : Platform) (ls : LocalStore.Storage)
    (c : string) (q : LocalStore.Query) (l1 l2 : list jsval) (x data : jsval)
    (fresh : string) :
  holds P ls c (l1 ++ x :: l2) →
  unmatched P q l1 →
  LocalStore.matchesQuery P q x = Ok true →
  nullish data = false →
  persists P (l1 ++ JObj (LocalStore.updatedItem x data) :: l2) →
  ∃ ls',
    LocalStore._executeLocalStorageOperation P c "updateOne" q data fresh ls
      = Ok (LocalStore.updateCounts 1 1 0, ls')
    ∧ holds P ls' c (l1 ++ JObj (LocalStore.updatedItem x data) :: l2)
    ∧ (∀ k v, patchOf data !! k = Some v → LocalStore.updatedItem x data !! k = Some v)
    ∧ (∀ k, patchOf data !! k = None →
            LocalStore.updatedItem x data !! k = spread_props x !! k)
    ∧ (∀ c', c' ≠ c →
         LocalStore.loadItems P ls' (LocalStore.storageKey c')
         = LocalStore.loadItems P ls (LocalStore.storageKey c')).
Proof.
  intros Hh Hu Hx Hd Hs.
  exists (<[LocalStore.storageKey c
            := LocalStore.storedText P (l1 ++ JObj (LocalStore.updatedItem x data) :: l2)]> ls).
  split; [|split; [|split; [|split]]].
  - apply execute_updateOne_found; assumption.
  - apply holds_saved, Hs.
  - intros k v Hk. unfold LocalStore.updatedItem. apply lookup_union_Some_raw. left. exact Hk.
  - intros k Hk. unfold LocalStore.updatedItem. apply lookup_union_r. exact Hk.
  - intros c' Hc. apply loadItems_frame. congruence.
Qed.

Lemma X2_witness :
  ∃ ls',
    LocalStore._executeLocalStorageOperation Ref.platform "documents" "updateOne"
      [("username", JStr "bob")] StoreExamples.nameUpdate EmptyString
      StoreExamples.twoDocuments
      = Ok (LocalStore.updateCounts 1 1 0, ls')
    ∧ holds Ref.platform ls' "documents"
        [ JObj (LocalStore.updatedItem StoreExamples.bobDocument StoreExamples.nameUpdate);
          StoreExamples.janeDocument ].
Proof.
  destruct (X2_update_merges_into_first_match Ref.platform StoreExamples.twoDocuments
              "documents" [("username", JStr "bob")] [] [StoreExamples.janeDocument]
              StoreExamples.bobDocument StoreExamples.nameUpdate EmptyString)
    as (ls' & H1 & H2 & _).
  - vm_compute. reflexivity.
  - constructor.
  - reflexivity.
  - reflexivity.
  - vm_compute. reflexivity.
  - exists ls'. split; [exact H1|exact H2].
Defined.

(** X3.  An upsert through a query on [_id] creates a document that the
    query does not find.  When no stored document carries the [_id]
    asked for, [updateOne] appends a new document whose [_id] is a fresh
    identifier, whatever the query and the patch say; unless the fresh
    identifier happens to be the one asked for, a following [findOne]
    with the same query still finds nothing, and repeating the update
    appends again. *)
Theorem X3_upsert_is_not_found_by_its_id (P : Platform) (ls : LocalStore.Storage)
    (c : string) (items : list jsval) (v data : jsval) (fresh fresh' : string) :
  holds P ls c items →
  unmatched P [("_id", v)] items →
  nullish data = false →
  strict_eq (JStr fresh) v = false →
  persists P (items ++ [JObj (LocalStore.upsertedItem fresh [("_id", v)] data)]) →
  ∃ ls',
    LocalStore._executeLocalStorageOperation P c "updateOne" [("_id", v)] data fresh ls
      = Ok (LocalStore.updateCounts 0 0 1, ls')
    ∧ holds P ls' c (items ++ [JObj (LocalStore.upsertedItem fresh [("_id", v)] data)])
    ∧ LocalStore._executeLocalStorageOperation P c "findOne" [("_id", v)] JNull fresh' ls'
      = Ok (JUndef, ls')
    ∧ ∃ ls'',
        LocalStore._executeLocalStorageOperation P c "updateOne" [("_id", v)] data fresh' ls'
        = Ok (LocalStore.updateCounts 0 0 1, ls'').
Proof.
  intros Hh Hu Hd Hf Hs.
  set (doc := JObj (LocalStore.upsertedItem fresh [("_id", v)] data)) in *.
  assert (Hu' : unmatched P [("_id", v)] (items ++ [doc])).
  { apply Forall_app. split; [exact Hu|]. constructor; [|constructor].
    rewrite matchesQuery_single by reflexivity.
    change (opt_member doc "_id")
      with (prop (LocalStore.upsertedItem fresh [("_id", v)] data) "_id").
    unfold LocalStore.upsertedItem, prop. rewrite lookup_insert_eq. cbn [default from_option id].
    rewrite Hf. reflexivity. }
  pose proof (holds_saved P ls c _ Hs) as Hh'.
  exists (<[LocalStore.storageKey c := LocalStore.storedText P (items ++ [doc])]> ls).
  split; [|split; [|split]].
  - rewrite (execute_holds P _ _ _ _ _ _ _ Hh), (operate_updateOne P _ _ _ _ Hd).
    rewrite (findIndex_r_none _ _ Hu). reflexivity.
  - exact Hh'.
  - rewrite (execute_holds P _ _ _ _ _ _ _ Hh'), operate_findOne.
    cbn [LocalStore.itemsArray bind].
    rewrite (find_r_none (LocalStore.findCallback P [("_id", v)]) _ Hu'). reflexivity.
  - eexists.
    rewrite (execute_holds P _ _ _ _ _ _ _ Hh'), (operate_updateOne P _ _ _ _ Hd).
    rewrite (findIndex_r_none _ _ Hu'). reflexivity.
Qed.

Lemma X3_witness :
  ∃ ls',
    LocalStore._executeLocalStorageOperation Ref.platform "submissions" "updateOne"
      [("_id", JStr "1709200000000")]
      (JObj (Examples.record [("$set", JObj (Examples.record [("status", JStr "verified")]))]))
      StoreExamples.janeFresh StoreExamples.oneDocument
      = Ok (LocalStore.updateCounts 0 0 1, ls')
    ∧ LocalStore._executeLocalStorageOperation Ref.platform "submissions" "findOne"
        [("_id", JStr "1709200000000")] JNull EmptyString ls'
      = Ok (JUndef, ls').
Proof.
  destruct (X3_upsert_is_not_found_by_its_id Ref.platform StoreExamples.oneDocument
              "submissions" [] (JStr "1709200000000")
              (JObj (Examples.record
                 [("$set", JObj (Examples.record [("status", JStr "verified")]))]))
              StoreExamples.janeFresh EmptyString)
    as (ls' & H1 & _ & H2 & _).
  - vm_compute. reflexivity.
  - constructor.
  - reflexivity.
  - reflexivity.
  - vm_compute. reflexivity.
  - exists ls'. split; [exact H1|exact H2].
Defined.

(** X4.  [deleteOne] removes the first document that satisfies the query,
    and only that one: the remaining documents read back in their order,
    a later document that satisfies the query too is kept, and the answer
    counts one deletion.  When no document satisfies the query the
    storage is left as it was and the answer counts none. *)
Theorem X4_delete_removes_the_first_match (P : Platform) (ls : LocalStore.Storage)
    (c : string) (q : LocalStore.Query) (items : list jsval) (data : jsval)
    (fresh : string) :
  holds P ls c items →
  (unmatched P q items →
   LocalStore._executeLocalStorageOperation P c "deleteOne" q data fresh ls
   = Ok (LocalStore.deleteCount 0, ls))
  ∧ (∀ l1 x l2,
       items = l1 ++ x :: l2 → unmatched P q l1 →
       LocalStore.matchesQuery P q x = Ok true →
       persists P (l1 ++ l2) →
       ∃ ls',
         LocalStore._executeLocalStorageOperation P c "deleteOne" q data fresh ls
         = Ok (LocalStore.deleteCount 1, ls')
         ∧ holds P ls' c (l1 ++ l2)).
Proof.
  intros Hh. split.
  - intros Hu.
    rewrite (execute_holds P _ _ _ _ _ _ _ Hh), operate_deleteOne.
    rewrite (findIndex_r_none _ _ Hu). reflexivity.
  - intros l1 x l2 -> Hu Hx Hs.
    exists (<[LocalStore.storageKey c := LocalStore.storedText P (l1 ++ l2)]> ls).
    split; [|apply holds_saved, Hs].
    apply (execute_deleteOne_found P ls c q l1 l2 x); assumption.
Qed.

Lemma X4_witness :
  ∃ ls',
    LocalStore._executeLocalStorageOperation Ref.platform "documents" "deleteOne"
      [("username", JStr "bob")] JNull EmptyString StoreExamples.twoDocuments
      = Ok (LocalStore.deleteCount 1, ls')
    ∧ holds Ref.platform ls' "documents" [StoreExamples.janeDocument].
Proof.
  destruct (X4_delete_removes_the_first_match Ref.platform StoreExamples.twoDocuments
              "documents" [("username", JStr "bob")]
              [StoreExamples.bobDocument; StoreExamples.janeDocument] JNull EmptyString)
    as [_ H].
  - vm_compute. reflexivity.
  - apply (H [] StoreExamples.bobDocument [StoreExamples.janeDocument]).
    + reflexivity.
    + constructor.
    + reflexivity.
    + vm_compute. reflexivity.
Defined.

(** X5.  A collection whose stored text is not JSON reads as empty, and
    the next insertion replaces the text: [find] returns no document, and
    after [insertOne] the entry holds the new document alone, so whatever
    the unreadable text contained is gone. *)
Theorem X5_unreadable_collection_is_overwritten (P : Platform) (ls : LocalStore.Storage)
    (c text : string) (e : exn) (data : jsval) (fresh : string) :
  ls !! LocalStore.storageKey c = Some text →
  JSON_parse P text = Throw e →
  nullish data = false →
  LocalStore._executeLocalStorageOperation P c "find" [] JNull fresh ls = Ok (JArr [], ls)
  ∧ ∃ r ls',
      LocalStore._executeLocalStorageOperation P c "insertOne" [] data fresh ls = Ok (r, ls')
      ∧ ls' !! LocalStore.storageKey c
        = Some (LocalStore.storedText P [JObj (LocalStore.newItem fresh data)]).
Proof.
  intros Hl Hp Hd.
  assert (Hh : holds P ls c []).
  { unfold holds, LocalStore.loadItems. rewrite Hl. unfold LocalStore.parseStored.
    rewrite Hp. destruct (String.eqb text EmptyString); reflexivity. }
  split.
  - rewrite (execute_holds P _ _ _ _ _ _ _ Hh). reflexivity.
  - eexists _, _. split.
    + rewrite (execute_holds P _ _ _ _ _ _ _ Hh), (operate_insertOne P _ _ _ _ Hd).
      reflexivity.
    + cbn [snd app]. apply lookup_insert_eq.
Qed.

Lemma X5_witness :
  LocalStore._executeLocalStorageOperation Ref.platform "documents" "find" [] JNull
    EmptyString StoreExamples.cutStorage
  = Ok (JArr [], StoreExamples.cutStorage).
Proof.
  refine (proj1 (X5_unreadable_collection_is_overwritten Ref.platform
                   StoreExamples.cutStorage "documents" "[{"
                   (Ref.syntaxError "[{") StoreExamples.janeData EmptyString _ _ _)).
  - reflexivity.
  - vm_compute. reflexivity.
  - reflexivity.
Defined.

Section SettingFacts.
Context (P : Platform).

Import LocalStore.

Lemma single_query_cases (k : string) (v : jsval) (items : list jsval) :
  Forall (λ x, nullish x = false) items →
  unmatched P [(k, v)] items
  ∨ ∃ l1 x l2, items = l1 ++ x :: l2 ∧ unmatched P [(k, v)] l1
               ∧ matchesQuery P [(k, v)] x = Ok true.
Proof.
  intros H. induction H as [|y l Hy _ IH]; [left; constructor|].
  destruct (strict_eq (opt_member y k) v) eqn:E.
  - right. exists [], y, l. split; [reflexivity|]. split; [constructor|].
    rewrite matchesQuery_single by exact Hy. rewrite E. reflexivity.
  - assert (Hf : matchesQuery P [(k, v)] y = Ok false).
    { rewrite matchesQuery_single by exact Hy. rewrite E. reflexivity. }
    destruct IH as [IH|(l1 & x & l2 & -> & Hu & Hx)].
    + left. constructor; assumption.
    + right. exists (y :: l1), x, l2. split; [reflexivity|].
      split; [constructor; assumption|exact Hx].
Qed.

Lemma find_r_replace {A : Type} (f : A → result bool) (l1 l2 : list A) (x x' : A) :
  f x = Ok false → f x' = Ok false →
  find_r f (l1 ++ x' :: l2) = find_r f (l1 ++ x :: l2).
Proof.
  intros Hx Hx'. induction l1 as [|y l1 IH]; simpl.
  - rewrite Hx, Hx'. reflexivity.
  - destruct (f y) as [[|]|e]; simpl; [reflexivity|exact IH|reflexivity].
Qed.

Lemma find_r_snoc_false {A : Type} (f : A → result bool) (l : list A) (y : A) :
  f y = Ok false → find_r f (l ++ [y]) = find_r f l.
Proof.
  intros Hy. induction l as [|z l IH]; simpl.
  - rewrite Hy. reflexivity.
  - destruct (f z) as [[|]|e]; simpl; [reflexivity|exact IH|reflexivity].
Qed.

Lemma matchesQuery_single_true (k : string) (v x : jsval) :
  matchesQuery P [(k, v)] x = Ok true →
  nullish x = false ∧ opt_member x k = v ∧ primitive v = true.
Proof.
  intros H. assert (Hn : nullish x = false).
  { destruct x; try reflexivity; discriminate H. }
  rewrite matchesQuery_single in H by exact Hn.
  injection H as H. apply strict_eq_true in H as [H1 H2]. subst v. auto.
Qed.

(** What [getSetting] computes on a collection that reads as [items]. *)
Lemma getSetting_holds (ls : Storage) (items : list jsval) (key : jsval) :
  holds P ls "settings" items →
  FirebaseService.getSetting P key ls
  = match find_r (matchesQuery P [("key", key)]) items with
    | Ok (Some setting) =>
        if truthy setting then opt_member setting "value" else JNull
    | Ok None => JNull
    | Throw _ => JNull
    end.
Proof.
  intros Hh. unfold FirebaseService.getSetting, FirebaseService._executeOperation.
  rewrite (execute_holds P _ _ _ _ _ _ _ Hh), operate_findOne.
  cbn [itemsArray bind].
  change (findCallback P [("key", key)]) with (matchesQuery P [("key", key)]).
  destruct (find_r (matchesQuery P [("key", key)]) items) as [[s|]|e];
    cbn [bind fst snd default from_option id]; try reflexivity.
  destruct (truthy s) eqn:Ht; [|reflexivity].
  rewrite member_non_nullish; [reflexivity|].
  destruct s; simpl in *; congruence.
Qed.

End SettingFacts.

(** [setSetting] followed by [getSetting]. *)
Lemma setSetting_getSetting (P : Platform) (ls : LocalStore.Storage)
    (items : list jsval) (key value : jsval) (nowISO fresh : string) :
  holds P ls "settings" items →
  Forall (λ x, nullish x = false) items →
  primitive key = true →
  readsBack P "updateOne" [("key", key)]
            (FirebaseService.settingUpdate nowISO key value) fresh items →
  ∃ r ls',
    FirebaseService.setSetting P nowISO fresh key value ls = Ok (r, ls')
    ∧ FirebaseService.getSetting P key ls' = value
    ∧ ∀ key', strict_eq key' key = false →
              FirebaseService.getSetting P key' ls' = FirebaseService.getSetting P key' ls.
Proof.
  intros Hh Hn Hp Hrb.
  assert (Hother : ∀ key' (m : gmap string jsval),
            strict_eq key' key = false → m !! "key" = Some key →
            LocalStore.matchesQuery P [("key", key')] (JObj m) = Ok false).
  { intros key' m Hk Hm. rewrite matchesQuery_single by reflexivity.
    cbn [opt_member]. unfold prop. rewrite Hm. cbn [default from_option id].
    rewrite strict_eq_sym, Hk. reflexivity. }
  set (data := FirebaseService.settingUpdate nowISO key value) in *.
  assert (Hd : nullish data = false) by reflexivity.
  assert (Hpatch : patchOf data
                   = list_to_map [("key", key); ("value", value); ("updatedAt", JStr nowISO)]).
  { reflexivity. }
  assert (Hkey : patchOf data !! "key" = Some key).
  { rewrite Hpatch. reflexivity. }
  assert (Hval : patchOf data !! "value" = Some value).
  { rewrite Hpatch. reflexivity. }
  unfold FirebaseService.setSetting, FirebaseService._executeOperation. fold data.
  rewrite (execute_holds P _ _ _ _ _ _ _ Hh).
  pose proof (operate_updateOne P [("key", key)] data fresh items Hd) as Hop.
  destruct (single_query_cases P "key" key items Hn) as [Hu|(l1 & x & l2 & -> & Hu & Hx)].
  - rewrite (findIndex_r_none _ _ Hu) in Hop. cbn [bind] in Hop.
    pose proof (Hrb _ _ Hop) as Hs. rewrite Hop. cbn [bind fst snd].
    assert (Hk : LocalStore.upsertedItem fresh [("key", key)] data !! "key" = Some key).
    { unfold LocalStore.upsertedItem. rewrite lookup_insert_ne by discriminate.
      fold (patchOf data).
      rewrite (lookup_union_l' _ _ _ (mk_is_Some _ _ Hkey)). exact Hkey. }
    eexists _, _. split; [reflexivity|]. split; cycle 1.
    { intros key' Hk'.
      rewrite (getSetting_holds P _ _ _ (holds_saved P ls "settings" _ Hs)).
      rewrite (getSetting_holds P _ _ _ Hh).
      rewrite find_r_snoc_false; [reflexivity|]. apply Hother; assumption. }
    rewrite (getSetting_holds P _ _ _ (holds_saved P ls "settings" _ Hs)).
    rewrite (find_r_found _ items [] _ Hu).
    + cbn [truthy opt_member]. unfold LocalStore.upsertedItem, prop.
      rewrite lookup_insert_ne by discriminate.
      fold (patchOf data).
      rewrite (lookup_union_l' _ _ _ (mk_is_Some _ _ Hval)), Hval. reflexivity.
    + rewrite matchesQuery_single by reflexivity.
      cbn [opt_member]. unfold LocalStore.upsertedItem, prop.
      rewrite lookup_insert_ne by discriminate.
      fold (patchOf data).
      rewrite (lookup_union_l' _ _ _ (mk_is_Some _ _ Hkey)), Hkey.
      cbn [default from_option id]. rewrite (strict_eq_refl _ Hp). reflexivity.
  - rewrite (findIndex_r_found _ l1 l2 x Hu Hx) in Hop. cbn [bind] in Hop.
    rewrite list_lookup_middle in Hop by reflexivity. cbn [default from_option id] in Hop.
    replace (length l1) with (length l1 + 0)%nat in Hop by lia.
    rewrite insert_app_r in Hop. cbn [insert list_insert] in Hop.
    pose proof (Hrb _ _ Hop) as Hs. rewrite Hop. cbn [bind fst snd].
    assert (Hk : LocalStore.updatedItem x data !! "key" = Some key).
    { unfold LocalStore.updatedItem. fold (patchOf data).
      rewrite (lookup_union_l' _ _ _ (mk_is_Some _ _ Hkey)). exact Hkey. }
    eexists _, _. split; [reflexivity|]. split; cycle 1.
    { intros key' Hk'.
      rewrite (getSetting_holds P _ _ _ (holds_saved P ls "settings" _ Hs)).
      rewrite (getSetting_holds P _ _ _ Hh).
      apply matchesQuery_single_true in Hx as (Hxn & Hxk & _).
      rewrite (find_r_replace (LocalStore.matchesQuery P [("key", key')]) l1 l2 x); [reflexivity| |].
      - rewrite matchesQuery_single by exact Hxn.
        rewrite Hxk, strict_eq_sym, Hk'. reflexivity.
      - apply Hother; assumption. }
    rewrite (getSetting_holds P _ _ _ (holds_saved P ls "settings" _ Hs)).
    rewrite (find_r_found _ l1 l2 _ Hu).
    + cbn [truthy opt_member]. unfold LocalStore.updatedItem, prop.
      fold (patchOf data).
      rewrite (lookup_union_l' _ _ _ (mk_is_Some _ _ Hval)), Hval. reflexivity.
    + rewrite matchesQuery_single by reflexivity.
      cbn [opt_member]. unfold LocalStore.updatedItem, prop.
      fold (patchOf data).
      rewrite (lookup_union_l' _ _ _ (mk_is_Some _ _ Hkey)), Hkey.
      cbn [default from_option id]. rewrite (strict_eq_refl _ Hp). reflexivity.
Qed.

(** X6.  A setting written is the setting read.  On a [settings]
    collection without [null] elements, [setSetting(key, value)] for a
    primitive key succeeds, and [getSetting(key)] then returns [value]:
    the first record with that key is updated when there is one, and a
    record is added when there is none.  The setting read under any
    other key is what it was before. *)
Theorem X6_setting_written_is_setting_read (P : Platform) (ls : LocalStore.Storage)
    (items : list jsval) (key value : jsval) (nowISO fresh : string) :
  holds P ls "settings" items →
  Forall (λ x, nullish x = false) items →
  primitive key = true →
  readsBack P "updateOne" [("key", key)]
            (FirebaseService.settingUpdate nowISO key value) fresh items →
  ∃ r ls',
    FirebaseService.setSetting P nowISO fresh key value ls = Ok (r, ls')
    ∧ FirebaseService.getSetting P key ls' = value
    ∧ ∀ key', strict_eq key' key = false →
              FirebaseService.getSetting P key' ls' = FirebaseService.getSetting P key' ls.
Proof.
  intros Hh Hn Hp Hrb.
  destruct (setSetting_getSetting P ls items key value nowISO fresh Hh Hn Hp Hrb)
    as (r & ls' & H1 & H2 & H3).
  exists r, ls'. split; [exact H1|]. split; [exact H2|exact H3].
Qed.

Lemma X6_witness :
  ∃ r ls',
    FirebaseService.setSetting Ref.platform "2024-03-01T12:00:00.000Z"
      StoreExamples.janeFresh (JStr "darkMode") (JBool true) StoreExamples.oneDocument
    = Ok (r, ls')
    ∧ FirebaseService.getSetting Ref.platform (JStr "darkMode") ls' = JBool true.
Proof.
  destruct (X6_setting_written_is_setting_read Ref.platform StoreExamples.oneDocument []
              (JStr "darkMode") (JBool true) "2024-03-01T12:00:00.000Z"
              StoreExamples.janeFresh)
    as (r & ls' & H1 & H2 & _).
  - vm_compute. reflexivity.
  - constructor.
  - reflexivity.
  - intros r l H. vm_compute in H. injection H as _ <-. vm_compute. reflexivity.
  - exists r, ls'. split; [exact H1|exact H2].
Defined.

(** ** The submission queue *)

Section QueueFacts.
Context (P : Platform).

Import LocalStore.

Lemma getAllSubmissions_holds (ls : Storage) (docs : list (gmap string jsval)) :
  holds P ls "submissions" (map JObj docs) →
  FirebaseService.getAllSubmissions P ls = map JObj docs.
Proof.
  intros Hh. unfold FirebaseService.getAllSubmissions, FirebaseService._executeOperation.
  rewrite (execute_holds P _ _ _ _ _ _ _ Hh), operate_find.
  cbn [itemsArray bind]. rewrite filter_r_all by reflexivity. cbn [bind fst snd].
  destruct docs; reflexivity.
Qed.

Lemma records_objects (docs : list (gmap string jsval)) :
  SubmissionQueue.records (map JObj docs) = Some docs.
Proof.
  unfold SubmissionQueue.records. induction docs as [|d docs IH]; [reflexivity|].
  cbn. cbn in IH. rewrite IH. reflexivity.
Qed.

Lemma readSubmissions_holds (ls : Storage) (docs : list (gmap string jsval)) :
  holds P ls "submissions" (map JObj docs) →
  previewed docs →
  SubmissionQueue.readSubmissions P ls = Some (Ok (getSubmissions P docs)).
Proof.
  intros Hh Hp. unfold SubmissionQueue.readSubmissions.
  rewrite (getAllSubmissions_holds _ _ Hh), records_objects.
  destruct docs as [|first rest]; [reflexivity|].
  cbn in Hp. rewrite Hp. reflexivity.
Qed.

Lemma previewed_app (docs : list (gmap string jsval)) (d : gmap string jsval) :
  previewed docs → SubmissionQueue.previewable d = true → previewed (docs ++ [d]).
Proof. destruct docs; cbn; auto. Qed.

Lemma getSubmissions_snoc (docs : list (gmap string jsval)) (d : gmap string jsval) :
  getSubmissions P (docs ++ [d])
  = getSubmissions P docs ++ match decryptOne P d with Some e => [e] | None => [] end.
Proof.
  unfold getSubmissions. induction docs as [|x docs IH]; cbn.
  - destruct (decryptOne P d); reflexivity.
  - cbn in IH. rewrite IH. destruct (decryptOne P x); reflexivity.
Qed.

(** The codec undoes itself on a record that serializes. *)
Lemma decrypt_encrypt (salt : Salt) (R : jsval) :
  cipher_inverts P → serializes P R →
  decryptSubmissionData P (encryptSubmissionData P salt R) = R.
Proof.
  intros Hc (json & Hj & Hw & Hp).
  destruct (Hc json ENCRYPTION_KEY salt Hw) as (c & w & He & Hd & Hu).
  unfold encryptSubmissionData, decryptSubmissionData.
  rewrite (encryptWith_ok P _ _ _ _ _ Hj He).
  apply (decryptWith_ok P _ _ _ _ _ Hd Hu Hp).
Qed.

End QueueFacts.

Section QueuedDocument.
Context (P : Platform).

Lemma queuedDocument_fields (salt : Salt) (now : Z) (nowISO : string) (now' : Z)
    (nowISO' fresh : string) (R : jsval) :
  now ≠ 0 → nowISO ≠ EmptyString →
  let doc := queuedDocument P salt now nowISO now' nowISO' fresh R in
  prop doc "id" = JNum now
  ∧ prop doc "encryptedData" = encryptSubmissionData P salt R
  ∧ prop doc "submittedAt" = JStr nowISO
  ∧ prop doc "status" = JStr "pending".
Proof.
  intros Hnow Hiso doc.
  assert (Ht1 : truthy (JNum now) = true).
  { simpl. apply negb_true_iff, Z.eqb_neq, Hnow. }
  assert (Ht2 : truthy (JStr nowISO) = true).
  { simpl. apply negb_true_iff, String.eqb_neq, Hiso. }
  subst doc. unfold queuedDocument, LocalStore.newItem, FirebaseService.submissionDocument,
    SubmissionQueue.storedSubmission, prop.
  cbn [opt_member spread_props].
  split; [|split; [|split]].
  - rewrite !lookup_insert_ne by discriminate. rewrite lookup_insert_eq.
    cbn [default from_option id]. unfold prop.
    change (list_to_map _ !! "id") with (Some (JNum now)).
    cbn [default from_option id]. unfold js_or. rewrite Ht1. reflexivity.
  - rewrite !lookup_insert_ne by discriminate. reflexivity.
  - rewrite lookup_insert_ne by discriminate. rewrite lookup_insert_eq.
    cbn [default from_option id]. unfold prop.
    change (list_to_map _ !! "submittedAt") with (Some (JStr nowISO)).
    cbn [default from_option id]. unfold js_or. rewrite Ht2. reflexivity.
  - rewrite !lookup_insert_ne by discriminate. reflexivity.
Qed.

End QueuedDocument.

(** X7.  A submission added is the last submission read.  When the codec
    round-trips the record (the cipher inverts, the record serializes,
    is truthy and its ciphertext is not empty) and the JSON written reads
    back, [addSubmission] stores one more document, and [getSubmissions]
    then returns what it returned before followed by the record itself,
    with [status] pending, [submittedAt] the time of the call and, unless
    the record has an [id] of its own, [id] the clock reading. *)
Theorem X7_added_submission_is_read_back (P : Platform) (ls : LocalStore.Storage)
    (docs : list (gmap string jsval)) (R : jsval) (salt : Salt)
    (now : Z) (nowISO : string) (now' : Z) (nowISO' fresh : string) :
  cipher_inverts P →
  serializes P R →
  truthy R = true →
  truthy (encryptSubmissionData P salt R) = true →
  now ≠ 0 → nowISO ≠ EmptyString →
  holds P ls "submissions" (map JObj docs) →
  previewed docs →
  persists P (map JObj docs
              ++ [JObj (queuedDocument P salt now nowISO now' nowISO' fresh R)]) →
  ∃ ls',
    SubmissionQueue.addSubmission P salt now nowISO now' nowISO' fresh R ls = Some (Ok ls')
    ∧ holds P ls' "submissions"
        (map JObj (docs ++ [queuedDocument P salt now nowISO now' nowISO' fresh R]))
    ∧ SubmissionQueue.readSubmissions P ls'
      = Some (Ok (getSubmissions P docs ++ [queuedEntry now nowISO R])).
Proof.
  intros Hc Hser HR Henc Hnow Hiso Hh Hpv Hs.
  set (doc := queuedDocument P salt now nowISO now' nowISO' fresh R) in *.
  destruct (queuedDocument_fields P salt now nowISO now' nowISO' fresh R Hnow Hiso)
    as (Fid & Fenc & Fat & Fst). fold doc in Fid, Fenc, Fat, Fst.
  pose proof (holds_saved P ls "submissions" _ Hs) as Hh'.
  exists (<[LocalStore.storageKey "submissions"
            := LocalStore.storedText P (map JObj docs ++ [JObj doc])]> ls).
  assert (Hh'' : holds P (<[LocalStore.storageKey "submissions"
                    := LocalStore.storedText P (map JObj docs ++ [JObj doc])]> ls)
                   "submissions" (map JObj (docs ++ [doc]))).
  { rewrite map_app. exact Hh'. }
  assert (Hread : SubmissionQueue.readSubmissions P
                    (<[LocalStore.storageKey "submissions"
                       := LocalStore.storedText P (map JObj docs ++ [JObj doc])]> ls)
                  = Some (Ok (getSubmissions P docs ++ [queuedEntry now nowISO R]))).
  2:{ split; [|split; [exact Hh''|exact Hread]].
      unfold SubmissionQueue.addSubmission. rewrite Henc. cbn [negb].
      unfold FirebaseService.addSubmission, FirebaseService._executeOperation.
      cbn [member bind].
      rewrite (execute_holds P _ _ _ _ _ _ _ Hh),
              (operate_insertOne P _ _ _ _ (eq_refl : nullish (JObj _) = false)).
      cbn [bind fst snd]. fold doc.
      rewrite (execute_holds P _ _ _ _ _ _ _ Hh'), operate_find.
      cbn [LocalStore.itemsArray bind]. rewrite filter_r_all by reflexivity.
      cbn [bind fst snd member].
      change (LocalStore.newItem fresh _) with doc. rewrite Hread. reflexivity. }
  - rewrite (readSubmissions_holds P _ _ Hh''), getSubmissions_snoc.
    2:{ apply previewed_app; [exact Hpv|].
        unfold SubmissionQueue.previewable. rewrite Fenc.
        unfold encryptSubmissionData, encryptWith in *.
        destruct (AES_encrypt P _ _ _); [apply orb_true_r|discriminate Henc]. }
    do 3 f_equal.
    unfold decryptOne. rewrite Fenc, Henc. cbn [negb].
    rewrite (decrypt_encrypt P salt R Hc Hser), HR. cbn [negb].
    unfold decorate, queuedEntry. rewrite Fid, Fat, Fst. reflexivity.
Qed.

Lemma X7_witness :
  ∃ ls',
    SubmissionQueue.addSubmission Ref.platform "k" StoreExamples.queuedAt
      StoreExamples.queuedAtISO StoreExamples.queuedAt StoreExamples.queuedAtISO
      StoreExamples.janeFresh StoreExamples.janeRecord ∅ = Some (Ok ls')
    ∧ SubmissionQueue.readSubmissions Ref.platform ls'
      = Some (Ok [queuedEntry StoreExamples.queuedAt StoreExamples.queuedAtISO
                    StoreExamples.janeRecord]).
Proof.
  destruct (X7_added_submission_is_read_back Ref.platform ∅ [] StoreExamples.janeRecord "k"
              StoreExamples.queuedAt StoreExamples.queuedAtISO
              StoreExamples.queuedAt StoreExamples.queuedAtISO StoreExamples.janeFresh)
    as (ls' & H1 & _ & H2).
  - exact Ref_cipher_inverts.
  - exists (default EmptyString (Ref.stringify StoreExamples.janeRecord)).
    repeat split; vm_compute; reflexivity.
  - reflexivity.
  - vm_compute. reflexivity.
  - discriminate.
  - discriminate.
  - vm_compute. reflexivity.
  - exact I.
  - vm_compute. reflexivity.
  - exists ls'. split; [exact H1|exact H2].
Defined.

Section KeyedQueue.
Context (P : Platform).

Import LocalStore.

(** In a keyed queue the query of [updateSubmission] and
    [deleteSubmission] is satisfied by the document with that [id]. *)
Lemma keyed_matches (d : gmap string jsval) :
  prop d "_id" = JStr (to_str P (prop d "id")) →
  matchesQuery P [("_id", JStr (to_str P (prop d "id")))] (JObj d) = Ok true.
Proof.
  intros H. rewrite matchesQuery_single by reflexivity.
  cbn [opt_member]. rewrite H. simpl. rewrite String.eqb_refl. reflexivity.
Qed.

Lemma unmatched_other_ids (d1 : list (gmap string jsval)) (v : jsval) :
  Forall (λ d, prop d "_id" ≠ v) d1 →
  unmatched P [("_id", v)] (map JObj d1).
Proof.
  intros H. unfold unmatched. apply Forall_map.
  eapply Forall_impl; [exact H|]. intros d Hd. cbn beta.
  rewrite matchesQuery_single by reflexivity. cbn [opt_member].
  rewrite (strict_eq_ne _ _ Hd). reflexivity.
Qed.

Lemma NoDup_before {A B : Type} (f : A → B) (l1 l2 : list A) (x : A) :
  NoDup (map f (l1 ++ x :: l2)) → Forall (λ y, f y ≠ f x) l1.
Proof.
  rewrite map_app. cbn [map]. intros H. apply NoDup_app in H as (_ & H & _).
  apply Forall_forall. intros y Hy E. apply (H (f y)).
  - change (map f l1) with (f <$> l1). apply list_elem_of_fmap_2, Hy.
  - rewrite E. left.
Qed.

Lemma status_insert_union (s : gmap string jsval) (status : jsval) :
  <["status" := status]> s ∪ s = <["status" := status]> s.
Proof. rewrite <- insert_union_l. f_equal. apply map_eq. intros k.
  rewrite lookup_union. destruct (s !! k); reflexivity. Qed.

Lemma deleteEach_keyed (docs : list (gmap string jsval)) :
  ∀ ls, holds P ls "submissions" (map JObj docs) →
        keyed P docs →
        (∀ k, persists P (map JObj (drop k docs))) →
        ∃ ls', FirebaseService.deleteEach P (map JObj docs) ls = Ok ls'
               ∧ holds P ls' "submissions" [].
Proof.
  induction docs as [|d rest IH]; intros ls Hh Hk Hs.
  - exists ls. split; [reflexivity|exact Hh].
  - inversion Hk as [|? ? Hd Hrest]; subst.
    cbn [map FirebaseService.deleteEach member bind].
    unfold FirebaseService.deleteSubmission, FirebaseService._executeOperation.
    rewrite (execute_deleteOne_found P ls "submissions" _ [] (map JObj rest) (JObj d));
      [|exact Hh|constructor|apply keyed_matches, Hd].
    cbn [bind fst snd app].
    apply IH.
    + apply holds_saved. exact (Hs 1%nat).
    + exact Hrest.
    + intros k. exact (Hs (S k)).
Qed.

(** The status update when the document with that [id] is [s]. *)
Lemma updateSubmissionStatus_found (ls : Storage) (d1 : list (gmap string jsval))
    (s : gmap string jsval) (d2 : list (gmap string jsval)) (status : jsval)
    (fresh : string) :
  holds P ls "submissions" (map JObj (d1 ++ s :: d2)) →
  keyed P (d1 ++ s :: d2) →
  NoDup (map (λ d, prop d "_id") (d1 ++ s :: d2)) →
  primitive (prop s "id") = true →
  persists P (map JObj (d1 ++ <["status" := status]> s :: d2)) →
  SubmissionQueue.updateSubmissionStatus P fresh (prop s "id") status ls
  = Some (Ok (<[storageKey "submissions"
               := storedText P (map JObj (d1 ++ <["status" := status]> s :: d2))]> ls))
  ∧ holds P (<[storageKey "submissions"
              := storedText P (map JObj (d1 ++ <["status" := status]> s :: d2))]> ls)
      "submissions" (map JObj (d1 ++ <["status" := status]> s :: d2))
  ∧ keyed P (d1 ++ <["status" := status]> s :: d2).
Proof.
  intros Hh Hk Hnd Hpr Hp.
  pose proof (NoDup_before _ _ _ _ Hnd) as Hbefore.
  apply Forall_app in Hk as [Hk1 Hk2].
  inversion Hk2 as [|? ? Hks Hk2']; subst.
  set (s' := <["status" := status]> s) in *.
  assert (Hfind : find_r (λ x, let! i := member P x "id" in
                               Ok (strict_eq i (prop s "id")))
                    (map JObj (d1 ++ s :: d2)) = Ok (Some (JObj s))).
  { rewrite map_app. cbn [map]. apply find_r_found.
    - apply Forall_map. apply Forall_forall. intros d Hd. cbn.
      rewrite strict_eq_ne; [reflexivity|]. intros E.
      rewrite Forall_forall in Hbefore, Hk1.
      apply (Hbefore d Hd). rewrite (Hk1 d Hd), Hks, E. reflexivity.
    - cbn. rewrite (strict_eq_refl _ Hpr). reflexivity. }
  split; [|split].
  + unfold SubmissionQueue.updateSubmissionStatus.
    rewrite (getAllSubmissions_holds P _ _ Hh), Hfind. cbn [truthy].
    unfold FirebaseService.updateSubmission, FirebaseService._executeOperation.
    rewrite map_app in Hh. cbn [map] in Hh.
    rewrite (execute_updateOne_found P ls "submissions" _ _ _ _ _ _ Hh).
    * cbn [bind fst snd]. do 3 f_equal.
      rewrite map_app. cbn [map]. do 3 f_equal.
      unfold LocalStore.updatedItem. cbn [spread_props].
      change (opt_member _ "$set") with (JObj s').
      cbn [js_or truthy spread_props]. f_equal. apply status_insert_union.
    * apply unmatched_other_ids. eapply Forall_impl; [exact Hbefore|].
      intros d Hd. cbn beta in Hd. rewrite <- Hks. exact Hd.
    * apply keyed_matches. exact Hks.
    * reflexivity.
  + apply holds_saved. exact Hp.
  + apply Forall_app. split; [exact Hk1|]. constructor; [|exact Hk2'].
    unfold s', prop. rewrite !lookup_insert_ne by discriminate. exact Hks.
Qed.

End KeyedQueue.

(** X8.  A status update changes one stored submission.  In a queue
    whose documents are stored under the text of their [id], with
    distinct [_id]s, [updateSubmissionStatus(id, status)] replaces the
    [status] of the document with that [id] and leaves every other
    document, the order and the keys as they were; for an [id] that no
    document has, the storage is not touched (nothing is added). *)
Theorem X8_status_update_changes_one_submission (P : Platform)
    (ls : LocalStore.Storage) (docs : list (gmap string jsval))
    (id status : jsval) (fresh : string) :
  holds P ls "submissions" (map JObj docs) →
  keyed P docs →
  NoDup (map (λ d, prop d "_id") docs) →
  (Forall (λ d, strict_eq (prop d "id") id = false) docs →
   SubmissionQueue.updateSubmissionStatus P fresh id status ls = Some (Ok ls))
  ∧ (∀ d1 s d2,
       docs = d1 ++ s :: d2 →
       strict_eq (prop s "id") id = true →
       persists P (map JObj (d1 ++ <["status" := status]> s :: d2)) →
       ∃ ls',
         SubmissionQueue.updateSubmissionStatus P fresh id status ls = Some (Ok ls')
         ∧ holds P ls' "submissions" (map JObj (d1 ++ <["status" := status]> s :: d2))
         ∧ keyed P (d1 ++ <["status" := status]> s :: d2)).
Proof.
  intros Hh Hk Hnd. split.
  - intros Hf. unfold SubmissionQueue.updateSubmissionStatus.
    rewrite (getAllSubmissions_holds P _ _ Hh).
    rewrite find_r_none; [reflexivity|].
    apply Forall_map. eapply Forall_impl; [exact Hf|].
    intros d Hd. cbn. rewrite Hd. reflexivity.
  - intros d1 s d2 -> Hs Hp.
    apply strict_eq_true in Hs as [<- Hpr].
    destruct (updateSubmissionStatus_found P ls d1 s d2 status fresh Hh Hk Hnd Hpr Hp)
      as (H1 & H2 & H3).
    eexists. split; [exact H1|]. split; [exact H2|exact H3].
Qed.

Lemma X8_witness :
  ∃ ls',
    SubmissionQueue.updateSubmissionStatus Ref.platform EmptyString
      (JNum 1709200000000) (JStr "verified") StoreExamples.twoSubmissions = Some (Ok ls')
    ∧ holds Ref.platform ls' "submissions"
        [ JObj StoreExamples.storedBob;
          JObj (<["status" := JStr "verified"]> StoreExamples.storedJane) ].
Proof.
  destruct (X8_status_update_changes_one_submission Ref.platform
              StoreExamples.twoSubmissions
              [StoreExamples.storedBob; StoreExamples.storedJane]
              (JNum 1709200000000) (JStr "verified") EmptyString)
    as [_ H].
  - vm_compute. reflexivity.
  - repeat constructor.
  - vm_compute. apply NoDup_cons_2; [|apply NoDup_cons_2; [|apply NoDup_nil_2]].
    + rewrite not_elem_of_cons. split; [discriminate|apply not_elem_of_nil].
    + apply not_elem_of_nil.
  - destruct (H [StoreExamples.storedBob] StoreExamples.storedJane [])
      as (ls' & H1 & H2 & _).
    + reflexivity.
    + reflexivity.
    + vm_compute. reflexivity.
    + exists ls'. split; [exact H1|exact H2].
Defined.

(** X9.  Clearing empties a keyed queue.  When every stored submission
    is stored under the text of its [id], [clearAllSubmissions] deletes
    the documents one by one, each deletion removing the document it was
    issued for, and leaves a queue that reads as empty. *)
Theorem X9_clear_empties_a_keyed_queue (P : Platform) (ls : LocalStore.Storage)
    (docs : list (gmap string jsval)) :
  holds P ls "submissions" (map JObj docs) →
  keyed P docs →
  (∀ k, persists P (map JObj (drop k docs))) →
  ∃ ls',
    SubmissionQueue.clearAllSubmissions P ls = Ok ls'
    ∧ holds P ls' "submissions" []
    ∧ SubmissionQueue.readSubmissions P ls' = Some (Ok []).
Proof.
  intros Hh Hk Hs.
  destruct (deleteEach_keyed P docs ls Hh Hk Hs) as (ls' & Hd & Hh').
  exists ls'. split; [|split].
  - unfold SubmissionQueue.clearAllSubmissions, FirebaseService.clearAllSubmissions.
    rewrite (getAllSubmissions_holds P _ _ Hh). exact Hd.
  - exact Hh'.
  - apply (readSubmissions_holds P ls' [] Hh'). exact I.
Qed.

Lemma X9_witness :
  ∃ ls',
    SubmissionQueue.clearAllSubmissions Ref.platform StoreExamples.twoSubmissions = Ok ls'
    ∧ SubmissionQueue.readSubmissions Ref.platform ls' = Some (Ok []).
Proof.
  destruct (X9_clear_empties_a_keyed_queue Ref.platform StoreExamples.twoSubmissions
              [StoreExamples.storedBob; StoreExamples.storedJane])
    as (ls' & H1 & _ & H2).
  - vm_compute. reflexivity.
  - repeat constructor.
  - intros [|[|[|k]]]; vm_compute; reflexivity.
  - exists ls'. split; [exact H1|exact H2].
Defined.

(** ** Subscribers *)

Section SubscriberFacts.
Context {Callback : Type} `{EqDecision Callback}.

Lemma unsubscribe_cons (callback c : Callback) (l : list Callback) :
  SubmissionQueue.unsubscribe callback (c :: l)
  = if decide (c = callback) then l else c :: SubmissionQueue.unsubscribe callback l.
Proof.
  unfold SubmissionQueue.unsubscribe. cbn [SubmissionQueue.indexOf].
  destruct (decide (c = callback)); [reflexivity|].
  destruct (SubmissionQueue.indexOf callback l); reflexivity.
Qed.

End SubscriberFacts.

(** X10.  Unsubscribing removes one registration of the callback, and
    nothing else: the other callbacks stay, in their order; the list is
    one shorter when the callback was registered and unchanged when it
    was not; subscribing and then unsubscribing gives back the same
    subscribers (the same list when the callback was not registered
    before; when it was, the earlier registration is the one removed). *)
Theorem X10_unsubscribe_removes_one_registration {Callback : Type}
    `{EqDecision Callback} (callback : Callback) (subscribers : list Callback) :
  filter (λ c, c ≠ callback) (SubmissionQueue.unsubscribe callback subscribers)
  = filter (λ c, c ≠ callback) subscribers
  ∧ length (SubmissionQueue.unsubscribe callback subscribers)
    = (length subscribers - if decide (callback ∈ subscribers) then 1 else 0)%nat
  ∧ SubmissionQueue.unsubscribe callback (SubmissionQueue.subscribe callback subscribers)
    ≡ₚ subscribers
  ∧ (callback ∉ subscribers →
     SubmissionQueue.unsubscribe callback (SubmissionQueue.subscribe callback subscribers)
     = subscribers).
Proof.
  split; [|split; [|split]].
  - induction subscribers as [|c l IH]; [reflexivity|].
    rewrite unsubscribe_cons. destruct (decide (c = callback)) as [->|Hc].
    + rewrite filter_cons_False by (intros E; apply E; reflexivity). reflexivity.
    + rewrite !filter_cons_True by exact Hc. rewrite IH. reflexivity.
  - induction subscribers as [|c l IH]; [reflexivity|].
    rewrite unsubscribe_cons. destruct (decide (c = callback)) as [->|Hc].
    + rewrite decide_True by left. cbn [length]. lia.
    + cbn [length]. rewrite IH.
      destruct (decide (callback ∈ l)) as [Hin|Hin].
      * rewrite decide_True by (right; exact Hin).
        destruct l; [inversion Hin|]. cbn [length]. lia.
      * rewrite decide_False; [lia|].
        intros E. apply elem_of_cons in E as [E|E]; [congruence|contradiction].
  - unfold SubmissionQueue.subscribe.
    induction subscribers as [|c l IH].
    + cbn [app]. rewrite unsubscribe_cons, decide_True by reflexivity. reflexivity.
    + cbn [app]. rewrite unsubscribe_cons. destruct (decide (c = callback)) as [->|Hc].
      * symmetry. apply Permutation_cons_append.
      * rewrite IH. reflexivity.
  - unfold SubmissionQueue.subscribe.
    induction subscribers as [|c l IH]; intros Hn.
    + cbn [app]. rewrite unsubscribe_cons, decide_True by reflexivity. reflexivity.
    + cbn [app]. rewrite unsubscribe_cons.
      apply not_elem_of_cons in Hn as [Hc Hn].
      rewrite decide_False by congruence. rewrite IH by exact Hn. reflexivity.
Qed.

Lemma X10_witness :
  SubmissionQueue.unsubscribe 2%nat (SubmissionQueue.subscribe 2%nat [1%nat; 3%nat])
  = [1%nat; 3%nat].
Proof.
  refine (proj2 (proj2 (proj2
            (X10_unsubscribe_removes_one_registration 2%nat [1%nat; 3%nat]))) _).
  intros H. apply elem_of_cons in H as [H|H]; [discriminate|].
  apply elem_of_cons in H as [H|H]; [discriminate|]. inversion H.
Defined.

(** ** Masking *)

Section MaskFacts.

Import Mask.

Lemma str_app_cons (c : ascii) (a b : string) : String c a +:+ b = String c (a +:+ b).
Proof. reflexivity. Qed.

Lemma str_app_empty (b : string) : EmptyString +:+ b = b.
Proof. reflexivity. Qed.

Lemma str_length_app (a b : string) :
  String.length (a +:+ b) = (String.length a + String.length b)%nat.
Proof.
  induction a as [|c a IH]; [reflexivity|].
  rewrite str_app_cons. cbn [String.length]. rewrite IH. reflexivity.
Qed.

Lemma dropChars_app (a b : string) : dropChars (String.length a) (a +:+ b) = b.
Proof.
  induction a as [|c a IH]; [destruct b; reflexivity|].
  rewrite str_app_cons. cbn [String.length dropChars]. exact IH.
Qed.

Lemma sliceLast_app (n : nat) (a b : string) :
  String.length b = n → sliceLast n (a +:+ b) = b.
Proof.
  intros H. unfold sliceLast. rewrite str_length_app, H.
  replace (String.length a + n - n)%nat with (String.length a) by lia.
  apply dropChars_app.
Qed.

Lemma eqb_length_ne (a b : string) :
  String.length a ≠ String.length b → String.eqb a b = false.
Proof. intros H. apply String.eqb_neq. intros ->. apply H. reflexivity. Qed.

Lemma split_cons_nonempty (s : string) : split s ≠ [].
Proof.
  destruct s as [|c s]; cbn; [discriminate|].
  destruct (Ascii.eqb c " "); [discriminate|]. destruct (split s); discriminate.
Qed.

Lemma split_spaceless (s : string) : spaceless s = true → split s = [s].
Proof.
  induction s as [|c s IH]; cbn; [reflexivity|].
  destruct (Ascii.eqb c " "); cbn; [discriminate|].
  intros H. rewrite (IH H). reflexivity.
Qed.

Lemma split_word_space (w rest : string) :
  spaceless w = true → split (w +:+ " " +:+ rest) = w :: split rest.
Proof.
  induction w as [|c w IH]; [reflexivity|].
  rewrite str_app_cons. cbn [spaceless split].
  destruct (Ascii.eqb c " ") eqn:E; cbn [negb andb]; [discriminate|].
  intros H. rewrite (IH H). reflexivity.
Qed.

Lemma split_join (words : list string) :
  words ≠ [] → forallb spaceless words = true → split (join words) = words.
Proof.
  induction words as [|w rest IH]; [congruence|]. intros _ H.
  cbn [forallb] in H. apply andb_true_iff in H as [Hw Hrest].
  destruct rest as [|w' rest'].
  - cbn. apply split_spaceless, Hw.
  - change (join (w :: w' :: rest')) with (w +:+ " " +:+ join (w' :: rest')).
    rewrite (split_word_space _ _ Hw), IH; [reflexivity|discriminate|exact Hrest].
Qed.

Lemma spaceless_app_space (a b : string) : spaceless (a +:+ " " +:+ b) = false.
Proof.
  induction a as [|c a IH]; [reflexivity|].
  rewrite str_app_cons. cbn [spaceless]. rewrite IH. apply andb_false_r.
Qed.

Lemma mask_last_snoc (l : list string) (x d : string) : List.last (l ++ [x]) d = x.
Proof. apply List.last_last. Qed.

Lemma stars_length (n : nat) : String.length (stars n) = n.
Proof. induction n as [|n IH]; cbn [stars String.length]; congruence. Qed.

End MaskFacts.

(** X11.  A masked mobile or Aadhaar number shows its last four
    characters and nothing else: the mask of a value of four characters
    or more is a fixed prefix followed by the last four characters, so
    two values with the same last four characters have the same mask
    (and a value of exactly four characters is shown whole). *)
Theorem X11_mask_shows_only_the_last_four (hidden last4 : string) :
  String.length last4 = 4%nat →
  hidden +:+ last4 ≠ "Not found" →
  Mask.maskSensitiveData (hidden +:+ last4) "mobile" = "****" +:+ last4
  ∧ Mask.maskSensitiveData (hidden +:+ last4) "aadhaar" = "****-****-" +:+ last4.
Proof.
  intros Hl Hn.
  assert (Hlen : String.length (hidden +:+ last4) = (String.length hidden + 4)%nat).
  { rewrite str_length_app, Hl. reflexivity. }
  assert (H1 : String.eqb (hidden +:+ last4) EmptyString = false).
  { apply eqb_length_ne. rewrite Hlen. cbn. lia. }
  assert (H2 : String.eqb (hidden +:+ last4) "Not found" = false).
  { apply String.eqb_neq, Hn. }
  assert (H3 : String.eqb (hidden +:+ last4) "N/A" = false).
  { apply eqb_length_ne. rewrite Hlen. cbn. lia. }
  assert (H4 : (4 <=? String.length (hidden +:+ last4))%nat = true).
  { apply Nat.leb_le. lia. }
  unfold Mask.maskSensitiveData. rewrite H1, H2, H3, H4.
  cbn [orb String.eqb Ascii.eqb Bool.eqb].
  rewrite (sliceLast_app 4 _ _ Hl). split; reflexivity.
Qed.

Lemma X11_witness :
  Mask.maskSensitiveData "9876543210" "mobile" = "****3210"
  ∧ Mask.maskSensitiveData "9876543210" "aadhaar" = "****-****-3210".
Proof.
  apply (X11_mask_shows_only_the_last_four "987654" "3210").
  - reflexivity.
  - discriminate.
Defined.

(** X12.  A masked name of several words shows the first word and the
    length of the last: for a name made of words separated by single
    spaces, the mask is the first word, a space, and one star for each
    character of the last word; the words between them do not appear at
    all. *)
Theorem X12_masked_name_shows_the_first_word (first last : string)
    (middle : list string) :
  Mask.spaceless first = true →
  forallb Mask.spaceless middle = true →
  Mask.spaceless last = true →
  Mask.join (first :: middle ++ [last]) ≠ "Not found" →
  Mask.maskSensitiveData (Mask.join (first :: middle ++ [last])) "name"
  = first +:+ " " +:+ Mask.stars (String.length last).
Proof.
  intros Hf Hm Hl Hn.
  set (data := Mask.join (first :: middle ++ [last])) in *.
  assert (Hd : ∃ rest, data = first +:+ " " +:+ rest).
  { unfold data. destruct middle as [|m middle]; cbn [app]; eexists; reflexivity. }
  destruct Hd as [rest Hd].
  assert (Hs : Mask.spaceless data = false).
  { rewrite Hd. apply spaceless_app_space. }
  assert (H1 : String.eqb data EmptyString = false).
  { apply String.eqb_neq. intros E. rewrite E in Hs. discriminate. }
  assert (H2 : String.eqb data "Not found" = false).
  { apply String.eqb_neq, Hn. }
  assert (H3 : String.eqb data "N/A" = false).
  { apply String.eqb_neq. intros E. rewrite E in Hs. discriminate. }
  assert (Hsplit : Mask.split data = first :: middle ++ [last]).
  { apply split_join; [discriminate|]. cbn [forallb]. rewrite Hf, forallb_app, Hm.
    cbn. rewrite Hl. reflexivity. }
  unfold Mask.maskSensitiveData. rewrite H1, H2, H3, Hsplit.
  cbn [orb String.eqb Ascii.eqb Bool.eqb hd].
  change (first :: middle ++ [last]) with ((first :: middle) ++ [last]) at 2.
  rewrite mask_last_snoc.
  replace (1 <? length (first :: middle ++ [last]))%nat with true; [reflexivity|].
  symmetry. apply Nat.ltb_lt. cbn [length]. rewrite length_app. cbn [length]. lia.
Qed.

Lemma X12_witness :
  Mask.maskSensitiveData "Jane Mary Doe" "name" = "Jane ***".
Proof.
  apply (X12_masked_name_shows_the_first_word "Jane" "Doe" ["Mary"]).
  - reflexivity.
  - reflexivity.
  - reflexivity.
  - discriminate.
Defined.

(** X13.  A masked name of one word keeps its first character and its
    length: every other character is replaced by a star. *)
Theorem X13_masked_single_name_keeps_first_character (c : ascii) (rest : string) :
  Mask.spaceless (String c rest) = true →
  String c rest ≠ "N/A" →
  Mask.maskSensitiveData (String c rest) "name"
  = String c (Mask.stars (String.length rest))
  ∧ String.length (Mask.maskSensitiveData (String c rest) "name")
    = String.length (String c rest).
Proof.
  intros Hs Hn.
  assert (H2 : String.eqb (String c rest) "Not found" = false).
  { apply String.eqb_neq. intros E. rewrite E in Hs. discriminate. }
  assert (H3 : String.eqb (String c rest) "N/A" = false).
  { apply String.eqb_neq, Hn. }
  assert (Hm : Mask.maskSensitiveData (String c rest) "name"
               = String c (Mask.stars (String.length rest))).
  { unfold Mask.maskSensitiveData. rewrite H2, H3, (split_spaceless _ Hs).
    cbn [orb String.eqb Ascii.eqb Bool.eqb length Nat.ltb Nat.leb Mask.firstChar].
    replace (String.length (String c rest) - 1)%nat with (String.length rest)
      by (cbn [String.length]; lia).
    reflexivity. }
  split; [exact Hm|]. rewrite Hm. cbn [String.length]. rewrite stars_length. reflexivity.
Qed.

Lemma X13_witness :
  Mask.maskSensitiveData "Madonna" "name" = "M******".
Proof.
  apply (X13_masked_single_name_keeps_first_character "M" "adonna").
  - reflexivity.
  - discriminate.
Defined.

(** ** The generated QR code *)

Section GeneratorFacts.
Context (P : Platform).

(** The fields of a generated payload. *)
Lemma filteredQrData_fields (nowISO : string) (D sel : jsval)
    (payload : gmap string jsval) :
  QRGenerator.filteredQrData P nowISO D sel = Ok payload →
  prop payload "docType" = JStr "Document Verification"
  ∧ prop payload "verifiedAt" = JStr nowISO
  ∧ prop payload "username" = opt_member D "username"
  ∧ prop payload "name" = opt_member D "name"
  ∧ prop payload "dob" = opt_member D "dob"
  ∧ prop payload "mobile" = opt_member D "mobile"
  ∧ prop payload "aadhaar" = opt_member D "aadhaar"
  ∧ prop payload "verificationRequested" = JUndef.
Proof.
  unfold QRGenerator.filteredQrData. intros H.
  destruct (member P D "username") as [x|] eqn:E; [|discriminate].
  apply member_ok_inv in E as [HD ->].
  rewrite !(member_non_nullish P _ _ HD) in H. cbn [bind] in H.
  destruct (member P sel "age") as [x1|] eqn:E1; [|discriminate].
  apply member_ok_inv in E1 as [Hsel ->].
  rewrite !(member_non_nullish P _ _ Hsel) in H. cbn [bind] in H.
  injection H as <-.
  destruct (truthy (opt_member sel "age")), (truthy (opt_member sel "address"));
    repeat split; reflexivity.
Qed.

Lemma filteredQrData_ok (nowISO : string) (D sel : jsval) :
  nullish D = false → nullish sel = false →
  ∃ payload, QRGenerator.filteredQrData P nowISO D sel = Ok payload.
Proof.
  intros HD Hs. unfold QRGenerator.filteredQrData.
  rewrite !(member_non_nullish P _ _ HD), !(member_non_nullish P _ _ Hs).
  eexists. reflexivity.
Qed.

End GeneratorFacts.

(** X14.  The generator never asks for an attribute.  The payload
    [generateCustomVerificationQR] builds has no [verificationRequested]
    field, whatever attributes were selected; so when a scan yields such
    a payload, every entry of the attribute verdict has its [requested]
    flag false, and the verification panel, which shows the requested
    entries, shows none. *)
Theorem X14_generated_code_requests_no_attribute (P : Platform) (nowISO : string)
    (documentData selectedAttributes : jsval) (payload : gmap string jsval)
    (qr p : jsval) (now : Z) (submissions : list (gmap string jsval)) :
  QRGenerator.filteredQrData P nowISO documentData selectedAttributes = Ok payload →
  parseQRData P qr = Ok p →
  (∀ k, opt_member p k = prop payload k) →
  payload !! "verificationRequested" = None
  ∧ displayedAttributes (validateQRData P now submissions qr) = [].
Proof.
  intros Hgen Hparse Hread.
  destruct (filteredQrData_fields P _ _ _ _ Hgen) as (_ & _ & _ & _ & _ & _ & _ & Hvr).
  split.
  { unfold prop in Hvr. destruct (payload !! "verificationRequested") as [v|] eqn:E;
      [|reflexivity].
    exfalso. clear Hread Hparse.
    unfold QRGenerator.filteredQrData in Hgen.
    destruct (member P documentData "username") as [x|] eqn:E0; [|discriminate].
    apply member_ok_inv in E0 as [HD ->].
    rewrite !(member_non_nullish P _ _ HD) in Hgen. cbn [bind] in Hgen.
    destruct (member P selectedAttributes "age") as [x1|] eqn:E1; [|discriminate].
    apply member_ok_inv in E1 as [Hsel ->].
    rewrite !(member_non_nullish P _ _ Hsel) in Hgen. cbn [bind] in Hgen.
    injection Hgen as <-.
    destruct (truthy (opt_member selectedAttributes "age")),
             (truthy (opt_member selectedAttributes "address")); discriminate E. }
  assert (Hreq : ∀ s b,
            List.filter (λ e : string * AttrDetail, truthy (requested (snd e)))
                        (entriesOf p s b) = []).
  { intros s b. unfold entriesOf, requestedOf. rewrite (Hread "verificationRequested"), Hvr.
    reflexivity. }
  destruct (validateQRData_cases P now submissions qr) as
    [(e & -> & _) | [(p' & Hp' & _ & ->) | (p' & s & cs & Hp' & _ & _ & _ & [[_ ->] | [_ ->]])]];
    try reflexivity.
  rewrite Hparse in Hp'. injection Hp' as <-.
  unfold displayedAttributes, dataVerdict. cbn [attributeVerification].
  apply Hreq.
Qed.

Lemma X14_witness :
  ∃ url,
    QRGenerator.verificationUrl Ref.platform RefBrowser.browser QRExamples.generatedAt
      (JObj QRExamples.janeFields) QRExamples.selectAge = Ok url
    ∧ displayedAttributes
        (validateQRData Ref.platform (Examples.noon + Examples.hour) [Examples.jane]
           (JStr url)) = [].
Proof.
  eexists. split; [vm_compute; reflexivity|].
  refine (proj2 (X14_generated_code_requests_no_attribute Ref.platform
                   QRExamples.generatedAt (JObj QRExamples.janeFields) QRExamples.selectAge
                   QRExamples.janePayload _ (JObj QRExamples.janePayload)
                   (Examples.noon + Examples.hour) [Examples.jane] _ _ _)).
  - vm_compute. reflexivity.
  - vm_compute. reflexivity.
  - intros k. reflexivity.
Defined.

Section FreshCode.
Context (P : Platform).

Lemma app_not_empty (a b : string) (c : ascii) : a +:+ String c b ≠ EmptyString.
Proof. destruct a; discriminate. Qed.

Lemma reads_object (p : jsval) (k : string) (v : jsval) :
  opt_member p k = v → v ≠ JUndef → nullish p = false.
Proof. destruct p; simpl; intros H Hv; congruence. Qed.

End FreshCode.

(** X15.  A fresh code of a stored document verifies it.  When the
    scanner hands back the payload the generator built for a document,
    the queue holds a submission with the document's name, date of
    birth, Aadhaar number, mobile number and username (the name a string,
    the others primitives), no submission before it reaches the
    threshold, and the code is at most 24 hours old, the scan returns
    the verified verdict for that submission and marks it verified. *)
Theorem X15_fresh_code_verifies_its_document (P : Platform) (B : Browser)
    (nowISO : string) (D : gmap string jsval) (selectedAttributes : jsval)
    (payload : gmap string jsval) (url : string) (p : jsval) (now t : Z)
    (l1 l2 : list (gmap string jsval)) (s : gmap string jsval) :
  QRGenerator.filteredQrData P nowISO (JObj D) selectedAttributes = Ok payload →
  QRGenerator.verificationUrl P B nowISO (JObj D) selectedAttributes = Ok url →
  parseQRData P (JStr url) = Ok p →
  (∀ k, opt_member p k = prop payload k) →
  comparableIdentity D →
  sameIdentity D s →
  Forall (below P p) l1 →
  Date_parse P nowISO = Some t →
  now - t ≤ 24 * (1000 * 60 * 60) →
  qrValidationResult (handleQRScan P now (l1 ++ s :: l2) (JStr url))
    = Some (verifiedVerdict p s)
  ∧ storeCalls (handleQRScan P now (l1 ++ s :: l2) (JStr url))
    = [updateSubmissionStatus (prop s "id") "verified"].
Proof.
  intros Hgen Hurl Hparse Hread [Hname Hprim] Hsame Hbelow Hdate Hfresh.
  destruct (filteredQrData_fields P _ _ _ _ Hgen)
    as (HdocType & Hat & Hu & Hn & Hd & Hm & Ha & _).
  cbn [opt_member] in Hu, Hn, Hd, Hm, Ha.
  assert (Hp : nullish p = false).
  { apply (reads_object p "docType" _ (Hread "docType")). rewrite HdocType. discriminate. }
  unfold sameIdentity, identityFields in Hsame.
  inversion Hsame as [|? ? Sn Hs1]; subst. inversion Hs1 as [|? ? Sd Hs2]; subst.
  inversion Hs2 as [|? ? Sa Hs3]; subst. inversion Hs3 as [|? ? Sm Hs4]; subst.
  inversion Hs4 as [|? ? Su _]; subst. clear Hsame Hs1 Hs2 Hs3 Hs4.
  inversion Hprim as [|? ? Pd Hp1]; subst. inversion Hp1 as [|? ? Pa Hp2]; subst.
  inversion Hp2 as [|? ? Pm Hp3]; subst. inversion Hp3 as [|? ? Pu _]; subst.
  clear Hprim Hp1 Hp2 Hp3.
  destruct (prop D "name") as [| | | |n| |] eqn:En; try discriminate Hname.
  assert (Hchecks : matchChecks P p s = Ok [true; true; true; true; true]).
  { unfold matchChecks. rewrite Sn. cbn [lower_trim bind].
    rewrite !(member_non_nullish P _ _ Hp). cbn [bind].
    rewrite (Hread "name"), Hn. cbn [opt_lower_trim nullish lower_trim bind].
    rewrite (Hread "dob"), Hd, (Hread "aadhaar"), Ha, (Hread "mobile"), Hm,
            (Hread "username"), Hu, Sd, Sa, Sm, Su.
    rewrite !strict_eq_refl by (assumption || reflexivity).
    reflexivity. }
  assert (Hmeets : meets P p s).
  { exists [true; true; true; true; true]. split; [exact Hchecks|]. cbn. lia. }
  pose proof (selected_of_split P p l1 l2 s Hbelow Hmeets) as Hsel.
  destruct (validateParsed_found P now _ p s Hsel) as (cs & Hcs & _ & Hv).
  rewrite Hchecks in Hcs. injection Hcs as <-.
  assert (Hexp : isExpired now (verifiedAtOf P p) = false).
  { unfold verifiedAtOf. rewrite (Hread "verifiedAt"), Hat. cbn [Date_of]. rewrite Hdate.
    cbn [isExpired]. apply Z.ltb_ge. exact Hfresh. }
  rewrite Hexp in Hv.
  assert (Hurl' : truthy (JStr url) = true).
  { unfold QRGenerator.verificationUrl in Hurl. rewrite Hgen in Hurl. cbn [bind] in Hurl.
    destruct (encodeURIComponent B _) as [enc|]; [|discriminate]. cbn [bind] in Hurl.
    injection Hurl as <-. cbn [truthy]. apply negb_true_iff, String.eqb_neq.
    apply app_not_empty. }
  rewrite (handleQRScan_validated P now _ (JStr url) Hurl' Hurl').
  cbn [scanContent qrValidationResult storeCalls].
  rewrite (validateQRData_parsed P now _ _ p Hparse), Hv.
  split; reflexivity.
Qed.

Lemma X15_witness :
  ∃ url,
    QRGenerator.verificationUrl Ref.platform RefBrowser.browser QRExamples.generatedAt
      (JObj QRExamples.janeFields) QRExamples.selectAge = Ok url
    ∧ storeCalls (handleQRScan Ref.platform (Examples.noon + Examples.hour)
                    [Examples.bob; Examples.jane] (JStr url))
      = [updateSubmissionStatus (JNum 1709200000000) "verified"].
Proof.
  eexists. split; [vm_compute; reflexivity|].
  refine (proj2 (X15_fresh_code_verifies_its_document Ref.platform RefBrowser.browser
                   QRExamples.generatedAt QRExamples.janeFields QRExamples.selectAge
                   QRExamples.janePayload _ (JObj QRExamples.janePayload)
                   (Examples.noon + Examples.hour) Examples.noon
                   [Examples.bob] [] Examples.jane _ _ _ _ _ _ _ _ _)).
  - vm_compute. reflexivity.
  - vm_compute. reflexivity.
  - vm_compute. reflexivity.
  - intros k. reflexivity.
  - split; [reflexivity|repeat constructor].
  - repeat constructor.
  - constructor; [|constructor].
    eexists. split; [vm_compute; reflexivity|]. cbn. lia.
  - vm_compute. reflexivity.
  - vm_compute. discriminate.
Defined.

Section QueueReads.
Context (P : Platform).

Import LocalStore.

Lemma getSubmissions_app (a b : list (gmap string jsval)) :
  getSubmissions P (a ++ b) = getSubmissions P a ++ getSubmissions P b.
Proof.
  unfold getSubmissions. induction a as [|x a IH]; cbn; [reflexivity|].
  cbn in IH. rewrite IH. destruct (decryptOne P x); reflexivity.
Qed.

Lemma getSubmissions_cons (d : gmap string jsval) (b : list (gmap string jsval)) :
  getSubmissions P (d :: b)
  = match decryptOne P d with Some e => [e] | None => [] end ++ getSubmissions P b.
Proof. unfold getSubmissions. cbn. destruct (decryptOne P d); reflexivity. Qed.

(** The entry of a readable document after its status is set. *)
Lemma decryptOne_status (s : gmap string jsval) (status : jsval) :
  readable P s = true → truthy status = true →
  decryptOne P s = Some (decorated P s)
  ∧ decryptOne P (<["status" := status]> s) = Some (<["status" := status]> (decorated P s)).
Proof.
  intros Hr Ht. split.
  - rewrite decryptOne_readable, Hr. reflexivity.
  - rewrite decryptOne_readable.
    assert (He : prop (<["status" := status]> s) "encryptedData" = prop s "encryptedData").
    { unfold prop. rewrite lookup_insert_ne by discriminate. reflexivity. }
    unfold readable in *. rewrite He, Hr.
    unfold decorated, decorate. rewrite He. f_equal.
    unfold prop. rewrite lookup_insert_eq. cbn [default from_option id].
    unfold js_or at 1. rewrite Ht.
    rewrite !(lookup_insert_ne _ "status") by discriminate.
    rewrite insert_insert_eq. reflexivity.
Qed.

Lemma deleteEach_unmatched (ls : Storage) (docs l : list (gmap string jsval)) :
  holds P ls "submissions" (map JObj docs) →
  Forall (λ d, Forall (λ d', prop d' "_id" ≠ JStr (to_str P (prop d "id"))) docs) l →
  FirebaseService.deleteEach P (map JObj l) ls = Ok ls.
Proof.
  intros Hh Hl. induction Hl as [|d l Hd _ IH]; [reflexivity|].
  cbn [map FirebaseService.deleteEach member bind].
  unfold FirebaseService.deleteSubmission, FirebaseService._executeOperation.
  rewrite (execute_holds P _ _ _ _ _ _ _ Hh), operate_deleteOne.
  rewrite (findIndex_r_none _ _ (unmatched_other_ids P docs _ Hd)).
  cbn [bind fst snd]. exact IH.
Qed.

End QueueReads.

(** X16.  A status written is the status read.  In a keyed queue with
    distinct [_id]s, after [updateSubmissionStatus] with the [id] of a
    readable document and a status that is not empty, [getSubmissions]
    returns the entries it returned before, in the same order, with the
    [status] of that document's entry replaced: the call a verified scan
    makes shows in the queue. *)
Theorem X16_status_written_is_status_read (P : Platform) (ls : LocalStore.Storage)
    (d1 d2 : list (gmap string jsval)) (s : gmap string jsval) (status : jsval)
    (fresh : string) :
  holds P ls "submissions" (map JObj (d1 ++ s :: d2)) →
  keyed P (d1 ++ s :: d2) →
  NoDup (map (λ d, prop d "_id") (d1 ++ s :: d2)) →
  primitive (prop s "id") = true →
  readable P s = true →
  truthy status = true →
  previewed (d1 ++ s :: d2) →
  persists P (map JObj (d1 ++ <["status" := status]> s :: d2)) →
  SubmissionQueue.readSubmissions P ls
  = Some (Ok (getSubmissions P d1 ++ decorated P s :: getSubmissions P d2))
  ∧ ∃ ls',
      SubmissionQueue.updateSubmissionStatus P fresh (prop s "id") status ls = Some (Ok ls')
      ∧ SubmissionQueue.readSubmissions P ls'
        = Some (Ok (getSubmissions P d1
                    ++ <["status" := status]> (decorated P s) :: getSubmissions P d2)).
Proof.
  intros Hh Hk Hnd Hpr Hr Ht Hpv Hp.
  destruct (decryptOne_status P s status Hr Ht) as [Hd Hd'].
  split.
  - rewrite (readSubmissions_holds P _ _ Hh Hpv), getSubmissions_app, getSubmissions_cons, Hd.
    reflexivity.
  - destruct (updateSubmissionStatus_found P ls d1 s d2 status fresh Hh Hk Hnd Hpr Hp)
      as (H1 & H2 & _).
    eexists. split; [exact H1|].
    rewrite (readSubmissions_holds P _ _ H2), getSubmissions_app, getSubmissions_cons, Hd'.
    + reflexivity.
    + destruct d1 as [|x d1]; cbn in *; [|exact Hpv].
      unfold SubmissionQueue.previewable, prop in *.
      rewrite lookup_insert_ne by discriminate. exact Hpv.
Qed.

Lemma X16_witness :
  ∃ ls',
    SubmissionQueue.updateSubmissionStatus Ref.platform EmptyString
      (JNum 1709200000000) (JStr "verified") StoreExamples.twoSubmissions = Some (Ok ls')
    ∧ match SubmissionQueue.readSubmissions Ref.platform ls' with
      | Some (Ok entries) => Some (map (λ e, (prop e "name", prop e "status")) entries)
      | _ => None
      end
      = Some [ (JStr "Bob Roe", JStr "pending"); (JStr "Jane Doe", JStr "verified") ].
Proof.
  destruct (X16_status_written_is_status_read Ref.platform StoreExamples.twoSubmissions
              [StoreExamples.storedBob] [] StoreExamples.storedJane (JStr "verified")
              EmptyString)
    as (_ & ls' & H1 & H2).
  - vm_compute. reflexivity.
  - repeat constructor.
  - vm_compute. apply NoDup_cons_2; [|apply NoDup_cons_2; [|apply NoDup_nil_2]].
    + rewrite not_elem_of_cons. split; [discriminate|apply not_elem_of_nil].
    + apply not_elem_of_nil.
  - reflexivity.
  - vm_compute. reflexivity.
  - reflexivity.
  - reflexivity.
  - vm_compute. reflexivity.
  - exists ls'. split; [exact H1|]. rewrite H2. vm_compute. reflexivity.
Defined.

(** X17.  Clearing removes nothing from a queue that is not keyed.  When
    no stored document has for [_id] the text of the [id] of any stored
    document (as for a document created by an upsert, whose [_id] is a
    fresh identifier), every deletion of [clearAllSubmissions] finds no
    document: the call succeeds and the storage is what it was. *)
Theorem X17_clear_keeps_documents_not_keyed (P : Platform) (ls : LocalStore.Storage)
    (docs : list (gmap string jsval)) :
  holds P ls "submissions" (map JObj docs) →
  Forall (λ d, Forall (λ d', prop d' "_id" ≠ JStr (to_str P (prop d "id"))) docs) docs →
  SubmissionQueue.clearAllSubmissions P ls = Ok ls.
Proof.
  intros Hh Hn.
  unfold SubmissionQueue.clearAllSubmissions, FirebaseService.clearAllSubmissions.
  rewrite (getAllSubmissions_holds P _ _ Hh).
  exact (deleteEach_unmatched P ls docs docs Hh Hn).
Qed.

Lemma X17_witness :
  SubmissionQueue.clearAllSubmissions Ref.platform StoreExamples.upsertedOnly
  = Ok StoreExamples.upsertedOnly.
Proof.
  refine (X17_clear_keeps_documents_not_keyed Ref.platform
            StoreExamples.upsertedOnly [StoreExamples.upsertedDocument] _ _).
  - vm_compute. reflexivity.
  - repeat constructor. vm_compute. discriminate.
Defined.

(** X18.  A [null] at the head of the stored list hides the queue.
    [getAllSubmissions] logs the fields of the first element inside its
    [try] block; when that element is [null] the read ends in the
    [catch] block and returns an empty list, whatever follows in the
    list, so [getSubmissions] returns no submission and
    [clearAllSubmissions] deletes nothing. *)
Theorem X18_null_head_hides_the_queue (P : Platform) (ls : LocalStore.Storage)
    (first : jsval) (rest : list jsval) :
  holds P ls "submissions" (first :: rest) →
  nullish first = true →
  FirebaseService.getAllSubmissions P ls = []
  ∧ SubmissionQueue.readSubmissions P ls = Some (Ok [])
  ∧ SubmissionQueue.clearAllSubmissions P ls = Ok ls.
Proof.
  intros Hh Hn.
  assert (H : FirebaseService.getAllSubmissions P ls = []).
  { unfold FirebaseService.getAllSubmissions, FirebaseService._executeOperation.
    rewrite (execute_holds P _ _ _ _ _ _ _ Hh), operate_find.
    cbn [LocalStore.itemsArray bind]. rewrite filter_r_all by reflexivity.
    cbn [bind fst snd]. rewrite Hn. reflexivity. }
  split; [exact H|]. split.
  - unfold SubmissionQueue.readSubmissions. rewrite H. reflexivity.
  - unfold SubmissionQueue.clearAllSubmissions, FirebaseService.clearAllSubmissions.
    rewrite H. reflexivity.
Qed.

Lemma X18_witness :
  FirebaseService.getAllSubmissions Ref.platform StoreExamples.nullHead = [].
Proof.
  refine (proj1 (X18_null_head_hides_the_queue Ref.platform StoreExamples.nullHead
                   JNull [JNum 5] _ _)).
  - vm_compute. reflexivity.
  - reflexivity.
Defined.

(** ** Field encryption *)

Section FieldFacts.
Context (P : Platform).

Import FieldCodec.

Lemma forEach_r_set (g : string → option jsval)
    (step : gmap string jsval → string → result (gmap string jsval)) (fs : list string) :
  (∀ acc f, f ∈ fs → step acc f = Ok (setField g acc f)) →
  ∀ acc, forEach_r step fs acc = Ok (foldl (setField g) acc fs).
Proof.
  induction fs as [|f fs IH]; intros Hstep acc; [reflexivity|].
  cbn [forEach_r foldl]. rewrite Hstep by left. cbn [bind].
  apply IH. intros acc' f' Hf'. apply Hstep. right. exact Hf'.
Qed.

Lemma foldl_set_lookup (g : string → option jsval) (fs : list string) :
  ∀ acc k,
    foldl (setField g) acc fs !! k
    = match (if bool_decide (k ∈ fs) then g k else None) with
      | Some v => Some v
      | None => acc !! k
      end.
Proof.
  induction fs as [|f fs IH]; intros acc k; [reflexivity|].
  cbn [foldl]. rewrite IH.
  destruct (bool_decide (k ∈ fs)) eqn:Hin.
  - apply bool_decide_eq_true in Hin.
    rewrite (bool_decide_eq_true_2 (k ∈ f :: fs)) by (right; exact Hin).
    destruct (g k) as [v|] eqn:Hg; [reflexivity|].
    unfold setField. destruct (g f) as [v'|] eqn:Hf; [|reflexivity].
    rewrite lookup_insert_ne; [reflexivity|]. intros ->. congruence.
  - apply bool_decide_eq_false in Hin.
    unfold setField. destruct (decide (k = f)) as [->|Hk].
    + rewrite (bool_decide_eq_true_2 (f ∈ f :: fs)) by left.
      destruct (g f) as [v'|]; [apply lookup_insert_eq|reflexivity].
    + rewrite (bool_decide_eq_false_2 (k ∈ f :: fs)).
      * destruct (g f) as [v'|]; [|reflexivity].
        rewrite lookup_insert_ne by congruence. reflexivity.
      * intros E. apply elem_of_cons in E as [E|E]; contradiction.
Qed.

Lemma forEach_r_throws {A S : Type} (step : S → A → result S) (fs : list A) (f : A) :
  f ∈ fs → (∀ acc, ∃ e, step acc f = Throw e) →
  ∀ acc, ∃ e, forEach_r step fs acc = Throw e.
Proof.
  intros Hin Hf. induction Hin as [f fs|f f' fs _ IH]; intros acc; cbn [forEach_r].
  - destruct (Hf acc) as [e ->]. eauto.
  - destruct (step acc f') as [acc'|e]; cbn [bind]; eauto.
Qed.

(** The cipher contract carried to [encryptData] and [decryptData]. *)
Lemma encryptData_inverts (salt : Salt) (v : jsval) :
  cipher_inverts P → serializes P v →
  ∃ c, encryptData P salt v = Ok c ∧ decryptData P (JStr c) = Ok v.
Proof.
  intros Hc (json & Hj & Hw & Hp).
  destruct (Hc json ENCRYPTION_KEY salt Hw) as (c & w & He & Hd & Hu).
  exists c. unfold encryptData, decryptData.
  rewrite Hj, He, Hd. cbn [bind]. rewrite Hu. cbn [bind]. rewrite Hp. auto.
Qed.

Lemma isEncrypted_wrapped (c : string) :
  isEncrypted (wrapped c) = true ∧ opt_member (wrapped c) "data" = JStr c.
Proof. split; reflexivity. Qed.

Lemma not_toEncrypt_not_encrypted (v : jsval) :
  toEncrypt v = false → isEncrypted v = false.
Proof.
  unfold toEncrypt, isEncrypted.
  destruct v; cbn [truthy typeof_object strict_eq negb andb]; intros H;
    rewrite ?andb_false_r; try reflexivity; discriminate H.
Qed.

Lemma not_truthy_not_encrypted (v : jsval) : truthy v = false → isEncrypted v = false.
Proof. unfold isEncrypted. intros ->. reflexivity. Qed.

Lemma truthy_lookup (S : gmap string jsval) (k : string) :
  truthy (prop S k) = true → S !! k = Some (prop S k).
Proof. unfold prop. destruct (S !! k); [reflexivity|discriminate]. Qed.

Lemma toEncrypt_truthy (v : jsval) : toEncrypt v = true → truthy v = true.
Proof. unfold toEncrypt. destruct (truthy v); [reflexivity|discriminate]. Qed.

Lemma originalData_not_sensitive : bool_decide ("originalData" ∈ sensitiveFields) = false.
Proof. reflexivity. Qed.

(** What [decryptSubmissionData] does to each field of an object. *)
Lemma decryptSubmissionData_lookup (E : gmap string jsval) :
  ∃ D, decryptSubmissionData P (JObj E) = JObj D
       ∧ ∀ k, D !! k = if markedField E k then Some (decryptedValue P E k) else E !! k.
Proof.
  set (g := λ f, if isEncrypted (prop E f) then Some (decryptedValue P E f) else None).
  assert (Hstep : ∀ acc f, f ∈ sensitiveFields →
            decryptField P (JObj E) acc f = Ok (setField g acc f)).
  { intros acc f Hf. unfold decryptField, setField, g, decryptedValue.
    cbn [member bind].
    assert (Hno : String.eqb f "originalData" = false).
    { apply String.eqb_neq. intros ->.
      exact (proj1 (bool_decide_eq_false _) originalData_not_sensitive Hf). }
    rewrite Hno.
    destruct (isEncrypted (prop E f)); [|reflexivity].
    destruct (decryptData P (opt_member (prop E f) "data")); reflexivity. }
  unfold decryptSubmissionData. cbn [spread_props].
  rewrite (forEach_r_set g _ _ Hstep). cbn [bind member].
  set (D0 := foldl (setField g) E sensitiveFields).
  assert (HD0 : ∀ k, D0 !! k
            = if bool_decide (k ∈ sensitiveFields) && isEncrypted (prop E k)
              then Some (decryptedValue P E k) else E !! k).
  { intros k. unfold D0. rewrite foldl_set_lookup. unfold g.
    destruct (bool_decide (k ∈ sensitiveFields)); [|reflexivity].
    destruct (isEncrypted (prop E k)); reflexivity. }
  destruct (isEncrypted (prop E "originalData")) eqn:Ho.
  - exists (<["originalData" := decryptedValue P E "originalData"]> D0). split.
    + unfold decryptedValue.
      destruct (decryptData P (opt_member (prop E "originalData") "data")); reflexivity.
    + intros k. unfold markedField. destruct (String.eqb k "originalData") eqn:Hk.
      * apply String.eqb_eq in Hk. subst k. rewrite lookup_insert_eq, Ho, orb_true_r.
        reflexivity.
      * apply String.eqb_neq in Hk. rewrite lookup_insert_ne by congruence.
        rewrite HD0, orb_false_r. reflexivity.
  - exists D0. split; [reflexivity|].
    intros k. unfold markedField. rewrite HD0.
    destruct (String.eqb k "originalData") eqn:Hk.
    + apply String.eqb_eq in Hk. subst k. rewrite Ho, originalData_not_sensitive.
      reflexivity.
    + rewrite orb_false_r. reflexivity.
Qed.

(** What [encryptSubmissionData] does to each field of an object when
    the cipher inverts and the values to encrypt serialize. *)
Lemma encryptSubmissionData_lookup (salt : string → Salt) (S : gmap string jsval) :
  cipher_inverts P →
  (∀ k, encryptedField S k = true → serializes P (prop S k)) →
  ∃ E, encryptSubmissionData P salt (JObj S) = JObj E
       ∧ ∀ k, if encryptedField S k
              then ∃ c, E !! k = Some (wrapped c) ∧ decryptData P (JStr c) = Ok (prop S k)
              else E !! k = S !! k.
Proof.
  intros Hc Hser.
  set (c := λ k, match encryptData P (salt k) (prop S k) with
                 | Ok c => c
                 | Throw _ => EmptyString
                 end).
  assert (Henc : ∀ k, encryptedField S k = true →
            encryptData P (salt k) (prop S k) = Ok (c k)
            ∧ decryptData P (JStr (c k)) = Ok (prop S k)).
  { intros k Hk. destruct (encryptData_inverts (salt k) _ Hc (Hser k Hk)) as (c0 & H1 & H2).
    unfold c. rewrite H1. auto. }
  set (g := λ f, if toEncrypt (prop S f) then Some (wrapped (c f)) else None).
  assert (Hstep : ∀ acc f, f ∈ sensitiveFields →
            encryptField P salt (JObj S) acc f = Ok (setField g acc f)).
  { intros acc f Hf. unfold encryptField, setField, g. cbn [member bind].
    destruct (toEncrypt (prop S f)) eqn:Ht; [|reflexivity].
    destruct (Henc f) as [-> _]; [|reflexivity].
    unfold encryptedField. rewrite (bool_decide_eq_true_2 _ Hf), Ht. reflexivity. }
  unfold encryptSubmissionData. cbn [spread_props].
  rewrite (forEach_r_set g _ _ Hstep). cbn [bind member].
  set (E0 := foldl (setField g) S sensitiveFields).
  assert (HE0 : ∀ k, E0 !! k
            = if bool_decide (k ∈ sensitiveFields) && toEncrypt (prop S k)
              then Some (wrapped (c k)) else S !! k).
  { intros k. unfold E0. rewrite foldl_set_lookup. unfold g.
    destruct (bool_decide (k ∈ sensitiveFields)); [|reflexivity].
    destruct (toEncrypt (prop S k)); reflexivity. }
  assert (Hcases : ∀ k, String.eqb k "originalData" = false →
            if encryptedField S k
            then ∃ c0, E0 !! k = Some (wrapped c0) ∧ decryptData P (JStr c0) = Ok (prop S k)
            else E0 !! k = S !! k).
  { intros k Hk. rewrite HE0. unfold encryptedField in *. rewrite Hk, orb_false_r.
    destruct (bool_decide (k ∈ sensitiveFields) && toEncrypt (prop S k)) eqn:Hb;
      [|reflexivity].
    exists (c k). split; [reflexivity|]. apply Henc.
    unfold encryptedField. rewrite Hb. reflexivity. }
  assert (Ho : encryptedField S "originalData" = truthy (prop S "originalData")).
  { reflexivity. }
  destruct (truthy (prop S "originalData")) eqn:Ht.
  - destruct (Henc "originalData") as [H1 H2]; [rewrite Ho; reflexivity|].
    rewrite H1. cbn [bind].
    exists (<["originalData" := wrapped (c "originalData")]> E0). split; [reflexivity|].
    intros k. destruct (String.eqb k "originalData") eqn:Hk.
    + apply String.eqb_eq in Hk. subst k. rewrite Ho.
      exists (c "originalData"). split; [apply lookup_insert_eq|exact H2].
    + pose proof (Hcases k Hk) as Hck. apply String.eqb_neq in Hk.
      rewrite lookup_insert_ne by congruence. exact Hck.
  - exists E0. split; [reflexivity|].
    intros k. destruct (String.eqb k "originalData") eqn:Hk.
    + apply String.eqb_eq in Hk. subst k. rewrite Ho. rewrite HE0.
      rewrite originalData_not_sensitive. reflexivity.
    + exact (Hcases k Hk).
Qed.

End FieldFacts.

(** X19.  Field encryption and decryption undo each other.  When the
    cipher inverts and the values to encrypt serialize,
    [encryptSubmissionData] returns the record with each sensitive field
    that has a value (and [originalData]) replaced by
    [{encrypted: true, data: ciphertext}] and every other field as it
    was, and [decryptSubmissionData] gives back the record. *)
Theorem X19_field_encryption_round_trip (P : Platform) (salt : string → Salt)
    (S : gmap string jsval) :
  cipher_inverts P →
  (∀ k, encryptedField S k = true → serializes P (prop S k)) →
  ∃ E, FieldCodec.encryptSubmissionData P salt (JObj S) = JObj E
       ∧ (∀ k, encryptedField S k = true → ∃ c, E !! k = Some (FieldCodec.wrapped c))
       ∧ (∀ k, encryptedField S k = false → E !! k = S !! k)
       ∧ FieldCodec.decryptSubmissionData P (JObj E) = JObj S.
Proof.
  intros Hc Hser.
  destruct (encryptSubmissionData_lookup P salt S Hc Hser) as (E & HE & Hk).
  exists E. split; [exact HE|]. split; [|split].
  - intros k Hkt. specialize (Hk k). rewrite Hkt in Hk. destruct Hk as (c & H1 & _). eauto.
  - intros k Hkf. specialize (Hk k). rewrite Hkf in Hk. exact Hk.
  - destruct (decryptSubmissionData_lookup P E) as (D & HD & HDk).
    rewrite HD. f_equal. apply map_eq. intros k. rewrite HDk.
    specialize (Hk k). unfold markedField, decryptedValue.
    destruct (encryptedField S k) eqn:He.
    + destruct Hk as (c & H1 & H2).
      assert (Hm : bool_decide (k ∈ FieldCodec.sensitiveFields) || String.eqb k "originalData"
                   = true).
      { unfold encryptedField in He. apply orb_true_iff in He as [He|He];
          apply andb_true_iff in He as [He _]; rewrite He; [reflexivity|apply orb_true_r]. }
      assert (Ht : truthy (prop S k) = true).
      { unfold encryptedField in He. apply orb_true_iff in He as [He|He];
          apply andb_true_iff in He as [_ He]; [apply toEncrypt_truthy|]; exact He. }
      unfold prop at 1 2. rewrite H1. cbn [default from_option id].
      rewrite Hm, (proj1 (isEncrypted_wrapped c)), (proj2 (isEncrypted_wrapped c)), H2.
      cbn [andb]. symmetry. apply truthy_lookup, Ht.
    + assert (Hp : prop E k = prop S k). { unfold prop. rewrite Hk. reflexivity. }
      rewrite Hp.
      assert (Hn : (bool_decide (k ∈ FieldCodec.sensitiveFields)
                    || String.eqb k "originalData")
                   && FieldCodec.isEncrypted (prop S k) = false).
      { unfold encryptedField in He. apply orb_false_iff in He as [He1 He2].
        destruct (bool_decide (k ∈ FieldCodec.sensitiveFields)); cbn [andb orb] in *.
        - apply not_toEncrypt_not_encrypted, He1.
        - destruct (String.eqb k "originalData"); cbn [andb] in *; [|reflexivity].
          apply not_truthy_not_encrypted, He2. }
      rewrite Hn. exact Hk.
Qed.

Lemma X19_witness :
  ∃ E, FieldCodec.encryptSubmissionData Ref.platform (λ _, "k") (JObj FieldExamples.jane)
       = JObj E
       ∧ E !! "dob" = Some (JStr "N/A")
       ∧ FieldCodec.decryptSubmissionData Ref.platform (JObj E) = JObj FieldExamples.jane.
Proof.
  destruct (X19_field_encryption_round_trip Ref.platform (λ _, "k") FieldExamples.jane)
    as (E & H1 & _ & H2 & H3).
  - exact Ref_cipher_inverts.
  - intros k Hk. unfold encryptedField in Hk.
    assert (Hin : k = "name" ∨ k = "mobile").
    { destruct (bool_decide (k ∈ FieldCodec.sensitiveFields)) eqn:Hd.
      - apply bool_decide_eq_true in Hd.
        repeat (apply elem_of_cons in Hd as [->|Hd]); auto;
          try (vm_compute in Hk; discriminate Hk). inversion Hd.
      - cbn [andb orb] in Hk. apply andb_true_iff in Hk as [Hk Ht].
        apply String.eqb_eq in Hk. subst k. vm_compute in Ht. discriminate Ht. }
    destruct Hin as [-> | ->].
    + exists (default EmptyString (Ref.stringify (prop FieldExamples.jane "name"))).
      repeat split; vm_compute; reflexivity.
    + exists (default EmptyString (Ref.stringify (prop FieldExamples.jane "mobile"))).
      repeat split; vm_compute; reflexivity.
  - exists E. split; [exact H1|]. split; [|exact H3].
    rewrite (H2 "dob"); reflexivity.
Defined.

(** X20.  Field encryption fails open.  When the cipher throws for any
    one of the values to encrypt, [encryptSubmissionData] returns the
    record it was given: no field is encrypted, also not those whose
    encryption had succeeded, and the caller is not told. *)
Theorem X20_field_encryption_fails_open (P : Platform) (salt : string → Salt)
    (S : gmap string jsval) (k : string) (e : exn) :
  encryptedField S k = true →
  AES_encrypt P (JSON_stringify P (prop S k)) FieldCodec.ENCRYPTION_KEY (salt k) = Throw e →
  FieldCodec.encryptSubmissionData P salt (JObj S) = JObj S.
Proof.
  intros Hk Hthrow.
  assert (He : FieldCodec.encryptData P (salt k) (prop S k) = Throw FieldCodec.encryptFailed).
  { unfold FieldCodec.encryptData. rewrite Hthrow. reflexivity. }
  unfold FieldCodec.encryptSubmissionData. cbn [spread_props].
  unfold encryptedField in Hk. apply orb_true_iff in Hk as [Hk|Hk];
    apply andb_true_iff in Hk as [Hk1 Hk2].
  - apply bool_decide_eq_true in Hk1.
    destruct (forEach_r_throws (FieldCodec.encryptField P salt (JObj S))
                FieldCodec.sensitiveFields k Hk1) with (acc := S) as [e' ->];
      [|reflexivity].
    intros acc. unfold FieldCodec.encryptField. cbn [member bind].
    rewrite Hk2, He. eauto.
  - apply String.eqb_eq in Hk1. subst k.
    destruct (FieldCodec.forEach_r _ _ _) as [E0|e']; [|reflexivity].
    cbn [bind member]. rewrite Hk2, He. reflexivity.
Qed.

Lemma X20_witness :
  FieldCodec.encryptSubmissionData FieldExamples.noRandom (λ _, "k")
    (JObj FieldExamples.jane)
  = JObj FieldExamples.jane.
Proof.
  apply (X20_field_encryption_fails_open FieldExamples.noRandom (λ _, "k")
           FieldExamples.jane "mobile"
           (Exn "Error" "Native crypto module could not be used to get secure random number.")).
  - reflexivity.
  - reflexivity.
Defined.

(** X21.  A field that does not decrypt is replaced by a marker, and the
    others are still decrypted.  [decryptSubmissionData] always returns a
    record; a sensitive field marked as encrypted whose data cannot be
    decrypted becomes the text 'Decryption Error' ([originalData]:
    [null]), every other marked field becomes its decrypted value, and
    the fields that are not marked are returned as they are. *)
Theorem X21_field_decryption_marks_failures (P : Platform) (E : gmap string jsval)
    (k : string) (e : exn) :
  markedField E k = true →
  FieldCodec.decryptData P (opt_member (prop E k) "data") = Throw e →
  ∃ D, FieldCodec.decryptSubmissionData P (JObj E) = JObj D
       ∧ D !! k = Some (if String.eqb k "originalData" then JNull
                        else JStr "Decryption Error")
       ∧ ∀ k', D !! k' = if markedField E k' then Some (decryptedValue P E k')
                         else E !! k'.
Proof.
  intros Hm Hthrow.
  destruct (decryptSubmissionData_lookup P E) as (D & HD & HDk).
  exists D. split; [exact HD|]. split; [|exact HDk].
  rewrite HDk, Hm. unfold decryptedValue. rewrite Hthrow. reflexivity.
Qed.

Lemma X21_witness :
  ∃ D, FieldCodec.decryptSubmissionData Ref.platform (JObj FieldExamples.damaged) = JObj D
       ∧ D !! "name" = Some (JStr "Decryption Error")
       ∧ D !! "username" = Some (JStr "jane").
Proof.
  destruct (X21_field_decryption_marks_failures Ref.platform FieldExamples.damaged "name"
              FieldCodec.decryptFailed)
    as (D & H1 & H2 & H3).
  - reflexivity.
  - vm_compute. reflexivity.
  - exists D. split; [exact H1|]. split; [exact H2|].
    rewrite H3. reflexivity.
Defined.

(** ** Documents *)

Section DocumentFacts.
Context (P : Platform).

Import LocalStore.

Lemma documentRecord_lookup (iso1 iso2 : string) (u data : jsval) (k : string) :
  k ≠ "updatedAt" → k ≠ "uploadedAt" →
  FirebaseService.documentRecord iso1 iso2 u data !! k
  = (spread_props data ∪ {["username" := u]}) !! k.
Proof.
  intros H1 H2. unfold FirebaseService.documentRecord.
  rewrite !lookup_insert_ne by congruence. reflexivity.
Qed.

Lemma documentRecord_username (iso1 iso2 : string) (u data : jsval) :
  spread_props data !! "username" = None →
  FirebaseService.documentRecord iso1 iso2 u data !! "username" = Some u.
Proof.
  intros H. rewrite documentRecord_lookup by discriminate.
  rewrite lookup_union_r by exact H. apply lookup_singleton_eq.
Qed.

Lemma findOne_holds (ls : Storage) (c : string) (q : Query) (items : list jsval)
    (fresh : string) :
  holds P ls c items →
  _executeLocalStorageOperation P c "findOne" q JNull fresh ls
  = let! r := find_r (findCallback P q) items in Ok (default JUndef r, ls).
Proof.
  intros Hh. rewrite (execute_holds P _ _ _ _ _ _ _ Hh), operate_findOne.
  cbn [itemsArray bind]. destruct (find_r (findCallback P q) items); reflexivity.
Qed.

End DocumentFacts.

(** X22.  A document stored twice is one document.  For a user without
    a document, [storeDocument] inserts one and returns its [_id]; a
    second [storeDocument] for the same user updates that document
    instead of adding another, returns the same [_id], keeps the first
    [createdAt], and [getDocumentByUsername] returns the document, which
    carries the fields of the second call.  (The data must not carry a
    [username] of its own, which would override the user's, nor the
    second an [_id].) *)
Theorem X22_document_stored_twice_is_one_document (P : Platform)
    (ls : LocalStore.Storage) (items : list jsval) (username data data' : jsval)
    (iso1 iso2 iso3 fresh iso1' iso2' iso3' fresh' : string) :
  holds P ls "documents" items →
  unmatched P [("username", username)] items →
  primitive username = true →
  spread_props data !! "username" = None →
  spread_props data' !! "username" = None →
  spread_props data' !! "_id" = None →
  iso3 ≠ EmptyString →
  persists P (items ++ [JObj (firstStored iso1 iso2 iso3 fresh username data)]) →
  persists P (items ++ [JObj (storedAgain iso1' iso2' username data'
                                 (firstStored iso1 iso2 iso3 fresh username data))]) →
  ∃ docId ls1 ls2,
    FirebaseService.storeDocument P iso1 iso2 iso3 fresh username data ls = Ok (docId, ls1)
    ∧ FirebaseService.storeDocument P iso1' iso2' iso3' fresh' username data' ls1
      = Ok (docId, ls2)
    ∧ holds P ls2 "documents"
        (items ++ [JObj (storedAgain iso1' iso2' username data'
                           (firstStored iso1 iso2 iso3 fresh username data))])
    ∧ FirebaseService.getDocumentByUsername P username ls2
      = JObj (storedAgain iso1' iso2' username data'
                (firstStored iso1 iso2 iso3 fresh username data))
    ∧ prop (storedAgain iso1' iso2' username data'
              (firstStored iso1 iso2 iso3 fresh username data)) "_id" = docId
    ∧ prop (storedAgain iso1' iso2' username data'
              (firstStored iso1 iso2 iso3 fresh username data)) "createdAt" = JStr iso3.
Proof.
  intros Hh Hu Hp Hd Hd' Hid Hiso Hs1 Hs2.
  set (doc1 := firstStored iso1 iso2 iso3 fresh username data) in *.
  set (doc2 := storedAgain iso1' iso2' username data' doc1) in *.
  set (rec1 := <["createdAt" := JStr iso3]>
                 (FirebaseService.documentRecord iso1 iso2 username data)).
  (* the fields of the first document *)
  assert (Hdoc1 : doc1 = LocalStore.newItem fresh (JObj rec1)) by reflexivity.
  assert (Hu1 : doc1 !! "username" = Some username).
  { rewrite Hdoc1. unfold LocalStore.newItem, rec1. cbn [spread_props].
    rewrite !lookup_insert_ne by discriminate. apply documentRecord_username, Hd. }
  assert (Hc1 : doc1 !! "createdAt" = Some (JStr iso3)).
  { rewrite Hdoc1. unfold LocalStore.newItem, rec1. cbn [spread_props].
    rewrite lookup_insert_ne by discriminate. apply lookup_insert_eq. }
  assert (Hi1 : ∃ docId, doc1 !! "_id" = Some docId).
  { rewrite Hdoc1. unfold LocalStore.newItem. rewrite lookup_insert_eq. eauto. }
  destruct Hi1 as [docId Hi1].
  assert (Hm1 : LocalStore.matchesQuery P [("username", username)] (JObj doc1) = Ok true).
  { rewrite matchesQuery_single by reflexivity. cbn [opt_member]. unfold prop.
    rewrite Hu1. cbn [default from_option id]. rewrite (strict_eq_refl _ Hp). reflexivity. }
  (* the fields of the second document *)
  set (patch := <["createdAt" := js_or (prop doc1 "createdAt") (prop doc1 "uploadedAt")]>
                  (FirebaseService.documentRecord iso1' iso2' username data')).
  assert (Hdoc2 : doc2 = patch ∪ doc1) by reflexivity.
  assert (Hu2 : doc2 !! "username" = Some username).
  { rewrite Hdoc2. apply lookup_union_Some_raw. left. unfold patch.
    rewrite lookup_insert_ne by discriminate. apply documentRecord_username, Hd'. }
  assert (Hi2 : doc2 !! "_id" = Some docId).
  { rewrite Hdoc2. rewrite lookup_union_r; [exact Hi1|]. unfold patch.
    rewrite lookup_insert_ne by discriminate.
    rewrite documentRecord_lookup by discriminate.
    rewrite lookup_union_l by reflexivity. exact Hid. }
  assert (Hc2 : doc2 !! "createdAt" = Some (JStr iso3)).
  { rewrite Hdoc2. apply lookup_union_Some_raw. left. unfold patch.
    rewrite lookup_insert_eq. unfold prop at 1. rewrite Hc1. cbn [default from_option id].
    unfold js_or. cbn [truthy].
    destruct (String.eqb iso3 EmptyString) eqn:E; [|reflexivity].
    apply String.eqb_eq in E. contradiction. }
  assert (Hm2 : LocalStore.matchesQuery P [("username", username)] (JObj doc2) = Ok true).
  { rewrite matchesQuery_single by reflexivity. cbn [opt_member]. unfold prop.
    rewrite Hu2. cbn [default from_option id]. rewrite (strict_eq_refl _ Hp). reflexivity. }
  pose proof (holds_saved P ls "documents" _ Hs1) as Hh1.
  set (ls1 := <[LocalStore.storageKey "documents"
                := LocalStore.storedText P (items ++ [JObj doc1])]> ls) in *.
  pose proof (holds_saved P ls1 "documents" _ Hs2) as Hh2.
  set (ls2 := <[LocalStore.storageKey "documents"
                := LocalStore.storedText P (items ++ [JObj doc2])]> ls1) in *.
  exists docId, ls1, ls2.
  split; [|split; [|split; [|split; [|split]]]].
  - unfold FirebaseService.storeDocument, FirebaseService._executeOperation.
    rewrite (findOne_holds P _ _ _ _ _ Hh).
    rewrite (find_r_none (LocalStore.findCallback P [("username", username)]) _ Hu).
    cbn [bind fst snd default from_option id truthy].
    rewrite (execute_holds P _ _ _ _ _ _ _ Hh),
            (operate_insertOne P _ _ _ _ (eq_refl : nullish (JObj _) = false)).
    cbn [bind fst snd member]. fold rec1. rewrite <- Hdoc1.
    unfold prop. rewrite Hi1. reflexivity.
  - unfold FirebaseService.storeDocument, FirebaseService._executeOperation.
    rewrite (findOne_holds P _ _ _ _ _ Hh1).
    rewrite (find_r_found (LocalStore.findCallback P [("username", username)])
               items [] (JObj doc1) Hu Hm1).
    cbn [bind fst snd default from_option id truthy member].
    rewrite (execute_updateOne_found P ls1 "documents" _ items [] (JObj doc1) _ _ Hh1 Hu Hm1
               (eq_refl : nullish (JObj _) = false)).
    cbn [bind fst snd].
    replace (prop doc1 "_id") with docId by (unfold prop; rewrite Hi1; reflexivity).
    reflexivity.
  - exact Hh2.
  - unfold FirebaseService.getDocumentByUsername, FirebaseService._executeOperation.
    rewrite (findOne_holds P _ _ _ _ _ Hh2).
    rewrite (find_r_found (LocalStore.findCallback P [("username", username)])
               items [] (JObj doc2) Hu Hm2).
    reflexivity.
  - unfold prop. rewrite Hi2. reflexivity.
  - unfold prop. rewrite Hc2. reflexivity.
Qed.

Lemma X22_witness :
  ∃ docId ls1 ls2,
    FirebaseService.storeDocument Ref.platform "2024-03-01T12:00:00.000Z"
      "2024-03-01T12:00:00.001Z" "2024-03-01T12:00:00.002Z" StoreExamples.janeFresh
      (JStr "jane") StoreExamples.scanned StoreExamples.oneDocument = Ok (docId, ls1)
    ∧ FirebaseService.storeDocument Ref.platform "2024-03-02T08:00:00.000Z"
        "2024-03-02T08:00:00.001Z" "2024-03-02T08:00:00.002Z" EmptyString
        (JStr "jane") StoreExamples.scannedAgain ls1 = Ok (docId, ls2)
    ∧ opt_member (FirebaseService.getDocumentByUsername Ref.platform (JStr "jane") ls2)
        "createdAt" = JStr "2024-03-01T12:00:00.002Z".
Proof.
  destruct (X22_document_stored_twice_is_one_document Ref.platform
              StoreExamples.oneDocument [StoreExamples.bobDocument] (JStr "jane")
              StoreExamples.scanned StoreExamples.scannedAgain
              "2024-03-01T12:00:00.000Z" "2024-03-01T12:00:00.001Z"
              "2024-03-01T12:00:00.002Z" StoreExamples.janeFresh
              "2024-03-02T08:00:00.000Z" "2024-03-02T08:00:00.001Z"
              "2024-03-02T08:00:00.002Z" EmptyString)
    as (docId & ls1 & ls2 & H1 & H2 & _ & H3 & _ & H4).
  - vm_compute. reflexivity.
  - repeat constructor.
  - reflexivity.
  - reflexivity.
  - reflexivity.
  - reflexivity.
  - discriminate.
  - vm_compute. reflexivity.
  - vm_compute. reflexivity.
  - exists docId, ls1, ls2. split; [exact H1|]. split; [exact H2|].
    rewrite H3. exact H4.
Defined.

(** ** The age *)

Lemma yearsBetween_at_least (birth today : LocalDate) (n : Z) :
  0 < n →
  n ≤ Age.yearsBetween birth today ↔ notAfter (anniversary n birth) today.
Proof.
  intros Hn. unfold Age.yearsBetween, notAfter, anniversary. cbn [fullYear month date].
  destruct (month today - month birth <? 0) eqn:E1; cbn [orb].
  - apply Z.ltb_lt in E1. lia.
  - apply Z.ltb_ge in E1.
    destruct (month today - month birth =? 0) eqn:E2; cbn [andb].
    + apply Z.eqb_eq in E2.
      destruct (date today <? date birth) eqn:E3.
      * apply Z.ltb_lt in E3. lia.
      * apply Z.ltb_ge in E3. lia.
    + apply Z.eqb_neq in E2. lia.
Qed.

(** X23.  The age is the number of birthdays reached.  For a date of
    birth that the calendar can read, [calculateAge] is at least [n]
    (for [n] from 1) exactly when the [n]-th anniversary of the birth,
    the same month and day [n] years later, is today or earlier; and it
    is never negative. *)
Theorem X23_age_counts_the_birthdays_reached (C : Calendar) (dob : string)
    (birth : LocalDate) :
  dob ≠ EmptyString → dob ≠ "Not found" →
  Age.birthDate C dob = Some birth →
  (∀ n, 0 < n → n ≤ Age.calculateAge C dob ↔ notAfter (anniversary n birth) (Date_now C))
  ∧ 0 ≤ Age.calculateAge C dob.
Proof.
  intros H1 H2 Hb.
  assert (Hc : Age.calculateAge C dob = Age.yearsBetween birth (Date_now C)).
  { unfold Age.calculateAge. rewrite Hb.
    apply String.eqb_neq in H1, H2. rewrite H1, H2. reflexivity. }
  rewrite Hc. split.
  - intros n Hn. apply yearsBetween_at_least, Hn.
  - unfold Age.yearsBetween. lia.
Qed.

Lemma X23_witness :
  18 ≤ Age.calculateAge AgeExamples.calendar "01/03/2006"
  ∧ ¬ 18 ≤ Age.calculateAge AgeExamples.calendar "02/03/2006".
Proof.
  split.
  - destruct (X23_age_counts_the_birthdays_reached AgeExamples.calendar "01/03/2006"
                {| fullYear := 2006; month := 2; date := 1 |}) as [H _].
    + discriminate.
    + discriminate.
    + vm_compute. reflexivity.
    + apply (H 18); [lia|]. unfold notAfter. cbn. lia.
  - destruct (X23_age_counts_the_birthdays_reached AgeExamples.calendar "02/03/2006"
                {| fullYear := 2006; month := 2; date := 2 |}) as [H _].
    + discriminate.
    + discriminate.
    + vm_compute. reflexivity.
    + intros H18. apply (H 18) in H18; [|lia]. unfold notAfter in H18. cbn in H18. lia.
Defined.

(** ** The administrator's password *)


